(** * Coupon validation bot: a shallow embedding and its checked properties

    The development follows the Python package [coupon_validator]:

    - [website_pattern_recognizer.py]  platform fingerprinting,
    - [result_reporter.py]             the flat result dictionary,
    - [input_handler.py]               input validation,
    - [browser_engine.py]              navigation tactics and resource release,
    - [ai_website_analyzer.py]         element detection and selector generation,
    - [coupon_applicator.py]           selector ladders and the result classifier,
    - [main.py]                        the [validate_coupon] pipeline.

    Python dictionaries used as maps are [gmap]s, dictionaries whose iteration
    order matters are association lists, browser calls thread an explicit
    world, and exceptions are a sum type. *)

From Stdlib Require Import ZArith QArith String Ascii List Bool Lia DecimalString.
From stdpp Require Import base tactics option list strings gmap.
Import ListNotations.

Local Open Scope string_scope.
Local Open Scope list_scope.
Local Open Scope Z_scope.

(** ** Python values shared by all modules *)

(** The double-quote character, which selector strings embed. *)
Definition dq : string := String (ascii_of_nat 34) EmptyString.

(** Truthiness of a [str] and of an [Optional[str]]. *)
Definition str_truthy (s : string) : bool :=
  match s with
  | EmptyString => false
  | String _ _ => true
  end.

Definition opt_truthy (o : option string) : bool :=
  match o with
  | None => false
  | Some s => str_truthy s
  end.

(** Outcome of a call that may raise: a value, or the text of the exception. *)
Inductive res (A : Type) : Type :=
| Ok (a : A)
| Raise (msg : string).
Arguments Ok {A} a.
Arguments Raise {A} msg.

(** ** A state and exception monad for the browser-driving code *)

Definition M (S A : Type) : Type := S -> res A * S.

Definition ret {S A : Type} (a : A) : M S A := fun s => (Ok a, s).

Definition raise {S A : Type} (msg : string) : M S A := fun s => (Raise msg, s).

Definition bind {S A B : Type} (m : M S A) (k : A -> M S B) : M S B :=
  fun s =>
    match m s with
    | (Ok a, s') => k a s'
    | (Raise e, s') => (Raise e, s')
    end.

(** [try: m  except Exception as e: h(str(e))]; the state at the raise
    point is what the handler sees. *)
Definition try_except {S A : Type} (m : M S A) (h : string -> M S A) : M S A :=
  fun s =>
    match m s with
    | (Ok a, s') => (Ok a, s')
    | (Raise e, s') => h e s'
    end.

Definition modify {S : Type} (f : S -> S) : M S unit := fun s => (Ok tt, f s).

Definition gets {S A : Type} (f : S -> A) : M S A := fun s => (Ok (f s), s).

Notation "'let*' x ':=' m 'in' k" := (bind m (fun x => k))
  (at level 10, x name, m at level 100, k at level 200).
Notation "m '>>' k" := (bind m (fun _ => k))
  (at level 90, right associativity).

(** Decimal rendering of an integer inside an f-string. *)
Definition str_of_Z (n : Z) : string := DecimalString.NilZero.string_of_int (Z.to_int n).


(** ** Methods of Python's [str] used by the package

    Characters are code points below 256. *)
Module Str.

(** [c.isspace()]: the code points 9-13, 28-32, 133 and 160. *)
Definition isspace (c : ascii) : bool :=
  let n := nat_of_ascii c in
  (((9 <=? n) && (n <=? 13)) || ((28 <=? n) && (n <=? 32))
   || (n =? 133) || (n =? 160))%nat.

(** Every character of [s] is whitespace. *)
Fixpoint all_space (s : string) : bool :=
  match s with
  | EmptyString => true
  | String c rest => isspace c && all_space rest
  end.

(** [s.lstrip()], [s.rstrip()], [s.strip()] *)
Fixpoint lstrip (s : string) : string :=
  match s with
  | EmptyString => EmptyString
  | String c rest => if isspace c then lstrip rest else s
  end.

Fixpoint rstrip (s : string) : string :=
  match s with
  | EmptyString => EmptyString
  | String c rest =>
      match rstrip rest with
      | EmptyString => if isspace c then EmptyString else String c EmptyString
      | String _ _ as kept => String c kept
      end
  end.

Definition strip (s : string) : string := rstrip (lstrip s).

(** [s.split()]: the maximal runs of characters that are not whitespace;
    [word] is the run being read. *)
Fixpoint split_from (word s : string) : list string :=
  match s with
  | EmptyString => if str_truthy word then [word] else []
  | String c rest =>
      if isspace c
      then (if str_truthy word then word :: split_from EmptyString rest
            else split_from EmptyString rest)
      else split_from (word +:+ String c EmptyString) rest
  end.

Definition split (s : string) : list string := split_from EmptyString s.

(** [s.replace(old, new)] for a one-character [old]. *)
Fixpoint replace (old : ascii) (new : string) (s : string) : string :=
  match s with
  | EmptyString => EmptyString
  | String c rest =>
      (if Ascii.eqb c old then new else String c EmptyString) +:+ replace old new rest
  end.

(** [sep.join(items)] *)
Fixpoint join (sep : string) (items : list string) : string :=
  match items with
  | [] => ""
  | [x] => x
  | x :: rest => x +:+ sep +:+ join sep rest
  end.

(** [s.endswith(suffix)] for a one-character suffix. *)
Fixpoint endswith (c : ascii) (s : string) : bool :=
  match s with
  | EmptyString => false
  | String x EmptyString => Ascii.eqb x c
  | String _ rest => endswith c rest
  end.

End Str.
(** ** [re.search(pattern, text, re.IGNORECASE)] on the signature patterns

    The signature table uses three regular-expression constructs only: a
    literal character, the wildcard [.] (any character but a newline) and
    the escape [\/] for a literal slash.  Characters are 8-bit code points;
    on these, case-insensitive matching of an ASCII pattern letter is ASCII
    case folding. *)
Module Re.

Inductive atom : Type :=
| Lit (c : ascii)
| AnyChar.

Fixpoint compile (pattern : string) : list atom :=
  match pattern with
  | EmptyString => []
  | String c rest =>
      if Ascii.eqb c "\"%char then
        match rest with
        | EmptyString => [Lit c]
        | String e rest' => Lit e :: compile rest'
        end
      else if Ascii.eqb c "."%char then AnyChar :: compile rest
      else Lit c :: compile rest
  end.

Definition lower (c : ascii) : ascii :=
  let n := nat_of_ascii c in
  if ((65 <=? n) && (n <=? 90))%nat then ascii_of_nat (n + 32) else c.

Definition newline : ascii := ascii_of_nat 10.

Definition atom_matches (a : atom) (c : ascii) : bool :=
  match a with
  | Lit p => Ascii.eqb (lower p) (lower c)
  | AnyChar => negb (Ascii.eqb c newline)
  end.

(** The atoms match a prefix of [text]. *)
Fixpoint match_here (atoms : list atom) (text : string) : bool :=
  match atoms with
  | [] => true
  | a :: atoms' =>
      match text with
      | EmptyString => false
      | String c text' => atom_matches a c && match_here atoms' text'
      end
  end.

(** The atoms match at some position of [text]. *)
Fixpoint search_atoms (atoms : list atom) (text : string) : bool :=
  match_here atoms text
  || match text with
     | EmptyString => false
     | String _ text' => search_atoms atoms text'
     end.

Definition search (pattern text : string) : bool :=
  search_atoms (compile pattern) text.

End Re.

(** ** result_reporter.py *)
Module ResultReporter.

(** Values stored in the result dictionary. *)
Inductive value : Type :=
| VStr (s : string)
| VBool (b : bool).

(** [if argument: result[key] = argument] *)
Definition set_if_truthy (key : string) (argument : option string)
    (result : gmap string value) : gmap string value :=
  match argument with
  | Some s => if str_truthy s then <[key := VStr s]> result else result
  | None => result
  end.

(** [format_result]; [timestamp] is the formatted reading of
    [datetime.now()]. *)
Definition format_result (timestamp : string)
    (coupon_code website_url : string) (is_valid : bool) (status_message : string)
    (error_message discount_amount screenshot_path : option string)
    : gmap string value :=
  let result : gmap string value :=
    <["status" := VStr status_message]>
      (<["is_valid" := VBool is_valid]>
         (<["timestamp" := VStr timestamp]>
            (<["website_url" := VStr website_url]>
               (<["coupon_code" := VStr coupon_code]> ∅)))) in
  let result := set_if_truthy "error_message" error_message result in
  let result := set_if_truthy "discount_amount" discount_amount result in
  let result := set_if_truthy "screenshot_path" screenshot_path result in
  result.

(** *** [save_result] and [generate_report] *)

(** [str(v)] inside an f-string, and the truth value of [v]. *)
Definition to_str (v : value) : string :=
  match v with
  | VStr s => s
  | VBool true => "True"
  | VBool false => "False"
  end.

Definition truthy (v : value) : bool :=
  match v with
  | VStr s => str_truthy s
  | VBool b => b
  end.

(** [v.replace(" ", "_")]; only a [str] has the method. *)
Definition replace_spaces (v : value) : res string :=
  match v with
  | VStr s => Ok (Str.replace " "%char "_" s)
  | VBool _ => Raise "'bool' object has no attribute 'replace'"
  end.

(** [os.path.join(a, b)] of [posixpath]. *)
Definition path_join (a b : string) : string :=
  if String.prefix "/" b then b
  else if negb (str_truthy a) || Str.endswith "/"%char a then a +:+ b
  else a +:+ "/" +:+ b.

Definition newline : string := String (ascii_of_nat 10) EmptyString.

(** Lines 112-139: the lines of the report; [now] is the clock reading
    that serves as default timestamp. *)
Definition report_content (now : string) (result : gmap string value) : list string :=
  let coupon_code := default (VStr "unknown") (result !! "coupon_code") in
  let website_url := default (VStr "unknown") (result !! "website_url") in
  let timestamp := default (VStr now) (result !! "timestamp") in
  let is_valid := default (VBool false) (result !! "is_valid") in
  let status := default (VStr "") (result !! "status") in
  let error_message := default (VStr "") (result !! "error_message") in
  let discount_amount := default (VStr "") (result !! "discount_amount") in
  [ "Coupon Validation Report";
    "=======================";
    "";
    "Coupon Code: " +:+ to_str coupon_code;
    "Website: " +:+ to_str website_url;
    "Timestamp: " +:+ to_str timestamp;
    "Valid: " +:+ (if truthy is_valid then "Yes" else "No");
    "Status: " +:+ to_str status ]
  ++ (if truthy error_message then ["Error: " +:+ to_str error_message] else [])
  ++ (if truthy discount_amount
      then ["Discount Amount: " +:+ to_str discount_amount] else [])
  ++ match result !! "screenshot_path" with
     | Some path => ["Screenshot: " +:+ to_str path]
     | None => []
     end.

(** The clock and the file system, seen from the reporter:
    [datetime.now().strftime(format)], writing a text file, and
    [json.dump(result, f, indent=4)] into a file opened for writing. *)
Class Files (W : Type) : Type := {
  now_strftime : string -> W -> string;
  write_text : string -> string -> W -> res unit * W;
  write_json : string -> gmap string value -> W -> res unit * W
}.

Section WithFiles.

Context {W : Type} {FW : Files W}.

Definition lift_res {A : Type} (r : res A) : M W A := fun w => (r, w).

Definition save_result (output_dir : string) (result : gmap string value)
    : M W string :=
  try_except
    (let* timestamp_str := gets (now_strftime "%Y%m%d_%H%M%S") in
     let* coupon_code :=
       lift_res (replace_spaces (default (VStr "unknown") (result !! "coupon_code"))) in
     let filename := timestamp_str +:+ "_" +:+ coupon_code +:+ ".json" in
     let file_path := path_join output_dir filename in
     (fun w => write_json file_path result w) >>
     ret file_path)
    (fun _ => ret "").

Definition generate_report (output_dir : string) (result : gmap string value)
    : M W string :=
  try_except
    (let* now := gets (now_strftime "%Y-%m-%d %H:%M:%S") in
     let content := report_content now result in
     let* timestamp_str := gets (now_strftime "%Y%m%d_%H%M%S") in
     let* coupon_code_clean :=
       lift_res (replace_spaces (default (VStr "unknown") (result !! "coupon_code"))) in
     let filename := timestamp_str +:+ "_" +:+ coupon_code_clean +:+ "_report.txt" in
     let file_path := path_join output_dir filename in
     (fun w => write_text file_path (Str.join newline content) w) >>
     ret file_path)
    (fun _ => ret "").

End WithFiles.

End ResultReporter.

(** ** input_handler.py *)
Module InputHandler.

(** The two fields of [urllib.parse.urlparse]'s result that the handler
    reads. *)
Record ParseResult : Type := { scheme : string; netloc : string }.

(** The dictionary returned by [process_inputs], with its keys
    [coupon_code] and [website_url]. *)
Record ProcessedInputs : Type := {
  processed_coupon_code : string;
  processed_website_url : string
}.

Section WithUrlparse.

(** [urllib.parse.urlparse], which raises [ValueError] on some inputs. *)
Variable urlparse : string -> res ParseResult.

(** [validate_inputs] reports invalid input by returning [False]. *)
Definition validate_inputs (coupon_code website_url : string) : res bool :=
  if negb (str_truthy coupon_code) || negb (str_truthy website_url) then Ok false
  else
    let len := Z.of_nat (String.length coupon_code) in
    if (len <? 2) || (50 <? len) then Ok false
    else
      match urlparse website_url with
      | Raise e => Raise e
      | Ok parsed_url =>
          if negb (str_truthy (scheme parsed_url))
             || negb (str_truthy (netloc parsed_url))
          then Ok false
          else Ok true
      end.

(** [process_inputs], the sibling that turns invalid input into an
    exception; only its validation step is needed here. *)
Definition process_inputs_check (coupon_code website_url : string) : res unit :=
  match validate_inputs coupon_code website_url with
  | Raise e => Raise e
  | Ok false => Raise "Invalid inputs"
  | Ok true => Ok tt
  end.

(** [process_inputs]: the dictionary with the trimmed coupon code and
    the URL, which gets [https://] in front unless it starts with
    [http://] or [https://]. *)
Definition process_inputs (coupon_code website_url : string) : res ProcessedInputs :=
  match validate_inputs coupon_code website_url with
  | Raise e => Raise e
  | Ok false => Raise "Invalid inputs"
  | Ok true =>
      let processed_coupon := Str.strip coupon_code in
      let processed_url :=
        if negb (String.prefix "http://" website_url)
           && negb (String.prefix "https://" website_url)
        then "https://" +:+ website_url
        else website_url in
      Ok {| processed_coupon_code := processed_coupon;
            processed_website_url := processed_url |}
  end.

End WithUrlparse.

End InputHandler.

(** ** browser_engine.py *)
Module BrowserEngine.

(** Identity of a Playwright object (driver, browser, context, page). *)
Definition Handle : Type := nat.

(** The dictionary returned by the content-verification script. *)
Record ContentCheck : Type := {
  bodyExists : bool;
  contentLength : Z;
  hasLinks : bool;
  hasImages : bool;
  hasForms : bool;
  title : string;
  isVisible : bool;
  isInteractive : bool
}.

(** The dictionary returned by the bot-detection script, each value by its
    truthiness. *)
Record BotCheck : Type := {
  hasCaptcha : bool;
  hasAccessDenied : bool;
  hasCloudflare : bool;
  hasBotDetection : bool
}.

(** [any(bot_check.values())] *)
Definition any_values (bot_check : BotCheck) : bool :=
  hasCaptcha bot_check || hasAccessDenied bot_check
  || hasCloudflare bot_check || hasBotDetection bot_check.

(** The Playwright driver, seen from the engine: every call takes the
    world it runs in and returns the world it leaves, and may raise.
    A script passed to [page.evaluate] is identified with the operation
    that evaluates it.  [asyncio.sleep] has no operation of its own: it only
    lets the world evolve, which every later operation may do anyway. *)
Class Playwright (W : Type) : Type := {
  async_playwright_start : W -> res Handle * W;
  chromium_launch : Handle -> bool -> W -> res Handle * W;
  browser_new_context : Handle -> W -> res Handle * W;
  context_add_init_script : Handle -> W -> res unit * W;
  context_new_page : Handle -> W -> res Handle * W;
  page_set_default_timeout : Handle -> Z -> W -> res unit * W;
  page_close : Handle -> W -> res unit * W;
  context_close : Handle -> W -> res unit * W;
  browser_close : Handle -> W -> res unit * W;
  playwright_stop : Handle -> W -> res unit * W;
  mouse_move : Handle -> W -> res unit * W;
  page_goto : Handle -> string -> option string -> Z -> W -> res (option Z) * W;
  page_reload : Handle -> option string -> Z -> W -> res (option Z) * W;
  evaluate_content_check : Handle -> W -> res ContentCheck * W;
  evaluate_bot_check : Handle -> W -> res BotCheck * W;
  page_content : Handle -> W -> res string * W;
  page_url : Handle -> W -> string;
  page_screenshot : Handle -> string -> W -> res unit * W
}.

(** The attributes set by [__init__]. *)
Record t : Type := {
  headless : bool;
  timeout : Z;
  browser : option Handle;
  context : option Handle;
  page : option Handle;
  playwright : option Handle;
  navigation_attempts : Z;
  max_navigation_attempts : Z
}.

Definition init (headless : bool) (timeout : Z) : t :=
  {| headless := headless; timeout := timeout;
     browser := None; context := None; page := None; playwright := None;
     navigation_attempts := 0; max_navigation_attempts := 3 |}.

Definition set_browser (v : option Handle) (self : t) : t :=
  {| headless := headless self; timeout := timeout self;
     browser := v; context := context self; page := page self;
     playwright := playwright self;
     navigation_attempts := navigation_attempts self;
     max_navigation_attempts := max_navigation_attempts self |}.

Definition set_context (v : option Handle) (self : t) : t :=
  {| headless := headless self; timeout := timeout self;
     browser := browser self; context := v; page := page self;
     playwright := playwright self;
     navigation_attempts := navigation_attempts self;
     max_navigation_attempts := max_navigation_attempts self |}.

Definition set_page (v : option Handle) (self : t) : t :=
  {| headless := headless self; timeout := timeout self;
     browser := browser self; context := context self; page := v;
     playwright := playwright self;
     navigation_attempts := navigation_attempts self;
     max_navigation_attempts := max_navigation_attempts self |}.

Definition set_playwright (v : option Handle) (self : t) : t :=
  {| headless := headless self; timeout := timeout self;
     browser := browser self; context := context self; page := page self;
     playwright := v;
     navigation_attempts := navigation_attempts self;
     max_navigation_attempts := max_navigation_attempts self |}.

(** Names bound at module level of browser_engine.py: its import lines,
    [logger] and the class.  The only [import random] of the file is a
    statement inside [start], which binds a local of [start]. *)
Definition module_globals : list string :=
  [ "asyncio"; "logging"; "Dict"; "Optional"; "List"; "Tuple";
    "async_playwright"; "Browser"; "Page"; "BrowserContext"; "TimeoutError";
    "logger"; "BrowserEngine" ].

(** Methods and attributes of a [BrowserEngine] instance. *)
Definition instance_attributes : list string :=
  [ "headless"; "timeout"; "browser"; "context"; "page"; "playwright";
    "navigation_attempts"; "max_navigation_attempts";
    "start"; "navigate"; "click"; "fill"; "press_key"; "get_text";
    "is_visible"; "get_current_url"; "execute_javascript"; "take_screenshot";
    "get_html_content"; "wait_for_navigation"; "close" ].

Definition name_error (name : string) : string :=
  "name '" +:+ name +:+ "' is not defined".

Definition attribute_error (type_name attribute : string) : string :=
  "'" +:+ type_name +:+ "' object has no attribute '" +:+ attribute +:+ "'".

(** Events of interest performed by the engine and by its caller. *)
Inductive Resource : Type := RPage | RContext | RBrowser | RDriver.

Inductive Event : Type :=
| Constructed
| StartCalled
| CloseCalled
| Released (r : Resource) (h : Handle).

Section Engine.

Context {W : Type} {PW : Playwright W}.

(** The engine object, the world it drives, and the events so far. *)
Record State : Type := { self : t; world : W; events : list Event }.

Definition update_self (f : t -> t) (st : State) : State :=
  {| self := f (self st); world := world st; events := events st |}.

Definition emit (e : Event) (st : State) : State :=
  {| self := self st; world := world st; events := events st ++ [e] |}.

(** A driver call in the current world. *)
Definition call {A : Type} (op : W -> res A * W) : M State A :=
  fun st =>
    let '(r, w') := op (world st) in
    (r, {| self := self st; world := w'; events := events st |}).

(** [self.page.<attribute>], [self.context.<attribute>] *)
Definition get_page (attribute : string) : M State Handle :=
  fun st =>
    match page (self st) with
    | Some h => (Ok h, st)
    | None => (Raise (attribute_error "NoneType" attribute), st)
    end.

Definition get_context (attribute : string) : M State Handle :=
  fun st =>
    match context (self st) with
    | Some h => (Ok h, st)
    | None => (Raise (attribute_error "NoneType" attribute), st)
    end.

(** [start]: the driver objects are stored as they are acquired, and any
    exception ends the method with [False]. *)
Definition start : M State bool :=
  try_except
    (let* pw := call async_playwright_start in
     modify (update_self (set_playwright (Some pw))) >>
     let* hl := gets (fun st => headless (self st)) in
     let* b := call (chromium_launch pw hl) in
     modify (update_self (set_browser (Some b))) >>
     let* c := call (browser_new_context b) in
     modify (update_self (set_context (Some c))) >>
     call (context_add_init_script c) >>
     let* p := call (context_new_page c) in
     modify (update_self (set_page (Some p))) >>
     let* t := gets (fun st => timeout (self st)) in
     call (page_set_default_timeout p t) >>
     ret true)
    (fun _ => ret false).

(** [if self.x: await self.x.close(); self.x = None] *)
Definition release (r : Resource) (get : t -> option Handle)
    (set : option Handle -> t -> t) (op : Handle -> W -> res unit * W)
    : M State unit :=
  let* held := gets (fun st => get (self st)) in
  match held with
  | Some h =>
      call (op h) >>
      modify (emit (Released r h)) >>
      modify (update_self (set None))
  | None => ret tt
  end.

(** [close]: one [try] block around the four releases. *)
Definition close : M State unit :=
  try_except
    (release RPage page set_page page_close >>
     release RContext context set_context context_close >>
     release RBrowser browser set_browser browser_close >>
     release RDriver playwright set_playwright playwright_stop)
    (fun _ => ret tt).

(** [take_screenshot], [get_current_url] *)
Definition take_screenshot (path : string) : M State bool :=
  fun st =>
    match page (self st) with
    | None => (Ok false, st)
    | Some h =>
        try_except (call (page_screenshot h path) >> ret true)
                   (fun _ => ret false) st
    end.

Definition get_current_url : M State (option string) :=
  fun st =>
    match page (self st) with
    | None => (Ok None, st)
    | Some h => (Ok (Some (page_url h (world st))), st)
    end.

(** [execute_javascript(script, retry=True)] *)
Definition execute_javascript {A : Type} (evaluate : Handle -> W -> res A * W)
    (retry : bool) : M State (option A) :=
  fun st =>
    match page (self st) with
    | None => (Ok None, st)
    | Some h =>
        try_except
          (let* result := call (evaluate h) in ret (Some result))
          (fun _ =>
             if retry then
               try_except
                 (let* result := call (evaluate h) in ret (Some result))
                 (fun _ => ret None)
             else ret None) st
    end.

(** *** [navigate] *)

Inductive Method : Type := normal | reload | new_tab.

Record Strategy : Type := {
  wait_until : option string;
  strategy_timeout : Z;
  delay : Z;
  method : Method
}.

Definition strategies (wait_until : string) (timeout : Z) : list Strategy :=
  [ {| wait_until := Some wait_until; strategy_timeout := timeout;
       delay := 0; method := normal |};
    {| wait_until := Some "domcontentloaded"; strategy_timeout := timeout;
       delay := 2; method := normal |};
    {| wait_until := Some "load"; strategy_timeout := timeout;
       delay := 4; method := normal |};
    {| wait_until := None; strategy_timeout := timeout;
       delay := 8; method := reload |};
    {| wait_until := None; strategy_timeout := timeout * 2;
       delay := 16; method := new_tab |} ].

Record NavigationMetrics : Type := {
  attempts : Z;
  success : bool;
  errors : list string;
  response_status : option Z;
  content_checks : list (option ContentCheck)
}.

Definition initial_metrics : NavigationMetrics :=
  {| attempts := 0; success := false; errors := [];
     response_status := None; content_checks := [] |}.

(** The locals of one [navigate] call next to the engine state. *)
Record NavState : Type := { metrics : NavigationMetrics; engine_state : State }.

Definition update_metrics (f : NavigationMetrics -> NavigationMetrics)
    (ns : NavState) : NavState :=
  {| metrics := f (metrics ns); engine_state := engine_state ns |}.

Definition count_attempt (m : NavigationMetrics) : NavigationMetrics :=
  {| attempts := attempts m + 1; success := success m; errors := errors m;
     response_status := response_status m; content_checks := content_checks m |}.

Definition append_error (e : string) (m : NavigationMetrics) : NavigationMetrics :=
  {| attempts := attempts m; success := success m; errors := errors m ++ [e];
     response_status := response_status m; content_checks := content_checks m |}.

Definition store_status (r : option Z) (m : NavigationMetrics) : NavigationMetrics :=
  {| attempts := attempts m; success := success m; errors := errors m;
     response_status := r; content_checks := content_checks m |}.

Definition append_content_check (c : option ContentCheck) (m : NavigationMetrics)
    : NavigationMetrics :=
  {| attempts := attempts m; success := success m; errors := errors m;
     response_status := response_status m;
     content_checks := content_checks m ++ [c] |}.

Definition mark_success (m : NavigationMetrics) : NavigationMetrics :=
  {| attempts := attempts m; success := true; errors := errors m;
     response_status := response_status m; content_checks := content_checks m |}.

Definition lift {A : Type} (m : M State A) : M NavState A :=
  fun ns =>
    let '(r, st') := m (engine_state ns) in
    (r, {| metrics := metrics ns; engine_state := st' |}).

(** Loading a module-level name, and an attribute of [self]. *)
Definition load_global (globals : list string) (name : string) : M NavState unit :=
  if existsb (String.eqb name) globals then ret tt else raise (name_error name).

Definition load_attribute (name : string) : M NavState unit :=
  if existsb (String.eqb name) instance_attributes then ret tt
  else raise (attribute_error "BrowserEngine" name).

(** How the body of the loop ends when it does not raise. *)
Inductive LoopExit : Type := Continue | ReturnTrue.

(** The three navigation methods; the response is [None] or carries a
    status. *)
Definition perform (url : string) (strategy : Strategy) : M NavState (option Z) :=
  match method strategy with
  | normal =>
      let* h := lift (get_page "goto") in
      lift (call (page_goto h url (wait_until strategy) (strategy_timeout strategy)))
  | reload =>
      try_except
        (let* h := lift (get_page "goto") in
         lift (call (page_goto h url None (strategy_timeout strategy))) >> ret tt)
        (fun _ => ret tt) >>
      let* h := lift (get_page "reload") in
      lift (call (page_reload h (wait_until strategy) (strategy_timeout strategy)))
  | new_tab =>
      let* c := lift (get_context "new_page") in
      let* new_page := lift (call (context_new_page c)) in
      let* old := lift (get_page "close") in
      lift (call (page_close old)) >>
      lift (modify (update_self (set_page (Some new_page)))) >>
      lift (call (page_goto new_page url None (strategy_timeout strategy)))
  end.

(** Content verification and bot detection, after a response below 400
    (or no response). *)
Definition verify : M NavState LoopExit :=
  let* content_check := lift (execute_javascript evaluate_content_check true) in
  modify (update_metrics (append_content_check content_check)) >>
  match content_check with
  | None => raise (attribute_error "NoneType" "get")
  | Some cc =>
      if negb (bodyExists cc) || (contentLength cc <? 100) then
        modify (update_metrics (append_error "Insufficient content")) >>
        ret Continue
      else
        let* bot_check := lift (execute_javascript evaluate_bot_check true) in
        match bot_check with
        | None => raise (attribute_error "NoneType" "values")
        | Some bc =>
            if any_values bc then
              modify (update_metrics (append_error "Bot detection triggered")) >>
              if hasCloudflare bc then
                load_attribute "_handle_cloudflare_challenge" >> ret Continue
              else if hasCaptcha bc then
                load_attribute "_handle_captcha_challenge" >> ret Continue
              else ret Continue
            else
              modify (update_metrics mark_success) >> ret ReturnTrue
        end
  end.

(** The body of the [try] block of one attempt.  The jitter and the
    pointer coordinates come from [random], a name the function loads
    from the module globals. *)
Definition attempt (globals : list string) (url : string) (strategy : Strategy)
    : M NavState LoopExit :=
  (if 0 <? delay strategy then load_global globals "random" else ret tt) >>
  let* h := lift (get_page "mouse") in
  load_global globals "random" >>
  lift (call (mouse_move h)) >>
  let* response := perform url strategy in
  modify (update_metrics (store_status response)) >>
  match response with
  | Some status =>
      if 400 <=? status then
        modify (update_metrics (append_error ("HTTP " +:+ str_of_Z status))) >>
        ret Continue
      else verify
  | None => verify
  end.

(** [for i, strategy in enumerate(strategies)], with the [except] clause
    of the loop body; [i] is the index of the first strategy of the list. *)
Fixpoint run_strategies (globals : list string) (url : string) (i : Z)
    (todo : list Strategy) (ns : NavState) : bool * NavState :=
  match todo with
  | [] => (false, ns)
  | strategy :: rest =>
      match attempt globals url strategy (update_metrics count_attempt ns) with
      | (Ok ReturnTrue, ns') => (true, ns')
      | (Ok Continue, ns') => run_strategies globals url (i + 1) rest ns'
      | (Raise e, ns') =>
          let error_msg :=
            "Navigation attempt " +:+ str_of_Z (i + 1) +:+ " failed: " +:+ e in
          run_strategies globals url (i + 1) rest
            (update_metrics (append_error error_msg) ns')
      end
  end.

(** [navigate(url, wait_until, timeout)] under a given set of module
    globals.  The metrics exist once the page check has passed. *)
Definition navigate_in (globals : list string) (url : string) (wait_until : string)
    (timeout : option Z) (st : State) : bool * option NavigationMetrics * State :=
  match page (self st) with
  | None => (false, None, st)
  | Some _ =>
      let timeout := default (BrowserEngine.timeout (self st)) timeout in
      let url := if String.prefix "http" url then url else "https://" +:+ url in
      let '(result, ns) :=
        run_strategies globals url 0 (strategies wait_until timeout)
          {| metrics := initial_metrics; engine_state := st |} in
      (result, Some (metrics ns), engine_state ns)
  end.

(** [navigate] as the module defines it. *)
Definition navigate : string -> string -> option Z -> State
                      -> bool * option NavigationMetrics * State :=
  navigate_in module_globals.

End Engine.

Arguments State W : clear implicits.
Arguments NavState W : clear implicits.

(** *** [click], [fill], [press_key], [get_text], [is_visible],
        [get_html_content], [wait_for_navigation] *)

(** The scripts these methods hand to [execute_javascript]. *)
Inductive PageScript : Type :=
| ScrollIntoView (selector : string)
| ClickElement (selector : string)
| SetValue (selector escaped_value : string).

(** The page calls behind the interaction methods.  [wait_for_selector]
    is always called with [state='visible']. *)
Class Interaction (W : Type) : Type := {
  page_wait_for_selector : Handle -> string -> Z -> W -> res unit * W;
  page_click : Handle -> string -> bool -> Z -> W -> res unit * W;
  page_fill : Handle -> string -> string -> Z -> W -> res unit * W;
  page_focus : Handle -> string -> Z -> W -> res unit * W;
  page_press : Handle -> string -> string -> Z -> W -> res unit * W;
  page_text_content : Handle -> string -> Z -> W -> res (option string) * W;
  page_evaluate : PageScript -> Handle -> W -> res bool * W;
  page_wait_for_load_state : Handle -> string -> Z -> W -> res unit * W;
  page_wait_for_timeout : Handle -> Z -> W -> res unit * W
}.

Section Interaction.

Context {W : Type} {PW : Playwright W} {IW : Interaction W}.

(** [if timeout is None: timeout = self.timeout] *)
Definition effective_timeout (timeout : option Z) (st : State W) : Z :=
  default (BrowserEngine.timeout (self st)) timeout.

(** The escaping of [fill]: a backslash goes before every single quote,
    then before every double quote. *)
Definition escape_quotes (value : string) : string :=
  Str.replace (ascii_of_nat 34) ("\" +:+ dq)
    (Str.replace "'"%char "\'" value).

Definition click (selector : string) (timeout : option Z) (force retry : bool)
    : M (State W) bool :=
  fun st =>
    match page (self st) with
    | None => (Ok false, st)
    | Some h =>
        let timeout := effective_timeout timeout st in
        try_except
          (call (page_wait_for_selector h selector timeout) >>
           call (page_click h selector force timeout) >>
           ret true)
          (fun _ =>
             if negb retry then ret false
             else
               try_except
                 (execute_javascript (page_evaluate (ScrollIntoView selector)) true >>
                  call (page_click h selector true timeout) >>
                  ret true)
                 (fun _ =>
                    try_except
                      (execute_javascript (page_evaluate (ClickElement selector)) true >>
                       ret true)
                      (fun _ => ret false))) st
    end.

Definition fill (selector value : string) (timeout : option Z) (retry : bool)
    : M (State W) bool :=
  fun st =>
    match page (self st) with
    | None => (Ok false, st)
    | Some h =>
        let timeout := effective_timeout timeout st in
        try_except
          (call (page_wait_for_selector h selector timeout) >>
           call (page_fill h selector "" timeout) >>
           call (page_fill h selector value timeout) >>
           ret true)
          (fun _ =>
             if negb retry then ret false
             else
               try_except
                 (execute_javascript (page_evaluate (ScrollIntoView selector)) true >>
                  call (page_fill h selector value timeout) >>
                  ret true)
                 (fun _ =>
                    try_except
                      (let escaped_value := escape_quotes value in
                       execute_javascript
                         (page_evaluate (SetValue selector escaped_value)) true >>
                       ret true)
                      (fun _ => ret false))) st
    end.

Definition press_key (selector key : string) (timeout : option Z) : M (State W) bool :=
  fun st =>
    match page (self st) with
    | None => (Ok false, st)
    | Some h =>
        let timeout := effective_timeout timeout st in
        try_except
          (call (page_wait_for_selector h selector timeout) >>
           call (page_focus h selector timeout) >>
           call (page_press h selector key timeout) >>
           ret true)
          (fun _ => ret false) st
    end.

Definition get_text (selector : string) (timeout : option Z)
    : M (State W) (option string) :=
  fun st =>
    match page (self st) with
    | None => (Ok None, st)
    | Some h =>
        let timeout := effective_timeout timeout st in
        try_except
          (call (page_wait_for_selector h selector timeout) >>
           call (page_text_content h selector timeout))
          (fun _ => ret None) st
    end.

(** [is_visible(selector, timeout=5000)] *)
Definition is_visible (selector : string) (timeout : Z) : M (State W) bool :=
  fun st =>
    match page (self st) with
    | None => (Ok false, st)
    | Some h =>
        try_except
          (call (page_wait_for_selector h selector timeout) >> ret true)
          (fun _ => ret false) st
    end.

Definition get_html_content : M (State W) (option string) :=
  fun st =>
    match page (self st) with
    | None => (Ok None, st)
    | Some h =>
        try_except
          (let* content := call (page_content h) in ret (Some content))
          (fun _ => ret None) st
    end.

Definition wait_for_navigation (timeout : option Z) : M (State W) bool :=
  fun st =>
    match page (self st) with
    | None => (Ok false, st)
    | Some h =>
        let timeout := effective_timeout timeout st in
        try_except
          (call (page_wait_for_load_state h "networkidle" timeout) >> ret true)
          (fun _ => ret false) st
    end.

End Interaction.

End BrowserEngine.
(** ** website_pattern_recognizer.py *)
Module WebsitePatternRecognizer.

(** [self.platform_patterns]; a Python dict iterates in declaration order. *)
Definition platform_patterns : list (string * list string) :=
[
  ("magento",
    [ "Magento";
      "mage/cookies";
      "magento-version";
      "Mage.Cookies";
      "Magento_Ui";
      "catalog\/product\/view";
      "checkout\/cart";
      "requirejs-config" ]);
  ("woocommerce",
    [ "woocommerce";
      "WooCommerce";
      "wc-";
      "wc_";
      "is-woocommerce-";
      "woocommerce-";
      "wp-content" ]);
  ("shopify",
    [ "shopify";
      "Shopify";
      "shopify-";
      "\/cdn\/shop";
      "shopify.com";
      "myshopify.com" ]);
  ("opencart",
    [ "opencart";
      "OpenCart";
      "route=checkout";
      "route=product";
      "catalog\/view" ]);
  ("prestashop",
    [ "prestashop";
      "PrestaShop";
      "presta-";
      "id_product=";
      "controller=product";
      "controller=cart" ]);
  ("bigcommerce",
    [ "bigcommerce";
      "BigCommerce";
      "bc-";
      "bigcommerce.com";
      "data-cart" ]);
  ("skullcandy",
    [ "skullcandy";
      "Skullcandy";
      "skullcandy.in";
      "skullcandy.com";
      "skull-";
      "collection\/tws" ]);
  ("custom_ecommerce",
    [ "add-to-cart";
      "add_to_cart";
      "cart";
      "checkout";
      "product";
      "collection";
      "category" ])
].

(** [re.search(pattern, html_content, re.IGNORECASE) or
    re.search(pattern, current_url, re.IGNORECASE)] *)
Definition pattern_hits (html_content current_url pattern : string) : bool :=
  Re.search pattern html_content || Re.search pattern current_url.

(** The inner loop: [score = 0; for pattern in patterns: if ...: score += 1]. *)
Definition score_of (html_content current_url : string) (patterns : list string) : Z :=
  fold_left
    (fun score pattern =>
       if pattern_hits html_content current_url pattern then score + 1 else score)
    patterns 0.

(** The outer loop fills [confidence_scores] platform by platform. *)
Definition confidence_scores_of (table : list (string * list string))
    (html_content current_url : string) : list (string * Z) :=
  map (fun entry => (fst entry, score_of html_content current_url (snd entry))) table.

(** [max(confidence_scores.values())] of a non-empty dictionary. *)
Definition max_score (scores : list (string * Z)) : Z :=
  match scores with
  | [] => 0
  | (_, s) :: rest => fold_left (fun m entry => Z.max m (snd entry)) rest s
  end.

(** [for platform, score in confidence_scores.items():
       if score == max_score: detected_platform = platform; break] *)
Fixpoint first_with_score (scores : list (string * Z)) (m : Z) : option string :=
  match scores with
  | [] => None
  | (platform, score) :: rest =>
      if score =? m then Some platform else first_with_score rest m
  end.

Definition detect (scores : list (string * Z)) : string :=
  match scores with
  | [] => "unknown"
  | _ :: _ =>
      let m := max_score scores in
      if 0 <? m then
        match first_with_score scores m with
        | Some platform => platform
        | None => "unknown"
        end
      else "unknown"
  end.

(** [self.platform_selectors]: platform, then role, then the ladder. *)
Definition platform_selectors : list (string * list (string * list string)) :=
[
  ("magento",
   [
     ("product_grid",
       [ ".products-grid .product-item";
         ".product-items .product-item";
         ".products.list .product-item" ]);
     ("add_to_cart",
       [ "#product-addtocart-button";
         ".action.tocart";
         ".action.primary.tocart" ]);
     ("cart_link",
       [ ".action.showcart";
         ".minicart-wrapper .action.showcart";
         ".action.viewcart" ]);
     ("checkout_button",
       [ ".action.primary.checkout";
         "#top-cart-btn-checkout";
         ".checkout-methods-items .action.primary.checkout" ]);
     ("coupon_field",
       [ "#coupon_code";
         "#discount-code";
         "#discount-coupon-form #coupon_code" ])
   ]);
  ("skullcandy",
   [
     ("product_grid",
       [ ".collection-item";
         ".product-item";
         ".grid-item";
         ".product-card" ]);
     ("add_to_cart",
       [ ".add-to-cart";
         ".add_to_cart";
         ("button:has-text(" +:+ dq +:+ "Add to Cart" +:+ dq +:+ ")");
         ("button:has-text(" +:+ dq +:+ "Buy Now" +:+ dq +:+ ")");
         ".product-form__cart-submit" ]);
     ("cart_link",
       [ ".cart-link";
         ".cart-icon";
         ("a[href*=" +:+ dq +:+ "/cart" +:+ dq +:+ "]");
         ".cart-count-bubble" ]);
     ("checkout_button",
       [ ".checkout-button";
         ("button:has-text(" +:+ dq +:+ "Checkout" +:+ dq +:+ ")");
         ("button:has-text(" +:+ dq +:+ "Proceed to Checkout" +:+ dq +:+ ")");
         ("a:has-text(" +:+ dq +:+ "Checkout" +:+ dq +:+ ")") ]);
     ("coupon_field",
       [ "#coupon_code";
         "#discount-code";
         ("input[name=" +:+ dq +:+ "discount" +:+ dq +:+ "]");
         ("input[placeholder*=" +:+ dq +:+ "coupon" +:+ dq +:+ "]");
         ("input[placeholder*=" +:+ dq +:+ "Coupon" +:+ dq +:+ "]");
         ("input[placeholder*=" +:+ dq +:+ "discount" +:+ dq +:+ "]");
         ("input[placeholder*=" +:+ dq +:+ "Discount" +:+ dq +:+ "]");
         ("input[placeholder*=" +:+ dq +:+ "promo" +:+ dq +:+ "]");
         ("input[placeholder*=" +:+ dq +:+ "Promo" +:+ dq +:+ "]") ]);
     ("coupon_button",
       [ ("button:has-text(" +:+ dq +:+ "Apply" +:+ dq +:+ ")");
         ("button:has-text(" +:+ dq +:+ "Apply Coupon" +:+ dq +:+ ")");
         ("button:has-text(" +:+ dq +:+ "Apply Discount" +:+ dq +:+ ")");
         ("input[value=" +:+ dq +:+ "Apply" +:+ dq +:+ "]");
         ".coupon-btn";
         ".apply-coupon" ]);
     ("coupon_success",
       [ ".coupon-success";
         ".discount-success";
         ".success-message";
         ".alert-success";
         ".discount-applied" ]);
     ("coupon_error",
       [ ".coupon-error";
         ".discount-error";
         ".error-message";
         ".alert-error";
         ".alert-danger" ]);
     ("discount_amount",
       [ ".discount-amount";
         ".cart-discount";
         ".order-discount";
         ".discount-total";
         ".discount-value" ])
   ]);
  ("custom_ecommerce",
   [
     ("product_grid",
       [ ".product";
         ".product-item";
         ".product-card";
         ".collection-item";
         ".grid-item";
         ".item-card" ]);
     ("add_to_cart",
       [ ".add-to-cart";
         ".add_to_cart";
         "#add-to-cart";
         "#add_to_cart";
         ("button:has-text(" +:+ dq +:+ "Add to Cart" +:+ dq +:+ ")");
         ("button:has-text(" +:+ dq +:+ "Buy Now" +:+ dq +:+ ")") ]);
     ("cart_link",
       [ ".cart";
         ".cart-link";
         ".cart-icon";
         ("a[href*=" +:+ dq +:+ "/cart" +:+ dq +:+ "]");
         ".cart-count" ]);
     ("checkout_button",
       [ ".checkout";
         ".checkout-button";
         ("button:has-text(" +:+ dq +:+ "Checkout" +:+ dq +:+ ")");
         ("a:has-text(" +:+ dq +:+ "Checkout" +:+ dq +:+ ")") ]);
     ("coupon_field",
       [ "#coupon_code";
         "#discount-code";
         ("input[name*=" +:+ dq +:+ "coupon" +:+ dq +:+ "]");
         ("input[name*=" +:+ dq +:+ "discount" +:+ dq +:+ "]");
         ("input[placeholder*=" +:+ dq +:+ "coupon" +:+ dq +:+ "]");
         ("input[placeholder*=" +:+ dq +:+ "discount" +:+ dq +:+ "]");
         ("input[placeholder*=" +:+ dq +:+ "promo" +:+ dq +:+ "]") ]);
     ("coupon_button",
       [ ".action.apply.primary";
         "button.action.apply";
         "#discount-coupon-form .action.primary" ]);
     ("coupon_success",
       [ ".message-success";
         ".messages .success";
         ".page.messages .message-success" ]);
     ("coupon_error",
       [ ".message-error";
         ".messages .error";
         ".page.messages .message-error" ]);
     ("discount_amount",
       [ ".discount .amount";
         ".discount-amount";
         ".totals.discount .amount" ])
   ]);
  ("woocommerce",
   [
     ("product_grid",
       [ ".products .product";
         "ul.products li.product";
         ".wc-block-grid__products .wc-block-grid__product" ]);
     ("add_to_cart",
       [ ".single_add_to_cart_button";
         ".add_to_cart_button";
         "button.alt.add_to_cart" ]);
     ("cart_link",
       [ ".cart-contents";
         ".woocommerce-cart-link";
         "a.cart-link" ]);
     ("checkout_button",
       [ ".checkout-button";
         ".wc-proceed-to-checkout .button";
         "a.checkout-button.button.alt.wc-forward" ]);
     ("coupon_field",
       [ "#coupon_code";
         ".coupon #coupon_code";
         ("input[name=" +:+ dq +:+ "coupon_code" +:+ dq +:+ "]") ]);
     ("coupon_button",
       [ ("button[name=" +:+ dq +:+ "apply_coupon" +:+ dq +:+ "]");
         ".coupon .button";
         ".coupon button" ]);
     ("coupon_success",
       [ ".woocommerce-message";
         ".woocommerce-notice--success";
         (".woocommerce-info:contains(" +:+ dq +:+ "Coupon" +:+ dq +:+ ")") ]);
     ("coupon_error",
       [ ".woocommerce-error";
         ".woocommerce-notice--error";
         ".woocommerce-error li" ]);
     ("discount_amount",
       [ ".cart-discount .amount";
         ".discount-total";
         "tr.cart-discount td" ])
   ]);
  ("shopify",
   [
     ("product_grid",
       [ ".product-grid .grid__item";
         ".product-card";
         ".product-list .product-item" ]);
     ("add_to_cart",
       [ ".add-to-cart";
         ".product-form__submit";
         ("button[name=" +:+ dq +:+ "add" +:+ dq +:+ "]") ]);
     ("cart_link",
       [ ".cart-link";
         ".cart-icon-link";
         ("a[href=" +:+ dq +:+ "/cart" +:+ dq +:+ "]") ]);
     ("checkout_button",
       [ ".checkout-button";
         ("input[name=" +:+ dq +:+ "checkout" +:+ dq +:+ "]");
         ("button[name=" +:+ dq +:+ "checkout" +:+ dq +:+ "]") ]);
     ("coupon_field",
       [ "#checkout_reduction_code";
         "#discount_input";
         ("input[name=" +:+ dq +:+ "discount" +:+ dq +:+ "]") ]);
     ("coupon_button",
       [ "#checkout_submit";
         ".order-summary__section--discount button";
         ("button:contains(" +:+ dq +:+ "Apply" +:+ dq +:+ ")") ]);
     ("coupon_success",
       [ ".reduction-code__text";
         ".applied-reduction-code__information";
         ".notice--success" ]);
     ("coupon_error",
       [ ".field__message--error";
         ".error-message";
         ".notice--error" ]);
     ("discount_amount",
       [ ".reduction-code__amount";
         ".total-recap__discount-amount";
         ".discount-tag" ])
   ]);
  ("opencart",
   [
     ("product_grid",
       [ ".product-layout";
         ".product-grid";
         ".product-thumb" ]);
     ("add_to_cart",
       [ "#button-cart";
         (".btn-primary:contains(" +:+ dq +:+ "Add to Cart" +:+ dq +:+ ")");
         ("button[onclick*=" +:+ dq +:+ "cart.add" +:+ dq +:+ "]") ]);
     ("cart_link",
       [ "#cart";
         "#cart-total";
         ("a[href*=" +:+ dq +:+ "route=checkout/cart" +:+ dq +:+ "]") ]);
     ("checkout_button",
       [ (".btn-primary:contains(" +:+ dq +:+ "Checkout" +:+ dq +:+ ")");
         ("a[href*=" +:+ dq +:+ "route=checkout/checkout" +:+ dq +:+ "]");
         "#button-checkout" ]);
     ("coupon_field",
       [ "#input-coupon";
         ("input[name=" +:+ dq +:+ "coupon" +:+ dq +:+ "]");
         "#collapse-coupon input" ]);
     ("coupon_button",
       [ "#button-coupon";
         (".btn-primary:contains(" +:+ dq +:+ "Apply Coupon" +:+ dq +:+ ")");
         ("input[type=" +:+ dq +:+ "button" +:+ dq +:+ "][value=" +:+ dq +:+ "Apply Coupon" +:+ dq +:+ "]") ]);
     ("coupon_success",
       [ ".alert-success";
         ".alert.alert-success";
         ".text-success" ]);
     ("coupon_error",
       [ ".alert-danger";
         ".alert.alert-danger";
         ".text-danger" ]);
     ("discount_amount",
       [ "#total_coupon";
         ".coupon-amount";
         ("tr:contains(" +:+ dq +:+ "Coupon" +:+ dq +:+ ") .text-right") ])
   ]);
  ("prestashop",
   [
     ("product_grid",
       [ ".product-miniature";
         ".products .product";
         ".product_list .ajax_block_product" ]);
     ("add_to_cart",
       [ ".add-to-cart";
         ".btn.add-to-cart";
         "#add-to-cart-or-refresh button" ]);
     ("cart_link",
       [ ".cart-preview";
         ".blockcart";
         ("a[href*=" +:+ dq +:+ "controller=cart" +:+ dq +:+ "]") ]);
     ("checkout_button",
       [ ".cart-detailed-actions .btn";
         ".checkout a";
         ("a[href*=" +:+ dq +:+ "controller=order" +:+ dq +:+ "]") ]);
     ("coupon_field",
       [ "#promo-code input";
         ("input[name=" +:+ dq +:+ "discount_name" +:+ dq +:+ "]");
         ".promo-input" ]);
     ("coupon_button",
       [ ".promo-code button";
         ".promo-code .btn";
         ("button:contains(" +:+ dq +:+ "Add" +:+ dq +:+ ")") ]);
     ("coupon_success",
       [ ".cart-summary-line.promo-code-line";
         ".alert.alert-success";
         ".promo-code-success" ]);
     ("coupon_error",
       [ ".alert.alert-danger";
         ".promo-code-error";
         ".js-error-text" ]);
     ("discount_amount",
       [ ".cart-summary-line.cart-total .value";
         ".discount .value";
         ".discount-price" ])
   ]);
  ("bigcommerce",
   [
     ("product_grid",
       [ ".product";
         ".card";
         ".productGrid .product" ]);
     ("add_to_cart",
       [ "#form-action-addToCart";
         ".add-to-cart";
         ("button[data-button-type=" +:+ dq +:+ "add-cart" +:+ dq +:+ "]") ]);
     ("cart_link",
       [ ".navUser-item--cart";
         ".cart-icon";
         ("a[href=" +:+ dq +:+ "/cart.php" +:+ dq +:+ "]") ]);
     ("checkout_button",
       [ ".checkout-button";
         ".cart-actions .button--primary";
         ("a[href=" +:+ dq +:+ "/checkout.php" +:+ dq +:+ "]") ]);
     ("coupon_field",
       [ "#couponcode";
         ("input[name=" +:+ dq +:+ "couponcode" +:+ dq +:+ "]");
         ".coupon-code-input" ]);
     ("coupon_button",
       [ ".coupon-code-add";
         ("input[value=" +:+ dq +:+ "Apply Coupon" +:+ dq +:+ "]");
         ("button:contains(" +:+ dq +:+ "Apply Coupon" +:+ dq +:+ ")") ]);
     ("coupon_success",
       [ ".coupon-applied";
         ".alert-success";
         ".coupon-code-success" ]);
     ("coupon_error",
       [ ".coupon-error";
         ".alert-error";
         ".error-message" ]);
     ("discount_amount",
       [ ".cart-total-value";
         ".coupon-discount";
         ".cart-priceItem--promotion" ])
   ])
].

(** [dict.get]-style lookup in a dictionary literal. *)
Fixpoint dict_get {A : Type} (key : string) (d : list (string * A)) : option A :=
  match d with
  | [] => None
  | (k, v) :: rest => if String.eqb k key then Some v else dict_get key rest
  end.

(** The descriptor returned by [identify_platform].  The role keys of the
    dictionary are the map [ladders]; the other keys are fields. *)
Record PlatformInfo : Type := {
  platform : string;
  confidence_scores : option (list (string * Z));
  error : option string;
  ladders : gmap string (list string);
  ai_confidence_scores : option (gmap string Q)
}.

(** Lines 500-532: scoring, selection, and the selectors of the detected
    platform. *)
Definition identify (html_content current_url : string) : PlatformInfo :=
  let confidence_scores :=
    confidence_scores_of platform_patterns html_content current_url in
  let detected_platform := detect confidence_scores in
  let selectors : gmap string (list string) :=
    match dict_get detected_platform platform_selectors with
    | Some roles => list_to_map roles
    | None => ∅
    end in
  {| platform := detected_platform;
     confidence_scores := Some confidence_scores;
     error := None;
     ladders := selectors;
     ai_confidence_scores := None |}.

Section WithEngine.

Context {W : Type} {PW : BrowserEngine.Playwright W}.

(** [identify_platform(browser_engine)]: any exception while scanning
    yields the [unknown] descriptor with the message. *)
Definition identify_platform : M (BrowserEngine.State W) PlatformInfo :=
  try_except
    (let* h := BrowserEngine.get_page "content" in
     let* html_content := BrowserEngine.call (BrowserEngine.page_content h) in
     let* current_url := BrowserEngine.get_current_url in
     BrowserEngine.take_screenshot "/tmp/platform_detection.png" >>
     match current_url with
     | Some url => ret (identify html_content url)
     | None => raise "expected string or bytes-like object, got 'NoneType'"
     end)
    (fun e =>
       ret {| platform := "unknown"; confidence_scores := None;
              error := Some e; ladders := ∅; ai_confidence_scores := None |}).

End WithEngine.

End WebsitePatternRecognizer.

(** ** ai_website_analyzer.py *)
Module AIWebsiteAnalyzer.

(** An element dictionary built by [_extract_elements].  [type] is always
    present; an attribute is [None] when the dictionary has no such key. *)
Record Element : Type := {
  element_html : string;
  element_type : string;
  element_id : option string;
  element_name : option string;
  element_class : option string;
  element_placeholder : option string;
  element_href : option string;
  element_text : option string
}.

(** [self.element_types] *)
Definition element_types : list string :=
  [ "coupon_field"; "coupon_button"; "checkout_button"; "cart_link"; "add_to_cart";
    "product_grid"; "coupon_success"; "coupon_error"; "discount_amount" ].

(** Lines 206-216: the description that is embedded. *)
Definition described (label : string) (attribute : option string) : string :=
  match attribute with
  | Some v => if str_truthy v then label +:+ "=" +:+ v +:+ " " else ""
  | None => ""
  end.

Definition element_desc (element : Element) : string :=
  element_type element +:+ " "
  +:+ described "id" (element_id element)
  +:+ described "class" (element_class element)
  +:+ described "name" (element_name element)
  +:+ described "placeholder" (element_placeholder element)
  +:+ described "text" (element_text element).

(** The dictionary returned by [_analyze_elements]; both dictionaries are
    filled in the order of [element_types]. *)
Record Analysis : Type := {
  detected_elements : list (string * Element);
  confidence_scores : list (string * Q)
}.

Definition threshold : Q := 7 # 10.

Section WithModel.

(** The cosine similarity between the embedding of a description and
    the stored embedding of an element type, a finite number. *)
Variable similarity : string -> string -> Q.

(** The inner loop of [_analyze_elements]:
    [if similarity > best_score: best_score = similarity; best_match = element]. *)
Fixpoint best_of (element_type : string) (elements : list Element)
    (best_match : option Element) (best_score : Q) : option Element * Q :=
  match elements with
  | [] => (best_match, best_score)
  | element :: rest =>
      let s := similarity (element_desc element) element_type in
      if negb (Qle_bool s best_score)
      then best_of element_type rest (Some element) s
      else best_of element_type rest best_match best_score
  end.

(** The outer loop over the element types still to do. *)
Fixpoint analyze_types (types : list string) (elements : list Element) : Analysis :=
  match types with
  | [] => {| detected_elements := []; confidence_scores := [] |}
  | element_type :: rest =>
      let results := analyze_types rest elements in
      match best_of element_type elements None 0 with
      | (Some best_match, best_score) =>
          if negb (Qle_bool best_score threshold)
          then {| detected_elements :=
                    (element_type, best_match) :: detected_elements results;
                  confidence_scores :=
                    (element_type, best_score) :: confidence_scores results |}
          else results
      | (None, _) => results
      end
  end.

Definition _analyze_elements (elements : list Element) : Analysis :=
  analyze_types element_types elements.

End WithModel.

(** Lines 267-289 of [get_element_selectors]: the selectors generated
    from the attributes of the detected element. *)
Definition class_selectors (class : string) : list string :=
  match Str.split class with
  | [] => []
  | [c0] => ["." +:+ c0]
  | c0 :: c1 :: _ => ["." +:+ c0; "." +:+ c0 +:+ "." +:+ c1]
  end.

Definition text_selectors (type text : string) : list string :=
  if (String.length text <? 50)%nat then
    let text := Str.strip text in
    if str_truthy text then [type +:+ ":contains('" +:+ text +:+ "')"] else []
  else [].

Definition when_truthy (attribute : option string) (selectors : string -> list string)
    : list string :=
  match attribute with
  | Some v => if str_truthy v then selectors v else []
  | None => []
  end.

Definition element_selectors (element : Element) : list string :=
  when_truthy (element_id element) (fun id => ["#" +:+ id])
  ++ when_truthy (element_class element) class_selectors
  ++ when_truthy (element_name element)
       (fun name => [element_type element +:+ "[name='" +:+ name +:+ "']"])
  ++ when_truthy (element_placeholder element)
       (fun placeholder =>
          [element_type element +:+ "[placeholder*='" +:+ placeholder +:+ "']"])
  ++ when_truthy (element_text element) (text_selectors (element_type element)).

Section WithAnalysis.

Context {S : Type}.

(** [self.analyze_website_structure(browser_engine)], reduced to the
    [detected_elements] of its answer. *)
Variable analyze_website_structure : M S (list (string * Element)).

Definition get_element_selectors (element_type : string) : M S (list string) :=
  try_except
    (let* detected := analyze_website_structure in
     match WebsitePatternRecognizer.dict_get element_type detected with
     | None => ret []
     | Some element => ret (element_selectors element)
     end)
    (fun _ => ret []).

End WithAnalysis.

End AIWebsiteAnalyzer.
(** ** coupon_applicator.py *)
Module CouponApplicator.

Import WebsitePatternRecognizer.

(** [coupon_toggle_selectors], line 69 *)
Definition coupon_toggle_selectors : list string :=
  [ ("a:has-text(" +:+ dq +:+ "coupon" +:+ dq +:+ ")");
    ("span:has-text(" +:+ dq +:+ "coupon" +:+ dq +:+ ")");
    ("div:has-text(" +:+ dq +:+ "coupon" +:+ dq +:+ ")");
    ".showcoupon";
    "#block-discount-heading";
    (".payment-option-title:has-text(" +:+ dq +:+ "Apply Discount Code" +:+ dq +:+ ")");
    ".coupon-trigger";
    ".coupon-code-trigger";
    ".discount-trigger";
    ".promo-trigger" ].

(** [coupon_field_selectors], line 91 *)
Definition coupon_field_selectors : list string :=
  [ ("input[name=" +:+ dq +:+ "coupon_code" +:+ dq +:+ "]");
    ("input[id=" +:+ dq +:+ "coupon_code" +:+ dq +:+ "]");
    ("input[name*=" +:+ dq +:+ "coupon" +:+ dq +:+ "]");
    ("input[id*=" +:+ dq +:+ "coupon" +:+ dq +:+ "]");
    ("input[placeholder*=" +:+ dq +:+ "coupon" +:+ dq +:+ "]");
    ("input[placeholder*=" +:+ dq +:+ "Coupon" +:+ dq +:+ "]");
    ("input[placeholder*=" +:+ dq +:+ "promo" +:+ dq +:+ "]");
    ("input[placeholder*=" +:+ dq +:+ "Promo" +:+ dq +:+ "]");
    ("input[placeholder*=" +:+ dq +:+ "discount" +:+ dq +:+ "]");
    ("input[placeholder*=" +:+ dq +:+ "Discount" +:+ dq +:+ "]");
    ("input[name=" +:+ dq +:+ "discount_code" +:+ dq +:+ "]");
    ("input[id=" +:+ dq +:+ "discount_code" +:+ dq +:+ "]");
    ("input[name*=" +:+ dq +:+ "discount" +:+ dq +:+ "]");
    ("input[id*=" +:+ dq +:+ "discount" +:+ dq +:+ "]");
    ("input[name=" +:+ dq +:+ "promo_code" +:+ dq +:+ "]");
    ("input[id=" +:+ dq +:+ "promo_code" +:+ dq +:+ "]");
    ("input[name*=" +:+ dq +:+ "promo" +:+ dq +:+ "]");
    ("input[id*=" +:+ dq +:+ "promo" +:+ dq +:+ "]");
    "#checkout-discount-input";
    ".coupon-code-field input";
    ".discount-code-field input";
    ".promo-code-field input" ].

(** [apply_button_selectors], line 183 *)
Definition apply_button_selectors : list string :=
  [ ("button[name=" +:+ dq +:+ "apply_coupon" +:+ dq +:+ "]");
    ("button[id=" +:+ dq +:+ "apply_coupon" +:+ dq +:+ "]");
    ("button:has-text(" +:+ dq +:+ "Apply" +:+ dq +:+ ")");
    ("button:has-text(" +:+ dq +:+ "apply" +:+ dq +:+ ")");
    ("button:has-text(" +:+ dq +:+ "Apply Coupon" +:+ dq +:+ ")");
    ("button:has-text(" +:+ dq +:+ "Apply coupon" +:+ dq +:+ ")");
    ("button:has-text(" +:+ dq +:+ "Apply Discount" +:+ dq +:+ ")");
    ("button:has-text(" +:+ dq +:+ "Apply discount" +:+ dq +:+ ")");
    ("button:has-text(" +:+ dq +:+ "Apply Promo" +:+ dq +:+ ")");
    ("button:has-text(" +:+ dq +:+ "Apply promo" +:+ dq +:+ ")");
    ("input[value=" +:+ dq +:+ "Apply" +:+ dq +:+ "]");
    ("input[value=" +:+ dq +:+ "Apply Coupon" +:+ dq +:+ "]");
    ("input[value=" +:+ dq +:+ "Apply Discount" +:+ dq +:+ "]");
    ("input[value=" +:+ dq +:+ "Apply Promo" +:+ dq +:+ "]");
    ".apply-coupon";
    ".apply-discount";
    ".apply-promo";
    "#discount-coupon-form .action.primary";
    ".discount-form .action.primary";
    ".coupon-form .action.primary";
    ".promo-form .action.primary" ].

(** [coupon_field_selectors], line 241, rebound for the Enter fallback *)
Definition enter_field_selectors : list string :=
  [ ("input[name=" +:+ dq +:+ "coupon_code" +:+ dq +:+ "]");
    ("input[id=" +:+ dq +:+ "coupon_code" +:+ dq +:+ "]");
    ("input[name*=" +:+ dq +:+ "coupon" +:+ dq +:+ "]");
    ("input[id*=" +:+ dq +:+ "coupon" +:+ dq +:+ "]");
    ("input[name=" +:+ dq +:+ "discount_code" +:+ dq +:+ "]");
    ("input[id=" +:+ dq +:+ "discount_code" +:+ dq +:+ "]");
    ("input[name*=" +:+ dq +:+ "discount" +:+ dq +:+ "]");
    ("input[id*=" +:+ dq +:+ "discount" +:+ dq +:+ "]");
    ("input[name=" +:+ dq +:+ "promo_code" +:+ dq +:+ "]");
    ("input[id=" +:+ dq +:+ "promo_code" +:+ dq +:+ "]");
    ("input[name*=" +:+ dq +:+ "promo" +:+ dq +:+ "]");
    ("input[id*=" +:+ dq +:+ "promo" +:+ dq +:+ "]") ].

(** [success_selectors], line 343 *)
Definition success_selectors : list string :=
  [ ".success-message";
    ".alert-success";
    ".message-success";
    ".coupon-success";
    ".discount-success";
    ".promo-success";
    ("div:has-text(" +:+ dq +:+ "successfully" +:+ dq +:+ ")");
    ("div:has-text(" +:+ dq +:+ "Successfully" +:+ dq +:+ ")");
    ("div:has-text(" +:+ dq +:+ "applied" +:+ dq +:+ ")");
    ("div:has-text(" +:+ dq +:+ "Applied" +:+ dq +:+ ")");
    ("p:has-text(" +:+ dq +:+ "successfully" +:+ dq +:+ ")");
    ("p:has-text(" +:+ dq +:+ "Successfully" +:+ dq +:+ ")");
    ("p:has-text(" +:+ dq +:+ "applied" +:+ dq +:+ ")");
    ("p:has-text(" +:+ dq +:+ "Applied" +:+ dq +:+ ")");
    ("span:has-text(" +:+ dq +:+ "successfully" +:+ dq +:+ ")");
    ("span:has-text(" +:+ dq +:+ "Successfully" +:+ dq +:+ ")");
    ("span:has-text(" +:+ dq +:+ "applied" +:+ dq +:+ ")");
    ("span:has-text(" +:+ dq +:+ "Applied" +:+ dq +:+ ")") ].

(** [error_selectors], line 373 *)
Definition error_selectors : list string :=
  [ ".error-message";
    ".alert-danger";
    ".message-error";
    ".coupon-error";
    ".discount-error";
    ".promo-error";
    ("div:has-text(" +:+ dq +:+ "invalid" +:+ dq +:+ ")");
    ("div:has-text(" +:+ dq +:+ "Invalid" +:+ dq +:+ ")");
    ("div:has-text(" +:+ dq +:+ "expired" +:+ dq +:+ ")");
    ("div:has-text(" +:+ dq +:+ "Expired" +:+ dq +:+ ")");
    ("div:has-text(" +:+ dq +:+ "not valid" +:+ dq +:+ ")");
    ("div:has-text(" +:+ dq +:+ "Not valid" +:+ dq +:+ ")");
    ("p:has-text(" +:+ dq +:+ "invalid" +:+ dq +:+ ")");
    ("p:has-text(" +:+ dq +:+ "Invalid" +:+ dq +:+ ")");
    ("p:has-text(" +:+ dq +:+ "expired" +:+ dq +:+ ")");
    ("p:has-text(" +:+ dq +:+ "Expired" +:+ dq +:+ ")");
    ("p:has-text(" +:+ dq +:+ "not valid" +:+ dq +:+ ")");
    ("p:has-text(" +:+ dq +:+ "Not valid" +:+ dq +:+ ")");
    ("span:has-text(" +:+ dq +:+ "invalid" +:+ dq +:+ ")");
    ("span:has-text(" +:+ dq +:+ "Invalid" +:+ dq +:+ ")");
    ("span:has-text(" +:+ dq +:+ "expired" +:+ dq +:+ ")");
    ("span:has-text(" +:+ dq +:+ "Expired" +:+ dq +:+ ")");
    ("span:has-text(" +:+ dq +:+ "not valid" +:+ dq +:+ ")");
    ("span:has-text(" +:+ dq +:+ "Not valid" +:+ dq +:+ ")") ].

(** [discount_selectors], line 454 *)
Definition discount_selectors : list string :=
  [ ".discount-amount";
    ".discount";
    ".coupon-discount";
    ".order-discount";
    ".cart-discount";
    ".price-discount";
    ".order-summary__discount";
    ".cart-summary__discount";
    ".discount-total";
    ("span:has-text(" +:+ dq +:+ "discount" +:+ dq +:+ ")");
    ("div:has-text(" +:+ dq +:+ "discount" +:+ dq +:+ ")");
    ("tr:has-text(" +:+ dq +:+ "discount" +:+ dq +:+ ")");
    ("td:has-text(" +:+ dq +:+ "discount" +:+ dq +:+ ")");
    ("span:has-text(" +:+ dq +:+ "Discount" +:+ dq +:+ ")");
    ("div:has-text(" +:+ dq +:+ "Discount" +:+ dq +:+ ")");
    ("tr:has-text(" +:+ dq +:+ "Discount" +:+ dq +:+ ")");
    ("td:has-text(" +:+ dq +:+ "Discount" +:+ dq +:+ ")") ].

(** The regular expressions of [_extract_discount_amount]: the numeric
    token searched in an element's text, and the six phrases searched in
    the page HTML (case-insensitively), in list order. *)
Inductive Pattern : Type :=
| NumericToken     (* [\-\$£€]?\s*[\d,.]+ *)
| DiscountLabel    (* discount[\s\w]*[:\-]\s*[\$£€]?\s*([\d,.]+) *)
| CouponLabel      (* coupon[\s\w]*[:\-]\s*[\$£€]?\s*([\d,.]+) *)
| PromoLabel       (* promo[\s\w]*[:\-]\s*[\$£€]?\s*([\d,.]+) *)
| AmountDiscount   (* [\-\$£€]\s*([\d,.]+)\s*discount *)
| AmountCoupon     (* [\-\$£€]\s*([\d,.]+)\s*coupon *)
| AmountPromo.     (* [\-\$£€]\s*([\d,.]+)\s*promo *)

Definition discount_patterns : list Pattern :=
  [ DiscountLabel; CouponLabel; PromoLabel; AmountDiscount; AmountCoupon; AmountPromo ].

(** The scripts handed to [browser_engine.evaluate]. *)
Inductive Script : Type :=
| FillCouponInput (coupon_code : string)
| ClickApplyButton.

(** What the applicator asks of [browser_engine] (any object with these
    methods), of the two platform handlers and of the [re] and [str]
    libraries.  [re_search p text] is [group(0)] of the leftmost match. *)
Class Engine (S : Type) : Type := {
  is_visible : string -> M S bool;
  get_text : string -> M S (option string);
  get_html_content : M S (option string);
  fill : string -> string -> M S bool;
  click : string -> M S bool;
  press_key : string -> string -> M S bool;
  take_screenshot : string -> M S bool;
  wait_for_navigation : M S bool;
  page_wait_for_timeout : Z -> M S unit;
  evaluate : Script -> M S bool;
  magento_find_and_expand_coupon_section : M S bool;
  skullcandy_find_and_expand_coupon_section : M S bool;
  re_search : Pattern -> string -> option string;
  str_strip : string -> string
}.

(** The Validation Verdict dictionary. *)
Record Verdict : Type := {
  is_valid : bool;
  discount_amount : option string;
  success_message : option string;
  error_message : option string
}.

Definition initial_result : Verdict :=
  {| is_valid := false; discount_amount := None;
     success_message := None; error_message := None |}.

(** [result['success_message'] = m; result['is_valid'] = True] and the
    other assignments to [result]. *)
Definition record_success (m : string) (r : Verdict) : Verdict :=
  {| is_valid := true; discount_amount := discount_amount r;
     success_message := Some m; error_message := error_message r |}.

Definition record_error (m : string) (r : Verdict) : Verdict :=
  {| is_valid := false; discount_amount := discount_amount r;
     success_message := success_message r; error_message := Some m |}.

Definition record_discount (d : option string) (r : Verdict) : Verdict :=
  {| is_valid := is_valid r; discount_amount := d;
     success_message := success_message r; error_message := error_message r |}.

Definition record_valid (r : Verdict) : Verdict :=
  {| is_valid := true; discount_amount := discount_amount r;
     success_message := success_message r; error_message := error_message r |}.

Definition is_none {A : Type} (o : option A) : bool :=
  match o with None => true | Some _ => false end.

(** The confidence threshold and the test against it. *)
Definition ai_confidence_threshold : Q := 8 # 10.

Definition ai_confidence (platform_info : PlatformInfo) (role : string) : option Q :=
  match ai_confidence_scores platform_info with
  | Some scores => scores !! role
  | None => None
  end.

Definition exceeds_threshold (confidence : option Q) : bool :=
  match confidence with
  | Some c => negb (Qle_bool c ai_confidence_threshold)
  | None => false
  end.

(** Log records; a confidence is logged as the number it is. *)
Inductive LogLine : Type :=
| Info (message : string)
| InfoConfidence (message : string) (confidence : Q)
| Warning (message : string).

Definition log_confidence (message : string) (confidence : option Q) : list LogLine :=
  match confidence with
  | Some c => if exceeds_threshold confidence then [InfoConfidence message c] else []
  | None => []
  end.

(** The label an f-string picks from the detection flag. *)
Definition selector_kind (has_ai_detection : bool) : string :=
  if has_ai_detection then "AI-enhanced" else "platform-specific".

Definition known_platform (platform_info : PlatformInfo) : bool :=
  negb (String.eqb (platform platform_info) "unknown").

(** [platform_info[role]] when the key is present and the list non-empty. *)
Definition role_ladder (platform_info : PlatformInfo) (role : string) : list string :=
  match ladders platform_info !! role with
  | Some ladder => ladder
  | None => []
  end.

Section WithEngine.

Context {S : Type} {E : Engine S}.

(** [for selector in ladder: if await is_visible(selector): ...; break]:
    the selector the loop body acts on, if any. *)
Fixpoint first_visible (ladder : list string) : M S (option string) :=
  match ladder with
  | [] => ret None
  | selector :: rest =>
      let* visible := is_visible selector in
      if visible then ret (Some selector) else first_visible rest
  end.

(** Lines 46-158: locate the coupon input and fill it. *)
Definition fill_coupon_field (platform_info : PlatformInfo) (coupon_code : string)
    : M S (bool * list LogLine) :=
  let confidence := ai_confidence platform_info "coupon_field" in
  let has_ai_detection := exceeds_threshold confidence in
  let log0 :=
    log_confidence "Using AI-detected coupon field with confidence: " confidence in
  let* hit :=
    (if known_platform platform_info
     then first_visible (role_ladder platform_info "coupon_field")
     else ret None) in
  match hit with
  | Some selector =>
      fill selector coupon_code >>
      ret (true,
           log0 ++ [Info ("Filled coupon field with " +:+ selector_kind has_ai_detection
                          +:+ " selector: " +:+ selector)])
  | None =>
      let* toggle := first_visible coupon_toggle_selectors in
      let* log1 :=
        match toggle with
        | Some selector =>
            click selector >>
            page_wait_for_timeout 1000 >>
            ret [Info ("Clicked coupon toggle: " +:+ selector)]
        | None => ret []
        end in
      let* hit := first_visible coupon_field_selectors in
      match hit with
      | Some selector =>
          fill selector coupon_code >>
          ret (true,
               log0 ++ log1
               ++ [Info ("Filled coupon field with generic selector: " +:+ selector)])
      | None =>
          try_except
            (let* found := evaluate (FillCouponInput coupon_code) in
             ret (found,
                  log0 ++ log1
                  ++ (if found
                      then [Info "Found and filled coupon field using JavaScript"]
                      else [])))
            (fun e =>
               ret (false,
                    log0 ++ log1
                    ++ [Warning ("JavaScript coupon field detection failed: " +:+ e)]))
      end
  end.

(** Lines 160-261: click the apply control, or press Enter on the
    coupon field. *)
Definition click_apply_button (platform_info : PlatformInfo)
    : M S (bool * list LogLine) :=
  let confidence := ai_confidence platform_info "coupon_button" in
  let has_ai_button_detection := exceeds_threshold confidence in
  let log0 :=
    log_confidence "Using AI-detected apply button with confidence: " confidence in
  let* hit :=
    (if known_platform platform_info
     then first_visible (role_ladder platform_info "coupon_button")
     else ret None) in
  let* clicked :=
    match hit with
    | Some selector =>
        click selector >>
        ret (true,
             log0 ++ [Info ("Clicked apply button with "
                            +:+ selector_kind has_ai_button_detection
                            +:+ " selector: " +:+ selector)])
    | None =>
        let* hit := first_visible apply_button_selectors in
        match hit with
        | Some selector =>
            click selector >>
            ret (true,
                 log0 ++ [Info ("Clicked apply button with generic selector: "
                                +:+ selector)])
        | None =>
            try_except
              (let* found := evaluate ClickApplyButton in
               ret (found,
                    log0 ++ (if found
                             then [Info "Found and clicked apply button using JavaScript"]
                             else [])))
              (fun e =>
                 ret (false,
                      log0 ++ [Warning ("JavaScript apply button detection failed: "
                                        +:+ e)]))
        end
    end in
  if fst clicked then ret clicked
  else
    let* hit := first_visible enter_field_selectors in
    match hit with
    | Some selector =>
        press_key selector "Enter" >>
        ret (true, snd clicked ++ [Info ("Pressed Enter on coupon field: " +:+ selector)])
    | None => ret clicked
    end.

(** *** [_extract_discount_amount] *)

(** The ladder loop: the first visible element with text in which the
    numeric token is found. *)
Fixpoint scan_discount (ladder : list string) : M S (option string) :=
  match ladder with
  | [] => ret None
  | selector :: rest =>
      let* visible := is_visible selector in
      if visible then
        let* discount_text := get_text selector in
        if opt_truthy discount_text then
          match re_search NumericToken (default "" discount_text) with
          | Some group0 => ret (Some (str_strip group0))
          | None => scan_discount rest
          end
        else scan_discount rest
      else scan_discount rest
  end.

(** The page-wide search, pattern by pattern. *)
Fixpoint search_html (patterns : list Pattern) (html_content : string)
    : option string :=
  match patterns with
  | [] => None
  | pattern :: rest =>
      match re_search pattern html_content with
      | Some group0 => Some (str_strip group0)
      | None => search_html rest html_content
      end
  end.

Definition _extract_discount_amount (platform_info : PlatformInfo)
    : M S (option string) :=
  try_except
    (let ai_discount_selectors :=
       if exceeds_threshold (ai_confidence platform_info "discount_amount")
       then role_ladder platform_info "discount_amount"
       else [] in
     let* found := scan_discount (ai_discount_selectors ++ discount_selectors) in
     match found with
     | Some amount => ret (Some amount)
     | None =>
         let* html_content := get_html_content in
         if opt_truthy html_content
         then ret (search_html discount_patterns (default "" html_content))
         else ret None
     end)
    (fun _ => ret None).

(** *** [_check_validation_result] *)

(** The [result] dictionary being filled, next to the engine state. *)
Record CState : Type := { result : Verdict; engine : S }.

Definition update_result (f : Verdict -> Verdict) (cs : CState) : CState :=
  {| result := f (result cs); engine := engine cs |}.

Definition on_engine {A : Type} (m : M S A) : M CState A :=
  fun cs =>
    let '(r, s') := m (engine cs) in
    (r, {| result := result cs; engine := s' |}).

(** A message ladder: the first visible element with non-empty text is
    recorded and ends the loop. *)
Fixpoint scan_message (record : string -> Verdict -> Verdict) (ladder : list string)
    : M CState unit :=
  match ladder with
  | [] => ret tt
  | selector :: rest =>
      let* visible := on_engine (is_visible selector) in
      if visible then
        let* message := on_engine (get_text selector) in
        match message with
        | Some text =>
            if str_truthy text then modify (update_result (record text))
            else scan_message record rest
        | None => scan_message record rest
        end
      else scan_message record rest
  end.

Definition no_message (r : Verdict) : bool :=
  is_none (success_message r) && is_none (error_message r).

(** Lines 317-406: platform ladders, then the common ladders when no
    message has been found. *)
Definition gather_messages (platform_info : PlatformInfo) : M CState unit :=
  (if known_platform platform_info then
     scan_message record_success (role_ladder platform_info "coupon_success") >>
     scan_message record_error (role_ladder platform_info "coupon_error")
   else ret tt) >>
  let* r := gets result in
  if no_message r then
    scan_message record_success success_selectors >>
    scan_message record_error error_selectors
  else ret tt.

(** Lines 408-418: the discount amount and what it implies. *)
Definition weigh_discount (platform_info : PlatformInfo) : M CState unit :=
  let* discount_amount := on_engine (_extract_discount_amount platform_info) in
  (if opt_truthy discount_amount then
     modify (update_result (record_discount discount_amount)) >>
     let* r := gets result in
     if no_message r then modify (update_result record_valid) else ret tt
   else ret tt) >>
  let* r := gets result in
  if negb (is_valid r) && is_none (error_message r) && opt_truthy discount_amount
  then modify (update_result record_valid)
  else ret tt.

(** The method returns [result] both at the end of the [try] block and
    from its [except] clause. *)
Definition _check_validation_result (platform_info : PlatformInfo) : M S Verdict :=
  fun s =>
    let '(_, cs) :=
      (gather_messages platform_info >> weigh_discount platform_info)
        {| result := initial_result; engine := s |} in
    (Ok (result cs), engine cs).

(** *** [apply_coupon] *)

Inductive CouponResult : Type :=
| Applied (validation_result : Verdict)
| NotApplied (error : string).

Definition apply_coupon (platform_info : PlatformInfo) (coupon_code : string)
    : M S CouponResult :=
  try_except
    (take_screenshot "/tmp/before_coupon_application.png" >>
     (if String.eqb (platform platform_info) "magento"
      then magento_find_and_expand_coupon_section >> ret tt else ret tt) >>
     (if String.eqb (platform platform_info) "skullcandy"
      then skullcandy_find_and_expand_coupon_section >> ret tt else ret tt) >>
     let* field := fill_coupon_field platform_info coupon_code in
     if negb (fst field) then ret (NotApplied "Could not find coupon input field")
     else
       click_apply_button platform_info >>
       wait_for_navigation >>
       take_screenshot "/tmp/after_coupon_application.png" >>
       let* validation_result := _check_validation_result platform_info in
       ret (Applied validation_result))
    (fun e => ret (NotApplied ("Error applying coupon: " +:+ e))).

End WithEngine.

Arguments CState S : clear implicits.

End CouponApplicator.

(** ** [BrowserEngine] as the [browser_engine] of [CouponApplicator] *)
Module EngineBinding.

Import BrowserEngine.

Section WithDriver.

Context {W : Type} {PW : Playwright W} {IW : Interaction W}.

(** The two platform handlers and [re.search], which the applicator
    takes as given. *)
Variable magento_handler : M (State W) bool.
Variable skullcandy_handler : M (State W) bool.
Variable re_search : CouponApplicator.Pattern -> string -> option string.

(** The calls of [apply_coupon] with their default arguments.
    [BrowserEngine] has no method [evaluate], and
    [browser_engine.page.wait_for_timeout] needs the page. *)
Definition as_applicator_engine : CouponApplicator.Engine (State W) := {|
  CouponApplicator.is_visible selector := is_visible selector 5000;
  CouponApplicator.get_text selector := get_text selector None;
  CouponApplicator.get_html_content := get_html_content;
  CouponApplicator.fill selector value := fill selector value None true;
  CouponApplicator.click selector := click selector None false true;
  CouponApplicator.press_key selector key := press_key selector key None;
  CouponApplicator.take_screenshot := take_screenshot;
  CouponApplicator.wait_for_navigation := wait_for_navigation None;
  CouponApplicator.page_wait_for_timeout ms :=
    let* h := get_page "wait_for_timeout" in
    call (page_wait_for_timeout h ms);
  CouponApplicator.evaluate _ := raise (attribute_error "BrowserEngine" "evaluate");
  CouponApplicator.magento_find_and_expand_coupon_section := magento_handler;
  CouponApplicator.skullcandy_find_and_expand_coupon_section := skullcandy_handler;
  CouponApplicator.re_search := re_search;
  CouponApplicator.str_strip := Str.strip
|}.

End WithDriver.

End EngineBinding.
(** ** main.py *)
Module Main.

Import WebsitePatternRecognizer.
Import BrowserEngine (Event, State, Playwright).

(** [{'success': True}] or [{'success': False, 'error': msg}], the shape
    every stage returns. *)
Inductive StageResult : Type :=
| StageOk
| StageFailed (error : string).

(** The analyzer's answer: the detected element types, in dictionary
    order, and the confidence scores when the key is present.  Element
    types are role names, distinct from the descriptor's other keys. *)
Record AIAnalysis : Type := {
  detected_elements : list string;
  ai_scores : option (gmap string Q)
}.

(** A collaborator working on the engine object in the world. *)
Definition Step (W A : Type) : Type :=
  BrowserEngine.t -> W -> res A * (BrowserEngine.t * W).

(** The collaborators of [validate_coupon] that are taken as given:
    library calls, constructors that touch the file system, the ML
    analyzer, the pipeline stages, and the file writers (which catch
    their own exceptions). *)
Class Collaborators (W : Type) : Type := {
  urlparse : string -> res InputHandler.ParseResult;
  ai_analyzer_init : W -> res unit * W;
  result_reporter_init : string -> W -> res unit * W;
  now_timestamp : W -> string;
  now_filestamp : W -> string;
  path_join : string -> string -> string;
  analyze_website_structure : Step W AIAnalysis;
  get_element_selectors : string -> Step W (list string);
  find_and_select_product : PlatformInfo -> Step W StageResult;
  add_to_cart : PlatformInfo -> Step W StageResult;
  navigate_to_checkout : PlatformInfo -> Step W StageResult;
  magento_find_and_expand_coupon_section : Step W bool;
  apply_coupon : PlatformInfo -> string -> Step W CouponApplicator.CouponResult;
  save_and_report : gmap string ResultReporter.value -> W -> W
}.

(** [sep.join(items)] *)
Fixpoint str_join (sep : string) (items : list string) : string :=
  match items with
  | [] => ""
  | [x] => x
  | x :: rest => x +:+ sep +:+ str_join sep rest
  end.

Definition set_ladder (role : string) (ladder : list string) (pi : PlatformInfo)
    : PlatformInfo :=
  {| platform := platform pi; confidence_scores := confidence_scores pi;
     error := error pi; ladders := <[role := ladder]> (ladders pi);
     ai_confidence_scores := ai_confidence_scores pi |}.

Definition set_ai_confidence_scores (scores : gmap string Q) (pi : PlatformInfo)
    : PlatformInfo :=
  {| platform := platform pi; confidence_scores := confidence_scores pi;
     error := error pi; ladders := ladders pi;
     ai_confidence_scores := Some scores |}.

Section WithWorld.

Context {W : Type} {PW : Playwright W} {C : Collaborators W}.

(** The frame of one [validate_coupon] call: the locals whose binding
    the [except] and [finally] clauses depend on, the world, and the
    events so far. *)
Record Frame : Type := {
  browser_engine : option BrowserEngine.t;
  result_reporter_bound : bool;
  screenshot_path : option (option string);
  world : W;
  events : list Event
}.

Definition initial_frame (w : W) : Frame :=
  {| browser_engine := None; result_reporter_bound := false;
     screenshot_path := None; world := w; events := [] |}.

Definition unbound_local (name : string) : string :=
  "cannot access local variable '" +:+ name
  +:+ "' where it is not associated with a value".

(** A call on [browser_engine]; the local must be bound. *)
Definition on_browser {A : Type} (m : M (State W) A) : M Frame A :=
  fun f =>
    match browser_engine f with
    | None => (Raise (unbound_local "browser_engine"), f)
    | Some e =>
        let '(r, st) :=
          m {| BrowserEngine.self := e; BrowserEngine.world := world f;
               BrowserEngine.events := events f |} in
        (r, {| browser_engine := Some (BrowserEngine.self st);
               result_reporter_bound := result_reporter_bound f;
               screenshot_path := screenshot_path f;
               world := BrowserEngine.world st;
               events := BrowserEngine.events st |})
    end.

(** A collaborator that is handed [browser_engine]. *)
Definition step {A : Type} (s : Step W A) : M Frame A :=
  on_browser
    (fun st =>
       let '(r, (e, w)) := s (BrowserEngine.self st) (BrowserEngine.world st) in
       (r, {| BrowserEngine.self := e; BrowserEngine.world := w;
              BrowserEngine.events := BrowserEngine.events st |})).

(** A collaborator that only touches the world. *)
Definition in_world {A : Type} (op : W -> res A * W) : M Frame A :=
  fun f =>
    let '(r, w) := op (world f) in
    (r, {| browser_engine := browser_engine f;
           result_reporter_bound := result_reporter_bound f;
           screenshot_path := screenshot_path f;
           world := w; events := events f |}).

Definition record_event (e : Event) : M Frame unit :=
  modify (fun f =>
    {| browser_engine := browser_engine f;
       result_reporter_bound := result_reporter_bound f;
       screenshot_path := screenshot_path f;
       world := world f; events := events f ++ [e] |}).

Definition bind_browser_engine (e : BrowserEngine.t) : M Frame unit :=
  modify (fun f =>
    {| browser_engine := Some e;
       result_reporter_bound := result_reporter_bound f;
       screenshot_path := screenshot_path f;
       world := world f; events := events f |}).

Definition bind_result_reporter : M Frame unit :=
  modify (fun f =>
    {| browser_engine := browser_engine f;
       result_reporter_bound := true;
       screenshot_path := screenshot_path f;
       world := world f; events := events f |}).

Definition bind_screenshot_path (p : option string) : M Frame unit :=
  modify (fun f =>
    {| browser_engine := browser_engine f;
       result_reporter_bound := result_reporter_bound f;
       screenshot_path := Some p;
       world := world f; events := events f |}).

(** [result_reporter.format_result(...)] at the current clock reading. *)
Definition format_result (coupon_code website_url : string) (is_valid : bool)
    (status_message : string)
    (error_message discount_amount screenshot_path : option string)
    : M Frame (gmap string ResultReporter.value) :=
  let* timestamp := gets (fun f => now_timestamp (world f)) in
  ret (ResultReporter.format_result timestamp coupon_code website_url is_valid
         status_message error_message discount_amount screenshot_path).

(** [try: save_result(result); generate_report(result) except: log] *)
Definition save (result : gmap string ResultReporter.value) : M Frame unit :=
  in_world (fun w => (Ok tt, save_and_report result w)).

(** *** Lines 80-118: the outer retry over wait policies *)

Definition wait_policies : list string := ["networkidle"; "domcontentloaded"; "load"].

Definition navigate (globals : list string) (url wait_until : string) (timeout : Z)
    : M Frame bool :=
  on_browser
    (fun st =>
       let '(result, _, st') :=
         BrowserEngine.navigate_in globals url wait_until (Some timeout) st in
       (Ok result, st')).

Fixpoint try_policies (globals : list string) (website_url : string) (timeout : Z)
    (policies : list string) (navigation_success : bool)
    (navigation_errors : list string) : M Frame (bool * list string) :=
  match policies with
  | [] => ret (navigation_success, navigation_errors)
  | policy :: rest =>
      if navigation_success then ret (navigation_success, navigation_errors)
      else
        let* outcome :=
          try_except
            (let* ok := navigate globals website_url policy timeout in
             if ok then ret (true, navigation_errors)
             else ret (false,
                       navigation_errors
                       ++ ["Navigation failed with strategy: " +:+ policy]))
            (fun e =>
               ret (navigation_success,
                    navigation_errors
                    ++ ["Navigation failed with strategy " +:+ policy +:+ ": " +:+ e])) in
        try_policies globals website_url timeout rest (fst outcome) (snd outcome)
  end.

(** *** Lines 124-151: merging the analyzer's selectors *)

Definition on_frame {A : Type} (m : M Frame A) : M (PlatformInfo * Frame) A :=
  fun s =>
    let '(r, f') := m (snd s) in
    (r, (fst s, f')).

Definition update_platform_info (g : PlatformInfo -> PlatformInfo)
    : M (PlatformInfo * Frame) unit :=
  modify (fun s => (g (fst s), snd s)).

(** [for element_type, element in ai_analysis['detected_elements'].items()] *)
Fixpoint merge_detected (detected : list string) : M (PlatformInfo * Frame) unit :=
  match detected with
  | [] => ret tt
  | element_type :: rest =>
      let* platform_info := gets fst in
      match ladders platform_info !! element_type with
      | Some [] =>
          let* ai_selectors := on_frame (step (get_element_selectors element_type)) in
          (match ai_selectors with
           | [] => ret tt
           | _ :: _ => update_platform_info (set_ladder element_type (ai_selectors ++ []))
           end) >>
          merge_detected rest
      | _ => merge_detected rest
      end
  end.

Definition enhance_with_ai (platform_info : PlatformInfo) : M Frame PlatformInfo :=
  fun f =>
    let '(_, (platform_info', f')) :=
      try_except
        (let* ai_analysis := on_frame (step analyze_website_structure) in
         match detected_elements ai_analysis with
         | [] => ret tt
         | _ :: _ =>
             merge_detected (detected_elements ai_analysis) >>
             match ai_scores ai_analysis with
             | Some scores => update_platform_info (set_ai_confidence_scores scores)
             | None => raise "'confidence_scores'"
             end
         end)
        (fun _ => ret tt) (platform_info, f) in
    (Ok platform_info', f').

(** *** The body of the [try] block *)

Definition Result : Type := gmap string ResultReporter.value.

Definition failed_stage (coupon_code website_url status_message error : string)
    : M Frame Result :=
  format_result coupon_code website_url false status_message (Some error) None None.

(** Lines 153-237: the stages after platform identification. *)
Definition run_stages (coupon_code website_url output_dir : string)
    (platform_info : PlatformInfo) : M Frame Result :=
  let* product_result := step (find_and_select_product platform_info) in
  match product_result with
  | StageFailed error =>
      failed_stage coupon_code website_url "Product selection failed" error
  | StageOk =>
  let* cart_result := step (add_to_cart platform_info) in
  match cart_result with
  | StageFailed error =>
      failed_stage coupon_code website_url "Adding to cart failed" error
  | StageOk =>
  let* checkout_result := step (navigate_to_checkout platform_info) in
  match checkout_result with
  | StageFailed error =>
      failed_stage coupon_code website_url "Checkout navigation failed" error
  | StageOk =>
  (if String.eqb (platform platform_info) "magento"
   then step magento_find_and_expand_coupon_section >> ret tt else ret tt) >>
  let* coupon_result := step (apply_coupon platform_info coupon_code) in
  let* timestamp_str := gets (fun f => now_filestamp (world f)) in
  let screenshot_filename := timestamp_str +:+ "_" +:+ coupon_code +:+ "_result.png" in
  let path := path_join output_dir screenshot_filename in
  bind_screenshot_path (Some path) >>
  on_browser (BrowserEngine.take_screenshot path) >>
  match coupon_result with
  | CouponApplicator.NotApplied error =>
      format_result coupon_code website_url false "Coupon application failed"
        (Some error) None (Some path)
  | CouponApplicator.Applied v =>
      let* result :=
        format_result coupon_code website_url (CouponApplicator.is_valid v)
          "Coupon validation complete" (CouponApplicator.error_message v)
          (CouponApplicator.discount_amount v) (Some path) in
      save result >>
      ret result
  end
  end end end.

(** Lines 63-237: what follows the construction of the engine. *)
Definition pipeline (globals : list string)
    (coupon_code website_url output_dir : string) (timeout : Z) : M Frame Result :=
  record_event BrowserEngine.Constructed >>
  in_world ai_analyzer_init >>
  in_world (result_reporter_init output_dir) >>
  bind_result_reporter >>
  bind_screenshot_path None >>
  record_event BrowserEngine.StartCalled >>
  on_browser BrowserEngine.start >>
  let* navigation :=
    try_policies globals website_url timeout wait_policies false [] in
  if negb (fst navigation) then
    format_result coupon_code website_url false "Navigation failed"
      (Some ("Failed to navigate to the website after multiple attempts: "
             +:+ str_join "; " (snd navigation))) None None
  else
    let* platform_info := on_browser identify_platform in
    let* platform_info := enhance_with_ai platform_info in
    run_stages coupon_code website_url output_dir platform_info.

(** [input_handler.validate_inputs(coupon_code, website_url)] as a
    statement: the value is dropped, an exception propagates. *)
Definition check_inputs (coupon_code website_url : string) : M Frame unit :=
  fun f =>
    match InputHandler.validate_inputs urlparse coupon_code website_url with
    | Ok _ => (Ok tt, f)
    | Raise e => (Raise e, f)
    end.

(** Lines 57-237: the [try] block. *)
Definition try_block (globals : list string)
    (coupon_code website_url : string) (headless : bool) (output_dir : string)
    (timeout : Z) : M Frame Result :=
  check_inputs coupon_code website_url >>
  bind_browser_engine (BrowserEngine.init headless 60000) >>
  pipeline globals coupon_code website_url output_dir timeout.

(** Lines 239-266: the [except] clause. *)
Definition except_clause (coupon_code website_url output_dir : string) (e : string)
    : M Frame Result :=
  let* bound := gets result_reporter_bound in
  (if bound then ret tt
   else in_world (result_reporter_init output_dir) >> bind_result_reporter) >>
  let* path := gets screenshot_path in
  let* result :=
    format_result coupon_code website_url false "Validation error" (Some e) None
      (default None path) in
  save result >>
  ret result.

(** Lines 268-271: the [finally] clause reads the local
    [browser_engine]; an exception raised there replaces the pending
    return value. *)
Definition finally_clause : M Frame unit :=
  let* engine := gets browser_engine in
  match engine with
  | None => raise (unbound_local "browser_engine")
  | Some _ => record_event BrowserEngine.CloseCalled >> on_browser BrowserEngine.close
  end.

Definition validate_coupon_in (globals : list string)
    (coupon_code website_url : string) (headless : bool) (output_dir : string)
    (timeout : Z) (w : W) : res Result * Frame :=
  let '(outcome, f) :=
    try_except
      (try_block globals coupon_code website_url headless output_dir timeout)
      (except_clause coupon_code website_url output_dir)
      (initial_frame w) in
  match finally_clause f with
  | (Ok _, f') => (outcome, f')
  | (Raise e, f') => (Raise e, f')
  end.

(** [validate_coupon] with the engine module as it is written. *)
Definition validate_coupon : string -> string -> bool -> string -> Z -> W
                             -> res Result * Frame :=
  validate_coupon_in BrowserEngine.module_globals.

End WithWorld.

Arguments Frame W : clear implicits.

End Main.

(** ** Statements and concrete inputs used by the theorems below *)

(** [token] occurs in [text]. *)
Definition contains (token text : string) : Prop :=
  exists pre post, text = pre +:+ token +:+ post.

(** Statements about the events of a run. *)
Module Statements.

Import BrowserEngine.

(** Events that precede the closing of the session. *)
Definition setup_event (e : Event) : Prop := e = Constructed \/ e = StartCalled.

Definition is_release (e : Event) : Prop := exists r h, e = Released r h.

Definition resource_eqb (a b : Resource) : bool :=
  match a, b with
  | RPage, RPage | RContext, RContext | RBrowser, RBrowser | RDriver, RDriver => true
  | _, _ => false
  end.

Definition is_release_of (r : Resource) (e : Event) : bool :=
  match e with
  | Released r' _ => resource_eqb r r'
  | _ => false
  end.

Definition is_close_call (e : Event) : bool :=
  match e with
  | CloseCalled => true
  | _ => false
  end.

(** The reading of "released exactly once via [close()]": one call of
    [close()], and one release of each of the four resources. *)
Definition session_released_once (evs : list Event) : Prop :=
  length (List.filter is_close_call evs) = 1%nat
  /\ forall r, length (List.filter (is_release_of r) evs) = 1%nat.

Definition release_of (r : Resource) (held : option Handle) : list Event :=
  match held with
  | Some h => [Released r h]
  | None => []
  end.

(** The releases of everything an engine holds, in the order of
    [close]. *)
Definition held_releases (e : t) : list Event :=
  release_of RPage (page e) ++ release_of RContext (context e)
  ++ release_of RBrowser (browser e) ++ release_of RDriver (playwright e).

Definition holds_nothing (e : t) : Prop :=
  page e = None /\ context e = None /\ browser e = None /\ playwright e = None.

(** No release call of the driver raises. *)
Definition releases_succeed {W : Type} {PW : Playwright W} : Prop :=
  (forall h w, exists w', page_close h w = (Ok tt, w'))
  /\ (forall h w, exists w', context_close h w = (Ok tt, w'))
  /\ (forall h w, exists w', browser_close h w = (Ok tt, w'))
  /\ (forall h w, exists w', playwright_stop h w = (Ok tt, w')).

End Statements.

(** Statements about the metrics of a [navigate] call. *)
Module NavigationStatements.

Import BrowserEngine.




End NavigationStatements.

(** Statements about the selector ladders. *)
Module LadderStatements.

Import WebsitePatternRecognizer CouponApplicator.

(** The descriptor with other AI confidence scores (or none). *)
Definition with_scores (scores : option (gmap string Q)) (pi : PlatformInfo)
    : PlatformInfo :=
  {| platform := platform pi; confidence_scores := confidence_scores pi;
     error := error pi; ladders := ladders pi; ai_confidence_scores := scores |}.

(** The result of a stage without its log lines. *)
Definition without_log {S : Type} (r : res (bool * list LogLine) * S) : res bool * S :=
  match r with
  | (Ok (found, _), s) => (Ok found, s)
  | (Raise e, s) => (Raise e, s)
  end.

(** The reading of "AI-suggested selectors are prepended": above the
    threshold, the ladder of the role starts with the suggestions. *)
Definition suggestions_lead (pi : PlatformInfo) (role : string)
    (suggestions : list string) : Prop :=
  exceeds_threshold (ai_confidence pi role) = true ->
  exists rest, role_ladder pi role = suggestions ++ rest.

End LadderStatements.

Module RecognizerExamples.

Import WebsitePatternRecognizer.

(** The reading of the Magento scenario in which Magento's score exceeds
    every other platform's. *)
Definition magento_strictly_ahead (html url : string) : Prop :=
  platform (identify html url) = "magento"
  /\ exists magento,
       dict_get "magento" (confidence_scores_of platform_patterns html url) = Some magento
       /\ 0 < magento
       /\ forall p s,
            In (p, s) (confidence_scores_of platform_patterns html url) ->
            p <> "magento" -> s < magento.

Definition cart_html : string := "Mage.Cookies".
Definition cart_url : string := "https://example.com/checkout/cart".

(** A Magento cart page that also carries WooCommerce markers. *)
Definition mixed_html : string :=
  "Mage.Cookies woocommerce wc- wc_ is-woocommerce- wp-content".

End RecognizerExamples.

Module ApplicatorExamples.

Import WebsitePatternRecognizer CouponApplicator.

(** A static page: the visible elements with their text, the HTML, and
    the actions performed on it so far. *)
Record Session : Type := {
  elements : list (string * string);
  html : string;
  actions : list string
}.

Definition act (a : string) : M Session bool :=
  fun s => (Ok true, {| elements := elements s; html := html s;
                        actions := actions s ++ [a] |}).

(** An engine over a static page.  It has no [evaluate] method, like
    [BrowserEngine]; the numeric token of a text is the text itself. *)
#[export] Instance static_engine : Engine Session := {|
  is_visible selector := fun s => (Ok (negb (is_none (dict_get selector (elements s)))), s);
  get_text selector := fun s => (Ok (dict_get selector (elements s)), s);
  get_html_content := fun s => (Ok (Some (html s)), s);
  fill selector value := act ("fill " +:+ selector);
  click selector := act ("click " +:+ selector);
  press_key selector key := act ("press " +:+ selector);
  take_screenshot path := ret true;
  wait_for_navigation := ret true;
  page_wait_for_timeout ms := ret tt;
  evaluate script := raise (BrowserEngine.attribute_error "BrowserEngine" "evaluate");
  magento_find_and_expand_coupon_section := ret true;
  skullcandy_find_and_expand_coupon_section := ret true;
  re_search pattern text :=
    match pattern with
    | NumericToken => if str_truthy text then Some text else None
    | _ => None
    end;
  str_strip text := text
|}.

Definition session (elements : list (string * string)) : Session :=
  {| elements := elements; html := ""; actions := [] |}.

(** The WooCommerce descriptor, as [identify] returns it. *)
Definition woocommerce_info : PlatformInfo :=
  identify "<body class=woocommerce>" "https://shop.example/".

(** After submission: an error message and a zero discount. *)
Definition rejected_page : Session :=
  session [ (".woocommerce-error", "Coupon code is invalid");
            (".discount-total", "$0.00") ].

(** A checkout page on which both the platform's coupon field and the
    element the analyzer points at are visible, and so are both buttons. *)
Definition checkout_page : Session :=
  session [ ("#coupon_code", ""); ("#ai-coupon-input", "");
            (".coupon .button", "Apply coupon"); ("#ai-apply-button", "Apply") ].

(** After submission: no message, only a discount line. *)
Definition discounted_page : Session :=
  session [ (".discount-total", "$5.00") ].

End ApplicatorExamples.

Module MainExamples.

Import WebsitePatternRecognizer BrowserEngine Main.

(** A simulated driver world: whether closing a page fails, whether the
    bot-detection script finds a captcha, and the URLs visited. *)
Record Sim : Type := {
  page_close_raises : bool;
  captcha_present : bool;
  visited : list string
}.

Definition visit (url : string) (w : Sim) : Sim :=
  {| page_close_raises := page_close_raises w;
     captcha_present := captcha_present w; visited := visited w ++ [url] |}.

(** A site whose pages have a body of [body_length] characters.  Handles
    are handed out as 1 (driver), 2 (browser), 3 (context) and 4 (page);
    a later page gets a higher number.  [set_default_timeout] returns
    nothing awaitable, so awaiting it raises. *)
Definition site (body_length : Z) : Playwright Sim := {|
  async_playwright_start w := (Ok 1%nat, w);
  chromium_launch _ _ w := (Ok 2%nat, w);
  browser_new_context _ w := (Ok 3%nat, w);
  context_add_init_script _ w := (Ok tt, w);
  context_new_page _ w := (Ok (4 + length (visited w))%nat, w);
  page_set_default_timeout _ _ w :=
    (Raise "object NoneType can't be used in 'await' expression", w);
  page_close _ w :=
    if page_close_raises w
    then (Raise "Target page, context or browser has been closed", w)
    else (Ok tt, w);
  context_close _ w := (Ok tt, w);
  browser_close _ w := (Ok tt, w);
  playwright_stop _ w := (Ok tt, w);
  mouse_move _ w := (Ok tt, w);
  page_goto _ url _ _ w := (Ok (Some 200), visit url w);
  page_reload _ _ _ w := (Ok (Some 200), w);
  evaluate_content_check _ w :=
    (Ok {| bodyExists := true; contentLength := body_length; hasLinks := true;
           hasImages := false; hasForms := true; title := "Shop";
           isVisible := true; isInteractive := true |}, w);
  evaluate_bot_check _ w :=
    (Ok {| hasCaptcha := captcha_present w; hasAccessDenied := false;
           hasCloudflare := false; hasBotDetection := false |}, w);
  page_content _ w := (Ok "<body class=woocommerce>", w);
  page_url _ w := "https://shop.example/";
  page_screenshot _ _ w := (Ok tt, w)
|}.

(** The site most examples run on, and one that serves an almost empty
    body. *)
#[export] Instance shop_site : Playwright Sim := site 2048.


(** A URL parser for the examples: [https://host/...] has scheme and
    host, anything else has neither. *)
Definition simple_urlparse (url : string) : res InputHandler.ParseResult :=
  if String.prefix "https://" url
  then Ok {| InputHandler.scheme := "https";
             InputHandler.netloc := String.substring 8 (String.length url - 8) url |}
  else Ok {| InputHandler.scheme := ""; InputHandler.netloc := "" |}.

(** The analyzer detects the coupon field and the apply button with
    confidence 0.95 and 0.9 and suggests one selector for each. *)
Definition suggested (role : string) : list string :=
  if String.eqb role "coupon_field" then ["#ai-coupon-input"]
  else if String.eqb role "coupon_button" then ["#ai-apply-button"]
  else [].

Definition sim_scores : gmap string Q :=
  <["coupon_field" := 95 # 100]> (<["coupon_button" := 9 # 10]> ∅).

#[export] Instance sim_collaborators : Collaborators Sim := {|
  urlparse := simple_urlparse;
  ai_analyzer_init w := (Ok tt, w);
  result_reporter_init _ w := (Ok tt, w);
  now_timestamp _ := "2024-01-01 00:00:00";
  now_filestamp _ := "20240101_000000";
  path_join a b := a +:+ "/" +:+ b;
  analyze_website_structure e w :=
    (Ok {| detected_elements := ["coupon_field"; "coupon_button"];
           ai_scores := Some sim_scores |}, (e, w));
  get_element_selectors role e w := (Ok (suggested role), (e, w));
  find_and_select_product _ e w := (Ok StageOk, (e, w));
  add_to_cart _ e w := (Ok StageOk, (e, w));
  navigate_to_checkout _ e w := (Ok StageOk, (e, w));
  magento_find_and_expand_coupon_section e w := (Ok true, (e, w));
  apply_coupon _ _ e w :=
    (Ok (CouponApplicator.Applied
           {| CouponApplicator.is_valid := true;
              CouponApplicator.discount_amount := Some "$5.00";
              CouponApplicator.success_message := Some "Coupon applied successfully";
              CouponApplicator.error_message := None |}), (e, w));
  save_and_report _ w := w
|}.

(** A healthy world, and one whose pages cannot be closed. *)
Definition healthy : Sim :=
  {| page_close_raises := false; captcha_present := false; visited := [] |}.

Definition stuck_page : Sim :=
  {| page_close_raises := true; captcha_present := false; visited := [] |}.

(** The engine after [start]. *)
Definition started (w : Sim) : State Sim :=
  snd (start {| BrowserEngine.self := init true 60000; BrowserEngine.world := w;
                BrowserEngine.events := [] |}).

(** The module globals with [random] added, as a module-level
    [import random] would bind it. *)
Definition globals_with_random : list string := "random" :: module_globals.

(** The descriptor after the AI merge of [validate_coupon], when the
    engine is bound. *)
Definition merged_info (platform_info : PlatformInfo) (f : Frame Sim) : PlatformInfo :=
  match fst (enhance_with_ai platform_info f) with
  | Ok platform_info' => platform_info'
  | Raise _ => platform_info
  end.

Definition bound_frame (w : Sim) : Frame Sim :=
  {| browser_engine := Some (BrowserEngine.self (started w));
     result_reporter_bound := true;
     screenshot_path := Some None; world := w; events := [] |}.

(** A parser that raises on an unterminated IPv6 host, as
    [urllib.parse.urlparse] does, and collaborators that use it. *)
Definition bracket_urlparse (url : string) : res InputHandler.ParseResult :=
  if String.prefix "http://[" url then Raise "Invalid IPv6 URL" else simple_urlparse url.

Definition bracket_collaborators : Collaborators Sim := {|
  urlparse := bracket_urlparse;
  ai_analyzer_init := @ai_analyzer_init Sim sim_collaborators;
  result_reporter_init := @result_reporter_init Sim sim_collaborators;
  now_timestamp := @now_timestamp Sim sim_collaborators;
  now_filestamp := @now_filestamp Sim sim_collaborators;
  path_join := @path_join Sim sim_collaborators;
  analyze_website_structure := @analyze_website_structure Sim sim_collaborators;
  get_element_selectors := @get_element_selectors Sim sim_collaborators;
  find_and_select_product := @find_and_select_product Sim sim_collaborators;
  add_to_cart := @add_to_cart Sim sim_collaborators;
  navigate_to_checkout := @navigate_to_checkout Sim sim_collaborators;
  magento_find_and_expand_coupon_section :=
    @magento_find_and_expand_coupon_section Sim sim_collaborators;
  apply_coupon := @apply_coupon Sim sim_collaborators;
  save_and_report := @save_and_report Sim sim_collaborators
|}.

(** Collaborators whose analyzer cannot create its model directory. *)
Definition readonly_collaborators : Collaborators Sim := {|
  urlparse := simple_urlparse;
  ai_analyzer_init w := (Raise "[Errno 30] Read-only file system: 'models'", w);
  result_reporter_init := @result_reporter_init Sim sim_collaborators;
  now_timestamp := @now_timestamp Sim sim_collaborators;
  now_filestamp := @now_filestamp Sim sim_collaborators;
  path_join := @path_join Sim sim_collaborators;
  analyze_website_structure := @analyze_website_structure Sim sim_collaborators;
  get_element_selectors := @get_element_selectors Sim sim_collaborators;
  find_and_select_product := @find_and_select_product Sim sim_collaborators;
  add_to_cart := @add_to_cart Sim sim_collaborators;
  navigate_to_checkout := @navigate_to_checkout Sim sim_collaborators;
  magento_find_and_expand_coupon_section :=
    @magento_find_and_expand_coupon_section Sim sim_collaborators;
  apply_coupon := @apply_coupon Sim sim_collaborators;
  save_and_report := @save_and_report Sim sim_collaborators
|}.

(** Collaborators whose analyzer could not load its model: its answer
    is the one of its [except] clause, without detected elements and
    without scores. *)
Definition offline_collaborators : Collaborators Sim := {|
  urlparse := simple_urlparse;
  ai_analyzer_init := @ai_analyzer_init Sim sim_collaborators;
  result_reporter_init := @result_reporter_init Sim sim_collaborators;
  now_timestamp := @now_timestamp Sim sim_collaborators;
  now_filestamp := @now_filestamp Sim sim_collaborators;
  path_join := @path_join Sim sim_collaborators;
  analyze_website_structure e w :=
    (Ok {| detected_elements := []; ai_scores := None |}, (e, w));
  get_element_selectors := @get_element_selectors Sim sim_collaborators;
  find_and_select_product := @find_and_select_product Sim sim_collaborators;
  add_to_cart := @add_to_cart Sim sim_collaborators;
  navigate_to_checkout := @navigate_to_checkout Sim sim_collaborators;
  magento_find_and_expand_coupon_section :=
    @magento_find_and_expand_coupon_section Sim sim_collaborators;
  apply_coupon := @apply_coupon Sim sim_collaborators;
  save_and_report := @save_and_report Sim sim_collaborators
|}.

(** A page on which every interaction call times out and every script
    evaluation fails. *)
Definition timed_out {A : Type} (w : Sim) : res A * Sim :=
  (Raise "Timeout 60000ms exceeded.", w).

Definition unresponsive : Interaction Sim := {|
  page_wait_for_selector _ _ _ := timed_out;
  page_click _ _ _ _ := timed_out;
  page_fill _ _ _ _ := timed_out;
  page_focus _ _ _ := timed_out;
  page_press _ _ _ _ := timed_out;
  page_text_content _ _ _ := timed_out;
  page_evaluate _ _ := timed_out;
  page_wait_for_load_state _ _ _ := timed_out;
  page_wait_for_timeout _ _ w := (Ok tt, w)
|}.

(** A driver whose browser cannot be launched. *)
Definition no_browser : Playwright Sim := {|
  async_playwright_start := @async_playwright_start Sim shop_site;
  chromium_launch _ _ w := (Raise "Executable doesn't exist", w);
  browser_new_context := @browser_new_context Sim shop_site;
  context_add_init_script := @context_add_init_script Sim shop_site;
  context_new_page := @context_new_page Sim shop_site;
  page_set_default_timeout := @page_set_default_timeout Sim shop_site;
  page_close := @page_close Sim shop_site;
  context_close := @context_close Sim shop_site;
  browser_close := @browser_close Sim shop_site;
  playwright_stop := @playwright_stop Sim shop_site;
  mouse_move := @mouse_move Sim shop_site;
  page_goto := @page_goto Sim shop_site;
  page_reload := @page_reload Sim shop_site;
  evaluate_content_check := @evaluate_content_check Sim shop_site;
  evaluate_bot_check := @evaluate_bot_check Sim shop_site;
  page_content := @page_content Sim shop_site;
  page_url := @page_url Sim shop_site;
  page_screenshot := @page_screenshot Sim shop_site
|}.

(** A driver whose release calls never raise. *)
Definition reliable : Playwright Sim := {|
  async_playwright_start := @async_playwright_start Sim shop_site;
  chromium_launch := @chromium_launch Sim shop_site;
  browser_new_context := @browser_new_context Sim shop_site;
  context_add_init_script := @context_add_init_script Sim shop_site;
  context_new_page := @context_new_page Sim shop_site;
  page_set_default_timeout := @page_set_default_timeout Sim shop_site;
  page_close _ w := (Ok tt, w);
  context_close := @context_close Sim shop_site;
  browser_close := @browser_close Sim shop_site;
  playwright_stop := @playwright_stop Sim shop_site;
  mouse_move := @mouse_move Sim shop_site;
  page_goto := @page_goto Sim shop_site;
  page_reload := @page_reload Sim shop_site;
  evaluate_content_check := @evaluate_content_check Sim shop_site;
  evaluate_bot_check := @evaluate_bot_check Sim shop_site;
  page_content := @page_content Sim shop_site;
  page_url := @page_url Sim shop_site;
  page_screenshot := @page_screenshot Sim shop_site
|}.

(** An engine that was constructed and not started. *)
Definition fresh (w : Sim) : State Sim :=
  {| BrowserEngine.self := init true 60000; BrowserEngine.world := w;
     BrowserEngine.events := [] |}.

End MainExamples.

Module InputExamples.

(** A parser for [scheme://host/path]: the scheme is what precedes the
    first [://], the host what follows it up to the next slash. *)
Definition scheme_urlparse (url : string) : res InputHandler.ParseResult :=
  match String.index 0 "://" url with
  | Some i =>
      let rest := String.substring (i + 3) (String.length url - (i + 3)) url in
      let host :=
        match String.index 0 "/" rest with
        | Some j => String.substring 0 j rest
        | None => rest
        end in
      Ok {| InputHandler.scheme := String.substring 0 i url;
            InputHandler.netloc := host |}
  | None => Ok {| InputHandler.scheme := ""; InputHandler.netloc := "" |}
  end.

End InputExamples.

Module ReporterExamples.

Import ResultReporter.

(** A disk: the files written so far, and whether it accepts writes.  The
    text of a JSON file is not modelled; its place is held by a marker. *)
Record Disk : Type := {
  files : list (string * string);
  writable : bool
}.

Definition store (path text : string) (d : Disk) : res unit * Disk :=
  if writable d
  then (Ok tt, {| files := (path, text) :: files d; writable := true |})
  else (Raise "[Errno 30] Read-only file system", d).

#[export] Instance disk_files : Files Disk := {|
  now_strftime format _ :=
    if String.eqb format "%Y%m%d_%H%M%S" then "20240101_000000"
    else "2024-01-01 00:00:00";
  write_text := store;
  write_json path _ := store path "<json>"
|}.

Definition empty_disk : Disk := {| files := []; writable := true |}.

End ReporterExamples.

Module AnalyzerExamples.

Import AIWebsiteAnalyzer.

Definition coupon_input : Element :=
  {| element_html := "<input id='coupon_code' class='input-text  promo' name='coupon'>";
     element_type := "input";
     element_id := Some "coupon_code";
     element_name := Some "coupon";
     element_class := Some "input-text  promo";
     element_placeholder := Some "";
     element_href := None;
     element_text := None |}.

Definition apply_link : Element :=
  {| element_html := "<a class=' '> Apply </a>";
     element_type := "link";
     element_id := Some "";
     element_name := None;
     element_class := Some " ";
     element_placeholder := None;
     element_href := Some "";
     element_text := Some " Apply " |}.

(** A similarity that recognises the coupon input as a coupon field
    (0.92) and finds everything else unlike everything (0.31). *)
Definition coupon_similarity (description element_type : string) : Q :=
  if String.eqb description (element_desc coupon_input)
     && String.eqb element_type "coupon_field"
  then 92 # 100 else 31 # 100.

End AnalyzerExamples.

(** * Theorems *)

(** ** result_reporter.py *)
Module ResultReporterFacts.

Import ResultReporter.

(** What [format_result] stores under an optional key. *)
Lemma set_if_truthy_lookup key argument result :
  set_if_truthy key argument result !! key
  = if opt_truthy argument then VStr <$> argument else result !! key.
Proof.
  unfold set_if_truthy.
  destruct argument as [s|]; simpl; [|done].
  destruct (str_truthy s); simpl; [|done].
  by rewrite lookup_insert_eq.
Qed.

Lemma set_if_truthy_lookup_ne key key' argument result :
  key ≠ key' ->
  set_if_truthy key argument result !! key' = result !! key'.
Proof.
  intros Hne. unfold set_if_truthy.
  destruct argument as [s|]; [|done].
  destruct (str_truthy s); [|done].
  by rewrite lookup_insert_ne.
Qed.

(** C10: the five fixed keys are always present with the arguments as
    values, and each of [error_message], [discount_amount] and
    [screenshot_path] is a key exactly when its argument is truthy, so an
    empty string (like [None]) leaves the key out. *)
Theorem format_result_keys
    (timestamp coupon_code website_url : string) (is_valid : bool)
    (status_message : string) (error_message discount_amount screenshot_path : option string) :
  let result :=
    format_result timestamp coupon_code website_url is_valid status_message
      error_message discount_amount screenshot_path in
  result !! "coupon_code" = Some (VStr coupon_code)
  /\ result !! "website_url" = Some (VStr website_url)
  /\ result !! "timestamp" = Some (VStr timestamp)
  /\ result !! "is_valid" = Some (VBool is_valid)
  /\ result !! "status" = Some (VStr status_message)
  /\ result !! "error_message"
     = (if opt_truthy error_message then VStr <$> error_message else None)
  /\ result !! "discount_amount"
     = (if opt_truthy discount_amount then VStr <$> discount_amount else None)
  /\ result !! "screenshot_path"
     = (if opt_truthy screenshot_path then VStr <$> screenshot_path else None)
  /\ (is_Some (result !! "error_message") <-> opt_truthy error_message = true)
  /\ (is_Some (result !! "discount_amount") <-> opt_truthy discount_amount = true)
  /\ (is_Some (result !! "screenshot_path") <-> opt_truthy screenshot_path = true)
  /\ (error_message = Some "" -> result !! "error_message" = None)
  /\ (discount_amount = Some "" -> result !! "discount_amount" = None).
Proof.
  intros result.
  assert (Hfixed : forall key,
             key ≠ "error_message" -> key ≠ "discount_amount" ->
             key ≠ "screenshot_path" ->
             result !! key
             = (<["status" := VStr status_message]>
                  (<["is_valid" := VBool is_valid]>
                     (<["timestamp" := VStr timestamp]>
                        (<["website_url" := VStr website_url]>
                           (<["coupon_code" := VStr coupon_code]>
                              (∅ : gmap string value)))))) !! key).
  { intros key H1 H2 H3. unfold result, format_result.
    rewrite !set_if_truthy_lookup_ne by congruence. done. }
  assert (He : result !! "error_message"
               = if opt_truthy error_message then VStr <$> error_message else None).
  { unfold result, format_result.
    rewrite !set_if_truthy_lookup_ne by discriminate.
    rewrite set_if_truthy_lookup. by destruct (opt_truthy error_message). }
  assert (Hd : result !! "discount_amount"
               = if opt_truthy discount_amount then VStr <$> discount_amount else None).
  { unfold result, format_result.
    rewrite !set_if_truthy_lookup_ne by discriminate.
    rewrite set_if_truthy_lookup.
    destruct (opt_truthy discount_amount); [done|].
    rewrite !set_if_truthy_lookup_ne by discriminate. done. }
  assert (Hs : result !! "screenshot_path"
               = if opt_truthy screenshot_path then VStr <$> screenshot_path else None).
  { unfold result, format_result.
    rewrite set_if_truthy_lookup.
    destruct (opt_truthy screenshot_path); [done|].
    rewrite !set_if_truthy_lookup_ne by discriminate. done. }
  assert (Hiff : forall (o : option string) (v : option value),
             v = (if opt_truthy o then VStr <$> o else None) ->
             is_Some v <-> opt_truthy o = true).
  { intros o v ->. destruct o as [s|]; simpl.
    - destruct (str_truthy s); simpl; split; intros H; done.
    - split; intros H; [by apply is_Some_None in H | done]. }
  repeat split.
  - rewrite Hfixed by discriminate. done.
  - rewrite Hfixed by discriminate. done.
  - rewrite Hfixed by discriminate. done.
  - rewrite Hfixed by discriminate. done.
  - rewrite Hfixed by discriminate. done.
  - exact He.
  - exact Hd.
  - exact Hs.
  - apply (Hiff _ _ He).
  - apply (Hiff _ _ He).
  - apply (Hiff _ _ Hd).
  - apply (Hiff _ _ Hd).
  - apply (Hiff _ _ Hs).
  - apply (Hiff _ _ Hs).
  - intros ->. rewrite He. done.
  - intros ->. rewrite Hd. done.
Qed.

End ResultReporterFacts.

(** ** website_pattern_recognizer.py *)
Module WebsitePatternRecognizerFacts.

Import WebsitePatternRecognizer.

(** *** Counting *)

Lemma score_fold html url patterns acc :
  fold_left
    (fun score pattern => if pattern_hits html url pattern then score + 1 else score)
    patterns acc
  = acc + Z.of_nat (length (List.filter (pattern_hits html url) patterns)).
Proof.
  revert acc. induction patterns as [|p ps IH]; intros acc; simpl.
  - lia.
  - rewrite IH. destruct (pattern_hits html url p); simpl length; lia.
Qed.

(** The score of a platform is the number of its patterns that match. *)
Lemma score_of_count html url patterns :
  score_of html url patterns
  = Z.of_nat (length (List.filter (pattern_hits html url) patterns)).
Proof. unfold score_of. rewrite score_fold. lia. Qed.

Lemma score_of_nonneg html url patterns : 0 <= score_of html url patterns.
Proof. rewrite score_of_count. lia. Qed.

Lemma score_of_two html url patterns p1 p2 :
  p1 <> p2 -> In p1 patterns -> In p2 patterns ->
  pattern_hits html url p1 = true -> pattern_hits html url p2 = true ->
  2 <= score_of html url patterns.
Proof.
  intros Hne H1 H2 Hh1 Hh2. rewrite score_of_count.
  assert (Hlen : (length [p1; p2] <= length (List.filter (pattern_hits html url) patterns))%nat).
  { apply List.NoDup_incl_length.
    - constructor; [simpl; intuition congruence|]. constructor; [simpl; tauto|constructor].
    - intros x [<-|[<-|[]]]; apply List.filter_In; auto. }
  simpl in Hlen. lia.
Qed.

Lemma confidence_scores_lookup table html url i platform patterns :
  table !! i = Some (platform, patterns) ->
  confidence_scores_of table html url !! i
  = Some (platform, Z.of_nat (length (List.filter (pattern_hits html url) patterns))).
Proof.
  intros H. unfold confidence_scores_of.
  rewrite list_lookup_fmap, H. simpl. by rewrite score_of_count.
Qed.

Lemma confidence_scores_nonneg table html url platform score :
  In (platform, score) (confidence_scores_of table html url) -> 0 <= score.
Proof.
  unfold confidence_scores_of. rewrite in_map_iff.
  intros [[p ps] [Heq _]]. inversion Heq; subst. apply score_of_nonneg.
Qed.

(** *** The maximum and the first platform that reaches it *)

Lemma fold_max_ge (rest : list (string * Z)) (s : Z) :
  s <= fold_left (fun m entry => Z.max m (snd entry)) rest s
  /\ forall platform score, In (platform, score) rest ->
       score <= fold_left (fun m entry => Z.max m (snd entry)) rest s.
Proof.
  revert s. induction rest as [|[p x] rest IH]; intros s; simpl.
  - split; [lia | tauto].
  - destruct (IH (Z.max s x)) as [H1 H2]. split; [lia|].
    intros platform score [Heq|Hin].
    + inversion Heq; subst. lia.
    + eauto.
Qed.

Lemma fold_max_attained (rest : list (string * Z)) (s : Z) :
  fold_left (fun m entry => Z.max m (snd entry)) rest s = s
  \/ exists platform,
       In (platform, fold_left (fun m entry => Z.max m (snd entry)) rest s) rest.
Proof.
  revert s. induction rest as [|[p x] rest IH]; intros s; simpl.
  - by left.
  - destruct (IH (Z.max s x)) as [Heq|[q Hq]].
    + rewrite Heq. destruct (Z.max_spec s x) as [[_ ->]|[_ ->]].
      * right. exists p. by left.
      * by left.
    + right. exists q. by right.
Qed.

Lemma max_score_ge scores platform score :
  In (platform, score) scores -> score <= max_score scores.
Proof.
  destruct scores as [|[p s] rest]; simpl; [tauto|].
  destruct (fold_max_ge rest s) as [H1 H2].
  intros [Heq|Hin]; [inversion Heq; subst; lia | eauto].
Qed.

Lemma max_score_attained scores :
  scores <> [] -> exists platform, In (platform, max_score scores) scores.
Proof.
  destruct scores as [|[p s] rest]; [done|]. intros _. simpl.
  destruct (fold_max_attained rest s) as [->|[q Hq]]; [exists p; by left|].
  exists q. by right.
Qed.

(** [first_with_score] returns the platform at the first index whose score
    is [m]. *)
Lemma first_with_score_Some scores m platform :
  first_with_score scores m = Some platform <->
  exists i,
    scores !! i = Some (platform, m)
    /\ forall j p s, (j < i)%nat -> scores !! j = Some (p, s) -> s <> m.
Proof.
  revert platform. induction scores as [|[p s] rest IH]; intros platform; simpl.
  - split; [done|]. intros [i [H _]]. by rewrite lookup_nil in H.
  - destruct (Z.eqb_spec s m) as [->|Hne].
    + split.
      * intros [= ->]. exists 0%nat. split; [done|]. intros j ? ? Hj. lia.
      * intros [i [Hi Hbefore]]. destruct i as [|i]; [by inversion Hi|].
        exfalso. apply (Hbefore 0%nat p m); [lia|done|done].
    + rewrite IH. split.
      * intros [i [Hi Hbefore]]. exists (S i). split; [done|].
        intros [|j] q x Hj Hq; [inversion Hq; by subst|].
        apply (Hbefore j q x); [lia|done].
      * intros [i [Hi Hbefore]]. destruct i as [|i]; [inversion Hi; by subst|].
        exists i. split; [done|].
        intros j q x Hj Hq. apply (Hbefore (S j) q x); [lia|done].
Qed.

Lemma first_with_score_found scores m platform :
  In (platform, m) scores -> is_Some (first_with_score scores m).
Proof.
  induction scores as [|[p s] rest IH]; simpl; [tauto|].
  intros [Heq|Hin].
  - inversion Heq; subst. rewrite Z.eqb_refl. eauto.
  - destruct (s =? m); eauto.
Qed.

Lemma first_with_score_key scores m platform :
  first_with_score scores m = Some platform -> In platform (map fst scores).
Proof.
  induction scores as [|[p s] rest IH]; simpl; [done|].
  destruct (s =? m); [intros [= ->]; by left | intros H; right; auto].
Qed.

(** The selection rule, for any score table with non-negative scores. *)
Lemma detect_spec (scores : list (string * Z)) :
  (forall platform score, In (platform, score) scores -> 0 <= score) ->
  ((forall platform score, In (platform, score) scores -> score = 0) ->
   detect scores = "unknown")
  /\ ((exists platform score, In (platform, score) scores /\ score <> 0) ->
      exists i best,
        scores !! i = Some (detect scores, best)
        /\ 0 < best
        /\ (forall platform score, In (platform, score) scores -> score <= best)
        /\ (forall j platform score,
               (j < i)%nat -> scores !! j = Some (platform, score) -> score < best)).
Proof.
  intros Hnonneg. split.
  - intros Hzero. unfold detect. destruct scores as [|entry rest]; [done|].
    destruct (max_score_attained (entry :: rest)) as [p Hp]; [done|].
    apply Hzero in Hp. rewrite Hp. done.
  - intros [p [s [Hin Hs]]]. unfold detect.
    destruct scores as [|entry rest]; [done|].
    set (scores := entry :: rest) in *.
    assert (Hpos : 0 < max_score scores).
    { pose proof (max_score_ge scores p s Hin). pose proof (Hnonneg p s Hin). lia. }
    destruct (Z.ltb_spec 0 (max_score scores)) as [_|]; [|lia].
    destruct (max_score_attained scores) as [q Hq]; [done|].
    destruct (first_with_score_found scores _ q Hq) as [winner Hw].
    rewrite Hw.
    apply first_with_score_Some in Hw as [i [Hi Hbefore]].
    exists i, (max_score scores). repeat split; [done|done| |].
    + intros. by eapply max_score_ge.
    + intros j platform score Hj Hjs.
      assert (score <= max_score scores).
      { eapply max_score_ge. eapply list_elem_of_In, list_elem_of_lookup_2, Hjs. }
      specialize (Hbefore j platform score Hj Hjs). lia.
Qed.

(** C6: every platform is scored by the number of its patterns that match
    the HTML or the URL; when all scores are zero the tag is [unknown];
    otherwise the tag is the platform at the first position of the table
    whose score equals the highest score. *)
Theorem identify_selects_first_highest (html url : string) :
  let scores := confidence_scores_of platform_patterns html url in
  let info := identify html url in
  confidence_scores info = Some scores
  /\ (forall i platform patterns,
         platform_patterns !! i = Some (platform, patterns) ->
         scores !! i
         = Some (platform,
                 Z.of_nat (length (List.filter (pattern_hits html url) patterns))))
  /\ ((forall platform score, In (platform, score) scores -> score = 0) ->
      platform info = "unknown")
  /\ ((exists platform score, In (platform, score) scores /\ score <> 0) ->
      exists i best,
        scores !! i = Some (platform info, best)
        /\ 0 < best
        /\ (forall platform score, In (platform, score) scores -> score <= best)
        /\ (forall j platform score,
               (j < i)%nat -> scores !! j = Some (platform, score) -> score < best)).
Proof.
  intros scores info.
  destruct (detect_spec scores) as [Hzero Hbest].
  { intros p s. apply confidence_scores_nonneg. }
  split; [done|]. split.
  { intros i p ps. apply confidence_scores_lookup. }
  split; [exact Hzero | exact Hbest].
Qed.

(** *** The Magento cart scenario *)

Lemma append_cons (x : ascii) (a b : string) :
  String x a +:+ b = String x (a +:+ b).
Proof. reflexivity. Qed.

Lemma append_assoc (a b c : string) : (a +:+ b) +:+ c = a +:+ (b +:+ c).
Proof.
  induction a as [|x a IH]; [done|].
  rewrite !append_cons. by f_equal.
Qed.

Lemma search_contains (pattern token : string) :
  (forall post, Re.match_here (Re.compile pattern) (token +:+ post) = true) ->
  forall text, contains token text -> Re.search pattern text = true.
Proof.
  intros Hhere text [pre [post ->]]. unfold Re.search.
  induction pre as [|c pre IH].
  - change ("" +:+ token +:+ post) with (token +:+ post).
    destruct (token +:+ post) eqn:E; simpl; rewrite <- E, Hhere; done.
  - rewrite append_cons. simpl. rewrite IH. apply orb_true_r.
Qed.

Lemma mage_cookies_hit html url :
  contains "Mage.Cookies" html -> pattern_hits html url "Mage.Cookies" = true.
Proof.
  intros H. unfold pattern_hits.
  rewrite (search_contains "Mage.Cookies" "Mage.Cookies"); [done| |done].
  intros post. reflexivity.
Qed.

Lemma checkout_cart_hits html url :
  contains "checkout/cart" url ->
  pattern_hits html url "checkout\/cart" = true
  /\ pattern_hits html url "cart" = true
  /\ pattern_hits html url "checkout" = true.
Proof.
  intros H. unfold pattern_hits. repeat split.
  - rewrite (search_contains "checkout\/cart" "checkout/cart" (fun _ => eq_refl) url H).
    apply orb_true_r.
  - assert (Hc : contains "cart" url).
    { destruct H as [pre [post ->]]. exists (pre +:+ "checkout/"), post.
      rewrite append_assoc. done. }
    rewrite (search_contains "cart" "cart" (fun _ => eq_refl) url Hc).
    apply orb_true_r.
  - assert (Hc : contains "checkout" url).
    { destruct H as [pre [post ->]]. exists pre, ("/cart" +:+ post). done. }
    rewrite (search_contains "checkout" "checkout" (fun _ => eq_refl) url Hc).
    apply orb_true_r.
Qed.

Import RecognizerExamples.

(** On the plain cart page Magento and the catch-all both score 2. *)
Example cart_page_scores :
  confidence_scores (identify cart_html cart_url)
  = Some [ ("magento", 2); ("woocommerce", 0); ("shopify", 0); ("opencart", 0);
           ("prestashop", 0); ("bigcommerce", 0); ("skullcandy", 0);
           ("custom_ecommerce", 2) ]
  /\ platform (identify cart_html cart_url) = "magento".
Proof. split; vm_compute; reflexivity. Qed.

(** With WooCommerce markers on the same page the tag is no longer
    Magento. *)
Example mixed_page_is_woocommerce :
  contains "Mage.Cookies" mixed_html
  /\ contains "checkout/cart" cart_url
  /\ platform (identify mixed_html cart_url) = "woocommerce".
Proof.
  split; [|split].
  - exists "", " woocommerce wc- wc_ is-woocommerce- wp-content". reflexivity.
  - exists "https://example.com/", "". reflexivity.
  - vm_compute. reflexivity.
Qed.

(** C3, as stated, fails: on a page whose HTML is [Mage.Cookies] and whose
    URL ends in [checkout/cart], Magento's score is not strictly greater
    than the score of [custom_ecommerce]. *)
Lemma magento_not_strictly_ahead :
  contains "Mage.Cookies" cart_html
  /\ contains "checkout/cart" cart_url
  /\ ~ magento_strictly_ahead cart_html cart_url.
Proof.
  split; [|split].
  - exists "", "". reflexivity.
  - exists "https://example.com/", "". reflexivity.
  - intros [_ [magento [Hm [_ Hall]]]].
    vm_compute in Hm. injection Hm as <-.
    specialize (Hall "custom_ecommerce" 2).
    assert (2 < 2); [|lia].
    apply Hall; [|discriminate].
    vm_compute. tauto.
Qed.

(** C3, amended: on every page whose HTML contains [Mage.Cookies] and whose
    URL contains [checkout/cart], Magento scores at least 2 and so does
    [custom_ecommerce]; the tag is [magento] exactly when no platform
    scores more than Magento (a tie goes to Magento, which is declared
    first). *)
Theorem magento_cart_page (html url : string) :
  contains "Mage.Cookies" html ->
  contains "checkout/cart" url ->
  let scores := confidence_scores_of platform_patterns html url in
  exists magento custom,
    dict_get "magento" scores = Some magento
    /\ dict_get "custom_ecommerce" scores = Some custom
    /\ 2 <= magento
    /\ 2 <= custom
    /\ (platform (identify html url) = "magento"
        <-> forall p s, In (p, s) scores -> s <= magento).
Proof.
  intros Hhtml Hurl scores.
  pose proof (mage_cookies_hit html url Hhtml) as Hmage.
  destruct (checkout_cart_hits html url Hurl) as [Hcc [Hcart Hcheckout]].
  assert (Hscores : exists magento rest,
             scores = ("magento", magento) :: rest
             /\ 2 <= magento
             /\ map fst rest
                = [ "woocommerce"; "shopify"; "opencart"; "prestashop";
                    "bigcommerce"; "skullcandy"; "custom_ecommerce" ]
             /\ exists custom, dict_get "custom_ecommerce" rest = Some custom
                               /\ 2 <= custom).
  { unfold scores, confidence_scores_of, platform_patterns.
    cbn [map fst snd].
    eexists _, _. split; [reflexivity|]. split.
    { apply (score_of_two html url _ "Mage.Cookies" "checkout\/cart");
        [discriminate | simpl; tauto | simpl; tauto | done | done]. }
    split; [reflexivity|].
    eexists. split; [reflexivity|].
    apply (score_of_two html url _ "cart" "checkout");
      [discriminate | simpl; tauto | simpl; tauto | done | done]. }
  destruct Hscores as [magento [rest [Heq [Hm [Hkeys [custom [Hc Hc2]]]]]]].
  change (platform (identify html url)) with (detect scores).
  clearbody scores.
  exists magento, custom.
  split; [by rewrite Heq|]. split; [by rewrite Heq|].
  split; [done|]. split; [done|].
  assert (Hin : In ("magento", magento) scores) by (rewrite Heq; by left).
  assert (Hpos : 0 < max_score scores).
  { pose proof (max_score_ge scores _ _ Hin). lia. }
  unfold detect. rewrite Heq. rewrite <- Heq.
  destruct (Z.ltb_spec 0 (max_score scores)) as [_|]; [|lia].
  rewrite Heq at 1. simpl first_with_score.
  destruct (Z.eqb_spec magento (max_score scores)) as [Hmax|Hmax].
  - split; [|done]. intros _ p s Hps. rewrite Hmax. by apply (max_score_ge scores p).
  - split.
    + intros Hdetect. exfalso.
      destruct (first_with_score rest (max_score scores)) as [winner|] eqn:Hw;
        [|discriminate].
      apply first_with_score_key in Hw. rewrite Hkeys in Hw. subst winner.
      simpl in Hw. intuition discriminate.
    + intros Hall. exfalso.
      destruct (max_score_attained scores) as [q Hq]; [by rewrite Heq|].
      apply Hall in Hq.
      pose proof (max_score_ge scores _ _ Hin). lia.
Qed.

(** The amended statement applies to the plain cart page. *)
Lemma magento_cart_page_witness :
  contains "Mage.Cookies" cart_html
  /\ contains "checkout/cart" cart_url
  /\ exists magento custom,
       dict_get "magento" (confidence_scores_of platform_patterns cart_html cart_url)
       = Some magento
       /\ dict_get "custom_ecommerce"
            (confidence_scores_of platform_patterns cart_html cart_url)
          = Some custom
       /\ 2 <= magento
       /\ 2 <= custom
       /\ (platform (identify cart_html cart_url) = "magento"
           <-> forall p s,
                 In (p, s) (confidence_scores_of platform_patterns cart_html cart_url) ->
                 s <= magento).
Proof.
  assert (H1 : contains "Mage.Cookies" cart_html) by (exists "", ""; reflexivity).
  assert (H2 : contains "checkout/cart" cart_url)
    by (exists "https://example.com/", ""; reflexivity).
  split; [exact H1|]. split; [exact H2|].
  exact (magento_cart_page cart_html cart_url H1 H2).
Defined.

End WebsitePatternRecognizerFacts.

(** ** coupon_applicator.py: the result classifier *)
Module ClassifierFacts.

Import WebsitePatternRecognizer CouponApplicator.

Section WithEngine.

Context {S : Type} {E : Engine S}.

(** [m] takes a state whose [result] satisfies [P] to one whose [result]
    satisfies [Q], whether it returns or raises. *)
Definition trans {A : Type} (P Q : Verdict -> Prop) (m : M (CState S) A) : Prop :=
  forall cs r cs', P (result cs) -> m cs = (r, cs') -> Q (result cs').

Lemma trans_weaken {A : Type} (P P' Q Q' : Verdict -> Prop) (m : M (CState S) A) :
  (forall r, P' r -> P r) -> (forall r, Q r -> Q' r) ->
  trans P Q m -> trans P' Q' m.
Proof. intros HP HQ H cs r cs' Hcs Hm. eapply HQ, H; eauto. Qed.

Lemma trans_ret {A : Type} (P : Verdict -> Prop) (a : A) : trans P P (ret a).
Proof. intros cs r cs' HP [= _ <-]. done. Qed.

Lemma trans_bind {A B : Type} (P R Q : Verdict -> Prop)
    (m : M (CState S) A) (k : A -> M (CState S) B) :
  trans P R m -> (forall r, R r -> Q r) -> (forall a, trans R Q (k a)) ->
  trans P Q (bind m k).
Proof.
  intros Hm HRQ Hk cs r cs' HP. unfold bind.
  destruct (m cs) as [[a|e] cs1] eqn:Em.
  - intros Hrun. eapply Hk; [|exact Hrun]. eapply Hm; eauto.
  - intros [= _ <-]. eapply HRQ, Hm; eauto.
Qed.

Lemma trans_on_engine {A : Type} (P : Verdict -> Prop) (m : M S A) :
  trans P P (on_engine m).
Proof.
  intros cs r cs' HP. unfold on_engine.
  destruct (m (engine cs)) as [r1 s1]. intros [= _ <-]. done.
Qed.

Lemma trans_modify (P Q : Verdict -> Prop) (f : Verdict -> Verdict) :
  (forall r, P r -> Q (f r)) -> trans P Q (modify (update_result f)).
Proof. intros H cs r cs' HP [= _ <-]. simpl. auto. Qed.

(** [let* r := gets result in if g r then m1 else m2] *)
Lemma trans_guarded {A : Type} (P Q : Verdict -> Prop) (g : Verdict -> bool)
    (m1 m2 : M (CState S) A) :
  trans (fun r => P r /\ g r = true) Q m1 ->
  trans (fun r => P r /\ g r = false) Q m2 ->
  trans P Q (bind (gets result) (fun r => if g r then m1 else m2)).
Proof.
  intros H1 H2 cs r cs' HP. unfold bind, gets.
  destruct (g (result cs)) eqn:Eg; intros Hrun.
  - eapply H1; [|exact Hrun]. auto.
  - eapply H2; [|exact Hrun]. auto.
Qed.

(** A message ladder keeps every property that its recording step
    keeps. *)
Lemma trans_scan_message (P : Verdict -> Prop) (record : string -> Verdict -> Verdict)
    (ladder : list string) :
  (forall m r, P r -> P (record m r)) ->
  trans P P (scan_message record ladder).
Proof.
  intros Hrec. induction ladder as [|selector rest IH]; simpl.
  - apply trans_ret.
  - eapply trans_bind; [apply trans_on_engine | auto |].
    intros [|]; [|exact IH].
    eapply trans_bind; [apply trans_on_engine | auto |].
    intros [text|]; [|exact IH].
    destruct (str_truthy text); [|exact IH].
    apply trans_modify. auto.
Qed.

(** No error message so far. *)
Definition no_error (r : Verdict) : Prop := error_message r = None.

(** The verdict invariant: an error message excludes validity. *)
Definition consistent (r : Verdict) : Prop :=
  error_message r = None \/ is_valid r = false.

Lemma no_error_consistent r : no_error r -> consistent r.
Proof. intros H. by left. Qed.

Lemma scan_success_no_error ladder :
  trans no_error no_error (scan_message record_success ladder).
Proof. apply trans_scan_message. intros m r H. exact H. Qed.

Lemma scan_error_consistent ladder :
  trans consistent consistent (scan_message record_error ladder).
Proof. apply trans_scan_message. intros m r _. by right. Qed.

Lemma trans_from_no_error {A : Type} (m : M (CState S) A) :
  trans consistent consistent m -> trans no_error consistent m.
Proof.
  intros H. eapply trans_weaken; [apply no_error_consistent | | exact H].
  intros r Hr. exact Hr.
Qed.

Lemma trans_to_consistent {A : Type} (P : Verdict -> Prop) (m : M (CState S) A) :
  trans P no_error m -> trans P consistent m.
Proof.
  intros H. eapply trans_weaken; [| apply no_error_consistent | exact H].
  intros r Hr. exact Hr.
Qed.

Lemma gather_messages_consistent platform_info :
  trans no_error consistent (gather_messages platform_info).
Proof.
  unfold gather_messages.
  apply (trans_bind no_error consistent consistent).
  - destruct (known_platform platform_info).
    + apply (trans_bind no_error no_error consistent).
      * apply scan_success_no_error.
      * apply no_error_consistent.
      * intros _. apply trans_from_no_error, scan_error_consistent.
    + apply trans_to_consistent, trans_ret.
  - intros r Hr. exact Hr.
  - intros _. apply trans_guarded.
    + apply (trans_bind _ no_error consistent).
      * eapply trans_weaken; [| | apply scan_success_no_error].
        -- intros r [_ Hg]. unfold no_message in Hg.
           apply andb_true_iff in Hg as [_ Hg]. unfold no_error.
           by destruct (error_message r).
        -- intros r Hr. exact Hr.
      * apply no_error_consistent.
      * intros _. apply trans_from_no_error, scan_error_consistent.
    + eapply trans_weaken; [| | apply trans_ret].
      * intros r [H _]. exact H.
      * intros r Hr. exact Hr.
Qed.

Lemma no_message_no_error r : no_message r = true -> error_message r = None.
Proof.
  unfold no_message. intros H. apply andb_true_iff in H as [_ H].
  by destruct (error_message r).
Qed.

Lemma weigh_discount_consistent platform_info :
  trans consistent consistent (weigh_discount platform_info).
Proof.
  unfold weigh_discount.
  apply (trans_bind consistent consistent consistent).
  - apply trans_on_engine.
  - intros r Hr. exact Hr.
  - intros discount_amount.
    apply (trans_bind consistent consistent consistent).
    + destruct (opt_truthy discount_amount); [|apply trans_ret].
      apply (trans_bind consistent consistent consistent).
      * apply trans_modify. intros r H. exact H.
      * intros r Hr. exact Hr.
      * intros _. apply trans_guarded.
        -- apply trans_modify. intros r [_ Hg]. left.
           simpl. by apply no_message_no_error.
        -- eapply trans_weaken; [| | apply trans_ret].
           ++ intros r [H _]. exact H.
           ++ intros r Hr. exact Hr.
    + intros r Hr. exact Hr.
    + intros _.
      apply (trans_guarded consistent consistent
               (fun r => negb (is_valid r) && is_none (error_message r)
                         && opt_truthy discount_amount)).
      * apply trans_modify. intros r [_ Hg]. left. simpl.
        apply andb_true_iff in Hg as [Hg _]. apply andb_true_iff in Hg as [_ Hg].
        by destruct (error_message r).
      * eapply trans_weaken; [| | apply trans_ret].
        -- intros r [H _]. exact H.
        -- intros r Hr. exact Hr.
Qed.

(** The classifier always returns a verdict. *)
Lemma check_validation_result_returns platform_info s :
  exists v s', _check_validation_result platform_info s = (Ok v, s').
Proof.
  unfold _check_validation_result.
  destruct ((gather_messages platform_info >> weigh_discount platform_info)
              {| result := initial_result; engine := s |}) as [r cs].
  eauto.
Qed.

(** C1: in every verdict the classifier returns, a non-empty
    [error_message] comes with [is_valid = false]. *)
Theorem error_message_forces_invalid (platform_info : PlatformInfo) (s s' : S)
    (v : Verdict) :
  _check_validation_result platform_info s = (Ok v, s') ->
  opt_truthy (error_message v) = true ->
  is_valid v = false.
Proof.
  unfold _check_validation_result.
  destruct ((gather_messages platform_info >> weigh_discount platform_info)
              {| result := initial_result; engine := s |}) as [r cs] eqn:Erun.
  intros [= <- _] Herr.
  assert (Hc : consistent (result cs)).
  { assert (Htrans : trans no_error consistent
                       (gather_messages platform_info >> weigh_discount platform_info)).
    { apply (trans_bind no_error consistent consistent).
      - apply gather_messages_consistent.
      - intros r0 Hr. exact Hr.
      - intros _. apply weigh_discount_consistent. }
    eapply Htrans; [|exact Erun]. reflexivity. }
  destruct Hc as [Hnone|Hinvalid]; [|exact Hinvalid].
  rewrite Hnone in Herr. discriminate.
Qed.

(** C2: when the message ladders end with neither message recorded and
    the extraction then returns a non-empty amount, the verdict is valid
    and carries that amount. *)
Theorem discount_alone_is_valid (platform_info : PlatformInfo) (s s2 : S)
    (cs1 : CState S) (d : string) :
  gather_messages platform_info {| result := initial_result; engine := s |}
  = (Ok tt, cs1) ->
  success_message (result cs1) = None ->
  error_message (result cs1) = None ->
  _extract_discount_amount platform_info (engine cs1) = (Ok (Some d), s2) ->
  str_truthy d = true ->
  _check_validation_result platform_info s
  = (Ok {| is_valid := true; discount_amount := Some d;
           success_message := None; error_message := None |}, s2).
Proof.
  intros Hgather Hs He Hextract Hd.
  unfold _check_validation_result, bind at 1. rewrite Hgather.
  unfold weigh_discount, bind, on_engine, gets, modify, ret. rewrite Hextract.
  simpl. rewrite Hd. simpl.
  unfold no_message. simpl. rewrite Hs, He. simpl.
  unfold record_valid, record_discount. simpl. rewrite Hs, He.
  reflexivity.
Qed.

End WithEngine.

Import ApplicatorExamples.

(** A rejected coupon with a zero discount line: the error wins. *)
Lemma error_message_forces_invalid_witness :
  _check_validation_result woocommerce_info rejected_page
  = (Ok {| is_valid := false; discount_amount := Some "$0.00";
           success_message := None;
           error_message := Some "Coupon code is invalid" |}, rejected_page)
  /\ is_valid {| is_valid := false; discount_amount := Some "$0.00";
                 success_message := None;
                 error_message := Some "Coupon code is invalid" |} = false.
Proof.
  split; [vm_compute; reflexivity|].
  apply (error_message_forces_invalid woocommerce_info rejected_page rejected_page).
  - vm_compute. reflexivity.
  - reflexivity.
Defined.

(** A page with a discount line and no message. *)
Lemma discount_alone_is_valid_witness :
  _check_validation_result woocommerce_info discounted_page
  = (Ok {| is_valid := true; discount_amount := Some "$5.00";
           success_message := None; error_message := None |}, discounted_page).
Proof.
  apply (discount_alone_is_valid woocommerce_info discounted_page discounted_page
           {| result := initial_result; engine := discounted_page |} "$5.00").
  - vm_compute. reflexivity.
  - reflexivity.
  - reflexivity.
  - vm_compute. reflexivity.
  - reflexivity.
Defined.

End ClassifierFacts.

(** ** browser_engine.py: navigation *)
Module NavigationFacts.

Import BrowserEngine.

(** Inversion of a normal return through [bind]. *)
Lemma bind_Ok {S A B : Type} (m : M S A) (k : A -> M S B) (s s' : S) (b : B) :
  bind m k s = (Ok b, s') ->
  exists a s1, m s = (Ok a, s1) /\ k a s1 = (Ok b, s').
Proof.
  unfold bind. destruct (m s) as [[a|e] s1]; [eauto | discriminate].
Qed.

Section WithDriver.

Context {W : Type} {PW : Playwright W}.

(** *** The module as written: [random] is not a module global *)

Lemma attempt_name_error url strategy (ns : NavState W) h :
  page (self (engine_state ns)) = Some h ->
  attempt module_globals url strategy ns = (Raise (name_error "random"), ns).
Proof.
  intros Hpage. destruct ns as [m st]. simpl in Hpage.
  unfold attempt, bind, lift, get_page, load_global, raise, ret. simpl.
  destruct (0 <? delay strategy); simpl; rewrite ?Hpage; reflexivity.
Qed.

(** Every call of [navigate] on a started engine ends after five
    attempts, each closed by the [except] clause, and leaves the engine
    and the world as they were. *)
Lemma navigate_always_fails url wait_until timeout (st : State W) h :
  page (self st) = Some h ->
  navigate url wait_until timeout st
  = (false,
     Some {| attempts := 5; success := false;
             errors :=
               [ "Navigation attempt 1 failed: name 'random' is not defined";
                 "Navigation attempt 2 failed: name 'random' is not defined";
                 "Navigation attempt 3 failed: name 'random' is not defined";
                 "Navigation attempt 4 failed: name 'random' is not defined";
                 "Navigation attempt 5 failed: name 'random' is not defined" ];
             response_status := None; content_checks := [] |},
     st).
Proof.
  intros Hpage. unfold navigate, navigate_in. rewrite Hpage.
  unfold strategies, run_strategies.
  repeat (erewrite attempt_name_error by (simpl; exact Hpage)).
  reflexivity.
Qed.

(** *** Any set of module globals: what a successful attempt has seen *)

(** What holds of the locals and the world when an attempt has just
    met the success bar. *)
Definition cleared (ns : NavState W) : Prop :=
  success (metrics ns) = true
  /\ (exists cc,
        last (content_checks (metrics ns)) = Some (Some cc)
        /\ bodyExists cc = true /\ 100 <= contentLength cc)
  /\ (exists h w bc,
        evaluate_bot_check h w = (Ok bc, world (engine_state ns))
        /\ hasCaptcha bc = false /\ hasAccessDenied bc = false
        /\ hasCloudflare bc = false /\ hasBotDetection bc = false).

Lemma lift_execute_javascript {A : Type} (evaluate : Handle -> W -> res A * W)
    (ns ns' : NavState W) (r : option A) :
  lift (execute_javascript evaluate true) ns = (Ok r, ns') ->
  metrics ns' = metrics ns
  /\ match r with
     | Some a => exists h w, evaluate h w = (Ok a, world (engine_state ns'))
     | None => True
     end.
Proof.
  unfold lift, execute_javascript. destruct ns as [m st]. simpl.
  destruct (page (self st)) as [h|]; [|intros [= <- <-]; done].
  unfold try_except, bind, call, ret.
  destruct (evaluate h (world st)) as [[a|e] w1] eqn:E1; simpl.
  - intros [= <- <-]. simpl. eauto.
  - destruct (evaluate h w1) as [[a|e2] w2] eqn:E2; simpl.
    + intros [= <- <-]. simpl. eauto.
    + intros [= <- <-]. done.
Qed.

Lemma verify_cleared (ns ns' : NavState W) :
  verify ns = (Ok ReturnTrue, ns') ->
  cleared ns' /\ response_status (metrics ns') = response_status (metrics ns).
Proof.
  unfold verify. intros H.
  apply bind_Ok in H as (content_check & ns1 & Hcontent & H).
  apply lift_execute_javascript in Hcontent as [Hm1 _].
  apply bind_Ok in H as ([] & ns2 & Hstore & H).
  injection Hstore as <-.
  destruct content_check as [cc|]; [|discriminate].
  destruct (negb (bodyExists cc) || (contentLength cc <? 100)) eqn:Esuff.
  { apply bind_Ok in H as (? & ? & _ & H). discriminate. }
  apply orb_false_iff in Esuff as [Hbody Hlen].
  apply negb_false_iff in Hbody. apply Z.ltb_ge in Hlen.
  apply bind_Ok in H as (bot_check & ns3 & Hbot & H).
  apply lift_execute_javascript in Hbot as [Hm3 Hbot].
  destruct bot_check as [bc|]; [|discriminate].
  destruct (any_values bc) eqn:Eany.
  { apply bind_Ok in H as (? & ? & _ & H).
    destruct (hasCloudflare bc).
    - apply bind_Ok in H as (? & ? & _ & H). discriminate.
    - destruct (hasCaptcha bc); [|discriminate].
      apply bind_Ok in H as (? & ? & _ & H). discriminate. }
  apply bind_Ok in H as ([] & ns4 & Hmark & H).
  injection Hmark as <-. injection H as <-.
  unfold any_values in Eany.
  apply orb_false_iff in Eany as [Eany Hbd].
  apply orb_false_iff in Eany as [Eany Hcf].
  apply orb_false_iff in Eany as [Hcap Had].
  destruct Hbot as (h & w & Hbot).
  unfold cleared. simpl. rewrite Hm3. simpl. rewrite Hm1.
  repeat split.
  - exists cc. rewrite last_snoc. done.
  - exists h, w, bc. done.
Qed.

Lemma attempt_cleared globals url strategy (ns ns' : NavState W) :
  attempt globals url strategy ns = (Ok ReturnTrue, ns') ->
  cleared ns'
  /\ match response_status (metrics ns') with
     | Some status => status < 400
     | None => True
     end.
Proof.
  unfold attempt. intros H.
  apply bind_Ok in H as (? & ns1 & _ & H).
  apply bind_Ok in H as (h & ns2 & _ & H).
  apply bind_Ok in H as (? & ns3 & _ & H).
  apply bind_Ok in H as (? & ns4 & _ & H).
  apply bind_Ok in H as (response & ns5 & _ & H).
  apply bind_Ok in H as ([] & ns6 & Hstore & H).
  injection Hstore as <-.
  destruct response as [status|].
  - destruct (Z.leb_spec 400 status).
    { apply bind_Ok in H as (? & ? & _ & H). discriminate. }
    apply verify_cleared in H as [Hc Hs]. split; [done|].
    rewrite Hs. simpl. lia.
  - apply verify_cleared in H as [Hc Hs]. split; [done|].
    rewrite Hs. done.
Qed.

Lemma run_strategies_cleared globals url i todo (ns ns' : NavState W) :
  run_strategies globals url i todo ns = (true, ns') ->
  cleared ns'
  /\ match response_status (metrics ns') with
     | Some status => status < 400
     | None => True
     end.
Proof.
  revert i ns. induction todo as [|strategy rest IH]; intros i ns; simpl.
  - discriminate.
  - destruct (attempt globals url strategy (update_metrics count_attempt ns))
      as [[[|]|e] ns1] eqn:Eattempt.
    + apply IH.
    + intros [= <-]. by apply attempt_cleared in Eattempt.
    + apply IH.
Qed.

(** C7: whenever [navigate] returns [True], under any set of module
    globals, the attempt it returned from saw a page whose body exists
    with at least 100 characters, a response status under 400 when
    there was a response, and a bot check with no signal set; that bot
    check left the final world. *)
Theorem navigate_success_is_cleared globals url wait_until timeout
    (st st' : State W) (m : option NavigationMetrics) :
  navigate_in globals url wait_until timeout st = (true, m, st') ->
  exists metrics,
    m = Some metrics
    /\ success metrics = true
    /\ match response_status metrics with
       | Some status => status < 400
       | None => True
       end
    /\ (exists cc,
          last (content_checks metrics) = Some (Some cc)
          /\ bodyExists cc = true /\ 100 <= contentLength cc)
    /\ (exists h w bc,
          evaluate_bot_check h w = (Ok bc, world st')
          /\ hasCaptcha bc = false /\ hasAccessDenied bc = false
          /\ hasCloudflare bc = false /\ hasBotDetection bc = false).
Proof.
  unfold navigate_in. destruct (page (self st)); [|discriminate].
  match goal with
  | |- context [run_strategies ?g ?u ?i ?todo ?ns] =>
      destruct (run_strategies g u i todo ns) as [result ns'] eqn:Erun
  end.
  intros [= -> <- <-].
  apply run_strategies_cleared in Erun as [(Hs & Hcc & Hbot) Hstatus].
  eexists. split; [reflexivity|]. done.
Qed.

End WithDriver.

Import MainExamples.

(** With [random] bound, the first tactic succeeds on the shop site. *)
Lemma navigate_success_is_cleared_witness :
  exists metrics,
    fst (fst (navigate_in globals_with_random "shop.example" "networkidle" None
                (started healthy))) = true
    /\ snd (fst (navigate_in globals_with_random "shop.example" "networkidle" None
                   (started healthy))) = Some metrics
    /\ success metrics = true
    /\ match response_status metrics with
       | Some status => status < 400
       | None => True
       end.
Proof.
  destruct (navigate_in globals_with_random "shop.example" "networkidle" None
              (started healthy)) as [[result m] st'] eqn:Erun.
  assert (Hresult : result = true).
  { apply (f_equal (fun x => fst (fst x))) in Erun. vm_compute in Erun. congruence. }
  subst result.
  destruct (navigate_success_is_cleared _ _ _ _ _ _ _ Erun)
    as (metrics & -> & Hs & Hstatus & _).
  exists metrics. simpl. done.
Defined.

End NavigationFacts.

(** ** Computations that respect a preorder on states

    Used to follow the events of a run through the engine, the navigation
    loop and the pipeline. *)
Module Respects.

Section Generic.

Context {S : Type} (R : S -> S -> Prop) {Hrefl : Reflexive R} {Htrans : Transitive R}.

(** Whatever [m] does, and however it ends, it moves the state along
    [R]. *)
Definition respects {A : Type} (m : M S A) : Prop :=
  forall s r s', m s = (r, s') -> R s s'.

Lemma respects_ret {A : Type} (a : A) : respects (ret a).
Proof. intros s r s' [= _ <-]. reflexivity. Qed.

Lemma respects_raise {A : Type} (e : string) : respects (@raise S A e).
Proof. intros s r s' [= _ <-]. reflexivity. Qed.

Lemma respects_gets {A : Type} (f : S -> A) : respects (gets f).
Proof. intros s r s' [= _ <-]. reflexivity. Qed.

Lemma respects_modify (f : S -> S) : (forall s, R s (f s)) -> respects (modify f).
Proof. intros H s r s' [= _ <-]. apply H. Qed.

Lemma respects_bind {A B : Type} (m : M S A) (k : A -> M S B) :
  respects m -> (forall a, respects (k a)) -> respects (bind m k).
Proof.
  intros Hm Hk s r s'. unfold bind.
  destruct (m s) as [[a|e] s1] eqn:Em.
  - intros Hrun. etransitivity; [eapply Hm, Em | eapply Hk, Hrun].
  - intros [= _ <-]. eapply Hm, Em.
Qed.

Lemma respects_try_except {A : Type} (m : M S A) (h : string -> M S A) :
  respects m -> (forall e, respects (h e)) -> respects (try_except m h).
Proof.
  intros Hm Hh s r s'. unfold try_except.
  destruct (m s) as [[a|e] s1] eqn:Em.
  - intros [= _ <-]. eapply Hm, Em.
  - intros Hrun. etransitivity; [eapply Hm, Em | eapply Hh, Hrun].
Qed.

End Generic.

(** One step of a proof that a composite computation respects [R]:
    structure first, then a case split on the scrutinee of a [match]. *)
Ltac respects_step :=
  first
    [ apply respects_ret; exact _
    | apply respects_raise; exact _
    | apply respects_gets; exact _
    | apply respects_bind; [exact _ | | intros]
    | apply respects_try_except; [exact _ | | intros]
    | match goal with
      | |- respects _ (match ?x with _ => _ end) => destruct x
      end ].

End Respects.

(** ** browser_engine.py: events *)
Module EngineEvents.

Import BrowserEngine Respects.

Section WithDriver.

Context {W : Type} {PW : Playwright W}.

(** The engine added no event. *)
Definition same_events (st st' : State W) : Prop := events st' = events st.

#[local] Instance same_events_refl : Reflexive same_events.
Proof. intros st. reflexivity. Qed.

#[local] Instance same_events_trans : Transitive same_events.
Proof. intros a b c H1 H2. unfold same_events in *. congruence. Qed.

Definition silent {A : Type} (m : M (State W) A) : Prop := respects same_events m.

Lemma silent_call {A : Type} (op : W -> res A * W) : silent (call op).
Proof.
  intros st r st'. unfold call. destruct (op (world st)) as [r1 w1].
  intros [= _ <-]. reflexivity.
Qed.

Lemma silent_update_self (f : t -> t) : silent (modify (update_self f)).
Proof. apply respects_modify. intros st. reflexivity. Qed.

Lemma silent_get_page attribute : silent (get_page attribute).
Proof.
  intros st r st'. unfold get_page.
  destruct (page (self st)); intros [= _ <-]; reflexivity.
Qed.

Lemma silent_get_context attribute : silent (get_context attribute).
Proof.
  intros st r st'. unfold get_context.
  destruct (context (self st)); intros [= _ <-]; reflexivity.
Qed.

Ltac silent_tac :=
  repeat first
    [ apply silent_call
    | apply silent_update_self
    | apply silent_get_page
    | apply silent_get_context
    | respects_step ].

Lemma silent_start : silent start.
Proof. unfold silent, start. silent_tac. Qed.

Lemma silent_take_screenshot path : silent (take_screenshot path).
Proof.
  intros st r st'. unfold take_screenshot.
  destruct (page (self st)) as [h|]; [|intros [= _ <-]; reflexivity].
  revert st r st'. change (silent (try_except (call (page_screenshot h path) >> ret true)
                                      (fun _ => ret false))).
  unfold silent. silent_tac.
Qed.

Lemma silent_get_current_url : silent get_current_url.
Proof.
  intros st r st'. unfold get_current_url.
  destruct (page (self st)); intros [= _ <-]; reflexivity.
Qed.

Lemma silent_execute_javascript {A : Type} (evaluate : Handle -> W -> res A * W) retry :
  silent (execute_javascript evaluate retry).
Proof.
  intros st r st'. unfold execute_javascript.
  destruct (page (self st)) as [h|]; [|intros [= _ <-]; reflexivity].
  revert st r st'.
  match goal with |- forall st r st', ?m st = _ -> _ => change (silent m) end.
  unfold silent. silent_tac.
Qed.

Lemma silent_identify_platform : silent WebsitePatternRecognizer.identify_platform.
Proof.
  unfold silent, WebsitePatternRecognizer.identify_platform.
  repeat first
    [ apply silent_take_screenshot | apply silent_get_current_url | silent_tac ].
Qed.

(** The navigation loop adds no event either. *)
Definition nav_same_events (ns ns' : NavState W) : Prop :=
  events (engine_state ns') = events (engine_state ns).

#[local] Instance nav_same_events_refl : Reflexive nav_same_events.
Proof. intros ns. reflexivity. Qed.

#[local] Instance nav_same_events_trans : Transitive nav_same_events.
Proof. intros a b c H1 H2. unfold nav_same_events in *. congruence. Qed.

Definition nav_silent {A : Type} (m : M (NavState W) A) : Prop :=
  respects nav_same_events m.

Lemma nav_silent_lift {A : Type} (m : M (State W) A) : silent m -> nav_silent (lift m).
Proof.
  intros Hm ns r ns'. unfold lift.
  destruct (m (engine_state ns)) as [r1 st1] eqn:Em.
  intros [= _ <-]. apply (Hm _ _ _ Em).
Qed.

Lemma nav_silent_update_metrics f : nav_silent (modify (update_metrics f)).
Proof. apply respects_modify. intros ns. reflexivity. Qed.

Lemma nav_silent_load_global globals name : nav_silent (load_global globals name).
Proof. unfold load_global. destruct (existsb _ _); respects_step. Qed.

Lemma nav_silent_load_attribute name : nav_silent (load_attribute name).
Proof. unfold load_attribute. destruct (existsb _ _); respects_step. Qed.

Ltac nav_silent_tac :=
  repeat first
    [ apply nav_silent_update_metrics
    | apply nav_silent_load_global
    | apply nav_silent_load_attribute
    | apply nav_silent_lift;
      first [ apply silent_execute_javascript | unfold silent; silent_tac ]
    | respects_step ].

Lemma nav_silent_perform url strategy : nav_silent (perform url strategy).
Proof. unfold nav_silent, perform. nav_silent_tac. Qed.

Lemma nav_silent_verify : nav_silent verify.
Proof. unfold nav_silent, verify. nav_silent_tac. Qed.

Lemma nav_silent_attempt globals url strategy :
  nav_silent (attempt globals url strategy).
Proof.
  unfold nav_silent, attempt.
  repeat first
    [ apply nav_silent_perform | apply nav_silent_verify | nav_silent_tac ].
Qed.

Lemma run_strategies_events globals url i todo (ns ns' : NavState W) result :
  run_strategies globals url i todo ns = (result, ns') ->
  events (engine_state ns') = events (engine_state ns).
Proof.
  revert i ns. induction todo as [|strategy rest IH]; intros i ns; simpl.
  - intros [= _ <-]. reflexivity.
  - destruct (attempt globals url strategy (update_metrics count_attempt ns))
      as [[[|]|e] ns1] eqn:Eattempt;
      apply nav_silent_attempt in Eattempt; unfold nav_same_events in Eattempt;
      simpl in Eattempt.
    + intros H. apply IH in H. congruence.
    + intros [= _ <-]. done.
    + intros H. apply IH in H. simpl in H. congruence.
Qed.

Lemma navigate_in_events globals url wait_until timeout (st : State W) :
  events (snd (navigate_in globals url wait_until timeout st)) = events st.
Proof.
  unfold navigate_in. destruct (page (self st)); [|reflexivity].
  match goal with
  | |- context [run_strategies ?g ?u ?i ?todo ?ns] =>
      destruct (run_strategies g u i todo ns) as [result ns'] eqn:Erun
  end.
  apply run_strategies_events in Erun. exact Erun.
Qed.

End WithDriver.

End EngineEvents.

(** ** browser_engine.py: what the attempts of [navigate] record *)
Module AttemptFacts.

Import BrowserEngine Respects NavigationStatements.

Section WithDriver.

Context {W : Type} {PW : Playwright W}.

(** The metrics are as they were, but for the response status. *)
Definition same_record (ns ns' : NavState W) : Prop :=
  attempts (metrics ns') = attempts (metrics ns)
  /\ success (metrics ns') = success (metrics ns)
  /\ errors (metrics ns') = errors (metrics ns)
  /\ content_checks (metrics ns') = content_checks (metrics ns).

#[local] Instance same_record_refl : Reflexive same_record.
Proof. intros ns. by repeat split. Qed.

#[local] Instance same_record_trans : Transitive same_record.
Proof.
  intros a b c (A1 & S1 & E1 & C1) (A2 & S2 & E2 & C2).
  repeat split; congruence.
Qed.

(** No attempt was counted and no content check was recorded. *)
Definition same_checks (ns ns' : NavState W) : Prop :=
  attempts (metrics ns') = attempts (metrics ns)
  /\ content_checks (metrics ns') = content_checks (metrics ns).

#[local] Instance same_checks_refl : Reflexive same_checks.
Proof. intros ns. by split. Qed.

#[local] Instance same_checks_trans : Transitive same_checks.
Proof. intros a b c [A1 C1] [A2 C2]. split; congruence. Qed.




















End WithDriver.

Import MainExamples.



End AttemptFacts.

(** ** browser_engine.py: [close] *)
Module CloseFacts.

Import BrowserEngine Respects Statements.

Section WithDriver.

Context {W : Type} {PW : Playwright W}.

(** [close] only adds release events. *)
Definition adds_releases (st st' : State W) : Prop :=
  exists released, events st' = events st ++ released /\ Forall is_release released.

#[local] Instance adds_releases_refl : Reflexive adds_releases.
Proof. intros st. exists []. split; [by rewrite app_nil_r | constructor]. Qed.

#[local] Instance adds_releases_trans : Transitive adds_releases.
Proof.
  intros a b c [r1 [H1 F1]] [r2 [H2 F2]]. exists (r1 ++ r2). split.
  - rewrite H2, H1. by rewrite <- app_assoc.
  - apply Forall_app. done.
Qed.

Lemma adds_releases_same (st st' : State W) :
  events st' = events st -> adds_releases st st'.
Proof. intros H. exists []. split; [by rewrite app_nil_r | constructor]. Qed.

Lemma release_adds r get set op : respects adds_releases (release r get set op).
Proof.
  unfold release.
  apply respects_bind; [exact _ | apply respects_gets; exact _ |].
  intros [h|]; [|apply respects_ret; exact _].
  apply respects_bind; [exact _ | |].
  { intros st x st'. unfold call. destruct (op h (world st)) as [r1 w1].
    intros [= _ <-]. by apply adds_releases_same. }
  intros _. apply respects_bind; [exact _ | |].
  { apply respects_modify. intros st. exists [Released r h].
    split; [reflexivity|]. constructor; [by exists r, h | constructor]. }
  intros _. apply respects_modify. intros st. by apply adds_releases_same.
Qed.

Lemma close_adds_releases : respects adds_releases close.
Proof.
  unfold close.
  apply respects_try_except; [exact _ | | intros; apply respects_ret; exact _].
  repeat (apply respects_bind; [exact _ | apply release_adds | intros _]).
  apply release_adds.
Qed.

(** [close] swallows every exception. *)
Lemma close_returns (st : State W) : exists st', close st = (Ok tt, st').
Proof.
  unfold close, try_except.
  match goal with |- context [match ?m st with _ => _ end] => destruct (m st) as [[[]|e] st1] end;
    eauto.
Qed.

(** One release step when the driver call returns. *)
Lemma release_ok r get set op (st : State W) :
  (forall h w, exists w', op h w = (Ok tt, w')) ->
  exists w',
    release r get set op st
    = (Ok tt,
       {| self := match get (self st) with
                  | Some _ => set None (self st)
                  | None => self st
                  end;
          world := w';
          events := events st ++ release_of r (get (self st)) |}).
Proof.
  intros Hop. unfold release, bind, gets, call, modify, ret.
  destruct (get (self st)) as [h|] eqn:Eh; simpl.
  - destruct (Hop h (world st)) as [w' ->]. exists w'. reflexivity.
  - exists (world st). rewrite app_nil_r. by destruct st.
Qed.

(** When no release call raises, [close] releases what the engine
    holds, each resource once and in order, and clears the handles. *)
Lemma close_releases_all (st : State W) :
  releases_succeed ->
  exists st',
    close st = (Ok tt, st')
    /\ holds_nothing (self st')
    /\ events st' = events st ++ held_releases (self st).
Proof.
  intros (Hp & Hc & Hb & Hd).
  unfold close, try_except, bind.
  destruct (release_ok RPage page set_page page_close st Hp) as [w1 ->].
  match goal with |- context [release RContext _ _ _ ?s] => set (st1 := s) end.
  destruct (release_ok RContext context set_context context_close st1 Hc) as [w2 ->].
  match goal with |- context [release RBrowser _ _ _ ?s] => set (st2 := s) end.
  destruct (release_ok RBrowser browser set_browser browser_close st2 Hb) as [w3 ->].
  match goal with |- context [release RDriver _ _ _ ?s] => set (st3 := s) end.
  destruct (release_ok RDriver playwright set_playwright playwright_stop st3 Hd)
    as [w4 ->].
  eexists. split; [reflexivity|].
  subst st3 st2 st1. simpl.
  destruct st as [[hl to b c p d na mna] w evs]. simpl.
  unfold holds_nothing, held_releases.
  destruct p, c, b, d; simpl; rewrite <- ?app_assoc; simpl; done.
Qed.

(** A closed engine stays closed: [close] is then a no-op. *)
Lemma close_closed (st : State W) :
  holds_nothing (self st) -> close st = (Ok tt, st).
Proof.
  intros (Hp & Hc & Hb & Hd).
  unfold close, release, try_except, bind, gets, ret. simpl.
  rewrite Hp; simpl. rewrite Hc; simpl. rewrite Hb; simpl. rewrite Hd; simpl.
  reflexivity.
Qed.

End WithDriver.

End CloseFacts.

(** ** main.py: the events of a run *)
Module PipelineFacts.

Import WebsitePatternRecognizer Respects Statements Main.
Import BrowserEngine (Event, Constructed, StartCalled, CloseCalled, Released,
                      State, Playwright).

Section WithWorld.

Context {W : Type} {PW : Playwright W} {C : Collaborators W}.

(** Before the [finally] clause only setup events are added, and a bound
    [browser_engine] stays bound. *)
Definition calm (f f' : Frame W) : Prop :=
  (exists extra, events f' = events f ++ extra /\ Forall setup_event extra)
  /\ (browser_engine f <> None -> browser_engine f' <> None).

#[local] Instance calm_refl : Reflexive calm.
Proof.
  intros f. split; [|done]. exists []. split; [by rewrite app_nil_r | constructor].
Qed.

#[local] Instance calm_trans : Transitive calm.
Proof.
  intros a b c [[x1 [H1 F1]] B1] [[x2 [H2 F2]] B2]. split; [|auto].
  exists (x1 ++ x2). split.
  - rewrite H2, H1. by rewrite <- app_assoc.
  - by apply Forall_app.
Qed.

Lemma calm_same (f f' : Frame W) :
  events f' = events f ->
  (browser_engine f <> None -> browser_engine f' <> None) ->
  calm f f'.
Proof.
  intros He Hb. split; [|done].
  exists []. split; [by rewrite app_nil_r | constructor].
Qed.

Lemma calm_on_browser {A : Type} (m : M (State W) A) :
  EngineEvents.silent m -> respects calm (on_browser m).
Proof.
  intros Hm f r f'. unfold on_browser.
  destruct (browser_engine f) as [e|] eqn:Ee.
  - match goal with
    | |- context [m ?st] => destruct (m st) as [r1 st1] eqn:Em
    end.
    intros [= _ <-]. apply Hm in Em. apply calm_same; simpl; [exact Em | done].
  - intros [= _ <-]. reflexivity.
Qed.

Lemma calm_step {A : Type} (s : Step W A) : respects calm (step s).
Proof.
  unfold step. apply calm_on_browser.
  intros st r st'.
  destruct (s (BrowserEngine.self st) (BrowserEngine.world st)) as [r1 [e w]].
  intros [= _ <-]. reflexivity.
Qed.

Lemma calm_in_world {A : Type} (op : W -> res A * W) : respects calm (in_world op).
Proof.
  intros f r f'. unfold in_world. destruct (op (world f)) as [r1 w1].
  intros [= _ <-]. by apply calm_same.
Qed.

Lemma calm_record_event e : setup_event e -> respects calm (record_event e).
Proof.
  intros He. apply respects_modify. intros f. split; [|done].
  exists [e]. split; [reflexivity | constructor; [exact He | constructor]].
Qed.

Lemma calm_bind_result_reporter : respects calm bind_result_reporter.
Proof. apply respects_modify. intros f. by apply calm_same. Qed.

Lemma calm_bind_screenshot_path p : respects calm (bind_screenshot_path p).
Proof. apply respects_modify. intros f. by apply calm_same. Qed.

Lemma calm_format_result cc wu iv sm em da sp :
  respects calm (format_result cc wu iv sm em da sp).
Proof. unfold format_result. repeat respects_step. Qed.

Lemma calm_save result : respects calm (save result).
Proof. apply calm_in_world. Qed.

Lemma calm_navigate globals url wait_until timeout :
  respects calm (navigate globals url wait_until timeout).
Proof.
  unfold navigate. apply calm_on_browser.
  intros st r st'.
  pose proof (EngineEvents.navigate_in_events globals url wait_until (Some timeout) st)
    as Hev.
  destruct (BrowserEngine.navigate_in globals url wait_until (Some timeout) st)
    as [[result m] st1].
  intros [= _ <-]. exact Hev.
Qed.

Lemma calm_try_policies globals url timeout policies ok errs :
  respects calm (try_policies globals url timeout policies ok errs).
Proof.
  revert ok errs. induction policies as [|policy rest IH]; intros ok errs; simpl.
  - respects_step.
  - destruct ok; [respects_step|].
    apply respects_bind; [exact _ | | intros; apply IH].
    apply respects_try_except; [exact _ | | intros; respects_step].
    apply respects_bind; [exact _ | apply calm_navigate |].
    intros [|]; respects_step.
Qed.

(** The merge works on the descriptor next to the frame. *)
Definition calm_pair (s s' : PlatformInfo * Frame W) : Prop := calm (snd s) (snd s').

#[local] Instance calm_pair_refl : Reflexive calm_pair.
Proof. intros s. unfold calm_pair. reflexivity. Qed.

#[local] Instance calm_pair_trans : Transitive calm_pair.
Proof. intros a b c H1 H2. unfold calm_pair in *. etransitivity; eauto. Qed.

Lemma calm_on_frame {A : Type} (m : M (Frame W) A) :
  respects calm m -> respects calm_pair (on_frame m).
Proof.
  intros Hm s r s'. unfold on_frame.
  destruct (m (snd s)) as [r1 f1] eqn:Em. intros [= _ <-].
  unfold calm_pair. simpl. eapply Hm, Em.
Qed.

Lemma calm_update_platform_info g : respects calm_pair (update_platform_info g).
Proof. apply respects_modify. intros s. unfold calm_pair. simpl. reflexivity. Qed.

Lemma calm_merge_detected detected : respects calm_pair (merge_detected detected).
Proof.
  induction detected as [|element_type rest IH]; simpl.
  - respects_step.
  - apply respects_bind; [exact _ | apply respects_gets; exact _ |].
    intros platform_info.
    destruct (ladders platform_info !! element_type) as [[|x l]|]; try exact IH.
    apply respects_bind; [exact _ | apply calm_on_frame, calm_step |].
    intros ai_selectors.
    apply respects_bind; [exact _ | | intros; exact IH].
    destruct ai_selectors; [respects_step | apply calm_update_platform_info].
Qed.

Lemma calm_enhance_with_ai platform_info : respects calm (enhance_with_ai platform_info).
Proof.
  intros f r f'. unfold enhance_with_ai.
  match goal with
  | |- context [try_except ?m ?h (platform_info, f)] =>
      assert (Hm : respects calm_pair (try_except m h));
      [| destruct (try_except m h (platform_info, f)) as [r1 [pi1 f1]] eqn:Erun ]
  end.
  { apply respects_try_except; [exact _ | | intros; respects_step].
    apply respects_bind; [exact _ | apply calm_on_frame, calm_step |].
    intros ai_analysis. destruct (detected_elements ai_analysis); [respects_step|].
    apply respects_bind; [exact _ | apply calm_merge_detected |].
    intros _. destruct (ai_scores ai_analysis);
      [apply calm_update_platform_info | respects_step]. }
  intros [= _ <-]. apply Hm in Erun. exact Erun.
Qed.

Ltac calm_tac :=
  repeat first
    [ apply calm_format_result
    | apply calm_save
    | apply calm_step
    | apply calm_in_world
    | apply calm_bind_result_reporter
    | apply calm_bind_screenshot_path
    | apply calm_record_event; [left; reflexivity]
    | apply calm_record_event; [right; reflexivity]
    | apply calm_on_browser;
      first [ apply EngineEvents.silent_start
            | apply EngineEvents.silent_identify_platform
            | apply EngineEvents.silent_take_screenshot ]
    | apply calm_try_policies
    | apply calm_enhance_with_ai
    | respects_step ].

Lemma calm_run_stages cc wu out platform_info :
  respects calm (run_stages cc wu out platform_info).
Proof. unfold run_stages, failed_stage. calm_tac. Qed.

Lemma calm_pipeline globals cc wu out timeout :
  respects calm (pipeline globals cc wu out timeout).
Proof.
  unfold pipeline.
  repeat first [ apply calm_run_stages | calm_tac ].
Qed.

Lemma calm_except_clause cc wu out e : respects calm (except_clause cc wu out e).
Proof. unfold except_clause. calm_tac. Qed.

(** The frame in which the pipeline starts when the input check does
    not raise. *)
Definition engine_bound (headless : bool) (w : W) : Frame W :=
  {| browser_engine := Some (BrowserEngine.init headless 60000);
     result_reporter_bound := false; screenshot_path := None;
     world := w; events := [] |}.

Lemma try_block_binds_engine globals cc wu hl out timeout (w : W) valid :
  InputHandler.validate_inputs urlparse cc wu = Ok valid ->
  try_except (try_block globals cc wu hl out timeout) (except_clause cc wu out)
    (initial_frame w)
  = try_except (pipeline globals cc wu out timeout) (except_clause cc wu out)
      (engine_bound hl w).
Proof.
  intros Hvalid.
  unfold try_except, try_block, bind, check_inputs, bind_browser_engine, modify.
  rewrite Hvalid. reflexivity.
Qed.

Lemma filter_close_setup (evs : list Event) :
  Forall setup_event evs -> List.filter is_close_call evs = [].
Proof.
  induction 1 as [|e evs [->| ->] _ IH]; simpl; done.
Qed.

Lemma filter_close_release (evs : list Event) :
  Forall is_release evs -> List.filter is_close_call evs = [].
Proof.
  induction 1 as [|e evs (r & h & ->) _ IH]; simpl; done.
Qed.

Lemma try_except_bind_modify {S A : Type} (g : S -> S) (k : unit -> M S A)
    (h : string -> M S A) (s : S) :
  try_except (bind (modify g) k) h s = try_except (k tt) h (g s).
Proof. reflexivity. Qed.

(** The first event of the pipeline is the construction of the engine. *)
Lemma pipeline_starts_constructed globals cc wu out timeout (f f1 : Frame W) r :
  try_except (pipeline globals cc wu out timeout) (except_clause cc wu out) f = (r, f1) ->
  exists more,
    events f1 = events f ++ Constructed :: more
    /\ Forall setup_event more
    /\ (browser_engine f <> None -> browser_engine f1 <> None).
Proof.
  unfold pipeline, record_event at 1. rewrite try_except_bind_modify.
  intros Hrun.
  match type of Hrun with
  | try_except ?tail ?h ?f0 = _ =>
      assert (Hcalm : respects calm (try_except tail h))
  end.
  { apply respects_try_except; [exact _ | | intros; apply calm_except_clause].
    repeat first [ apply calm_run_stages | calm_tac ]. }
  apply Hcalm in Hrun as [[more [Hmore Fmore]] Hbound]. simpl in Hmore, Hbound.
  exists more. split; [|done]. rewrite Hmore. by rewrite <- app_assoc.
Qed.

(** C8, amended: on every exit path on which the engine was constructed
    (the input check did not raise), [close()] is called exactly once,
    after every other call of the run; it adds release events only.
    When no release call of the driver raises, it releases exactly what
    the engine held when it started, each resource once, clears the
    handles, and a further [close()] changes nothing. *)
Theorem close_called_once_at_exit globals cc wu hl out timeout (w : W)
    (outcome : res Result) (f' : Frame W) :
  (exists valid, InputHandler.validate_inputs urlparse cc wu = Ok valid) ->
  validate_coupon_in globals cc wu hl out timeout w = (outcome, f') ->
  exists before released e_before w_before e_after,
    events f' = before ++ CloseCalled :: released
    /\ (exists more, before = Constructed :: more)
    /\ Forall setup_event before
    /\ Forall is_release released
    /\ length (List.filter is_close_call (events f')) = 1%nat
    /\ browser_engine f' = Some e_after
    /\ BrowserEngine.close
         {| BrowserEngine.self := e_before; BrowserEngine.world := w_before;
            BrowserEngine.events := before ++ [CloseCalled] |}
       = (Ok tt,
          {| BrowserEngine.self := e_after; BrowserEngine.world := world f';
             BrowserEngine.events := events f' |})
    /\ (releases_succeed ->
        released = held_releases e_before
        /\ holds_nothing e_after
        /\ BrowserEngine.close
             {| BrowserEngine.self := e_after; BrowserEngine.world := world f';
                BrowserEngine.events := events f' |}
           = (Ok tt,
              {| BrowserEngine.self := e_after; BrowserEngine.world := world f';
                 BrowserEngine.events := events f' |})).
Proof.
  intros [valid Hvalid] Hrun. unfold validate_coupon_in in Hrun.
  rewrite (try_block_binds_engine _ _ _ _ _ _ _ _ Hvalid) in Hrun.
  destruct (try_except (pipeline globals cc wu out timeout) (except_clause cc wu out)
              (engine_bound hl w)) as [r1 f1] eqn:Etry.
  apply pipeline_starts_constructed in Etry
    as (more & Hbefore & Fmore & Hbound).
  simpl in Hbefore.
  assert (Fbefore : Forall setup_event (Constructed :: more))
    by (constructor; [by left | exact Fmore]).
  remember (Constructed :: more) as before eqn:Ebefore.
  destruct (browser_engine f1) as [e|] eqn:Ee; [|exfalso; by apply Hbound].
  unfold finally_clause, bind, gets, record_event, modify, on_browser in Hrun.
  rewrite Ee in Hrun. simpl in Hrun. rewrite Ee in Hrun.
  match type of Hrun with
  | context [BrowserEngine.close ?st] =>
      destruct (CloseFacts.close_returns st) as [st' Hclose];
      pose proof (CloseFacts.close_adds_releases _ _ _ Hclose)
        as [released [Hreleased Freleased]];
      pose proof (CloseFacts.close_releases_all st) as Hall;
      rewrite Hclose in Hrun, Hall
  end.
  injection Hrun as _ <-. simpl in *.
  rewrite Hbefore in *.
  exists before, released, e, (world f1), (BrowserEngine.self st').
  assert (Hevents : BrowserEngine.events st' = before ++ CloseCalled :: released).
  { rewrite Hreleased. by rewrite <- app_assoc. }
  split; [exact Hevents|]. split; [by exists more|].
  clear Ebefore.
  split; [done|]. split; [done|]. split.
  { rewrite Hevents, List.filter_app. simpl.
    rewrite (filter_close_setup _ Fbefore), (filter_close_release _ Freleased).
    reflexivity. }
  split; [done|]. split; [by destruct st'|].
  intros Hok. destruct (Hall Hok) as (st'' & [= <-] & Hnothing & Hev).
  split.
  { rewrite Hreleased in Hev. by apply app_inv_head in Hev. }
  split; [done|].
  destruct st' as [e' w' evs']. by apply CloseFacts.close_closed.
Qed.

(** *** When the input check raises *)

(** The [except] clause neither binds [browser_engine] nor adds an
    event. *)
Definition untouched (f f' : Frame W) : Prop :=
  browser_engine f' = browser_engine f /\ events f' = events f.

#[local] Instance untouched_refl : Reflexive untouched.
Proof. intros f. split; reflexivity. Qed.

#[local] Instance untouched_trans : Transitive untouched.
Proof. intros a b c [B1 E1] [B2 E2]. split; congruence. Qed.

Lemma untouched_in_world {A : Type} (op : W -> res A * W) :
  respects untouched (in_world op).
Proof.
  intros f r f'. unfold in_world. destruct (op (world f)) as [r1 w1].
  intros [= _ <-]. split; reflexivity.
Qed.

Lemma untouched_except_clause cc wu out e :
  respects untouched (except_clause cc wu out e).
Proof.
  unfold except_clause, format_result, save, bind_result_reporter.
  repeat first
    [ apply untouched_in_world
    | apply respects_modify; intros f; split; reflexivity
    | respects_step ].
Qed.

(** X23: when [validate_inputs] raises, the [finally] clause reads a
    local that was never bound: no engine is constructed, [close()] is
    not called, and the call ends in the resulting exception
    ([UnboundLocalError]) instead of returning the error result that the
    [except] clause has prepared. *)
Lemma raising_input_check_ends_in_unbound_local
    globals cc wu hl out timeout (w : W) e :
  InputHandler.validate_inputs urlparse cc wu = Raise e ->
  exists f',
    validate_coupon_in globals cc wu hl out timeout w
    = (Raise (unbound_local "browser_engine"), f')
    /\ events f' = []
    /\ browser_engine f' = None.
Proof.
  intros Hraise. unfold validate_coupon_in.
  assert (Htry : try_except (try_block globals cc wu hl out timeout)
                   (except_clause cc wu out) (initial_frame w)
                 = except_clause cc wu out e (initial_frame w)).
  { unfold try_except, try_block, bind at 1, check_inputs. rewrite Hraise. reflexivity. }
  rewrite Htry.
  destruct (except_clause cc wu out e (initial_frame w)) as [r1 f1] eqn:Eexcept.
  apply untouched_except_clause in Eexcept as [Hb He]. simpl in Hb, He.
  unfold finally_clause, bind, gets, raise. rewrite Hb.
  exists f1. done.
Qed.

(** *** When the input check returns [False] *)

(** An input that [validate_inputs] rejects does not stop the run: the
    engine is constructed, and [close()] is what ends the run. *)
Lemma rejected_input_constructs_engine globals cc wu hl out timeout (w : W)
    (outcome : res Result) (f' : Frame W) :
  InputHandler.validate_inputs urlparse cc wu = Ok false ->
  validate_coupon_in globals cc wu hl out timeout w = (outcome, f') ->
  exists rest, events f' = Constructed :: rest /\ browser_engine f' <> None.
Proof.
  intros Hvalid Hrun.
  destruct (close_called_once_at_exit _ _ _ _ _ _ _ _ _ (ex_intro _ false Hvalid) Hrun)
    as (before & released & e0 & w0 & e1 & Hev & [more ->] & _ & _ & _ & Hb & _).
  rewrite Hev, Hb. eauto.
Qed.

End WithWorld.

Import MainExamples.

(** C5 on a concrete run: the empty coupon code is rejected by
    [validate_inputs] (and would make [process_inputs] raise), yet
    [validate_coupon] constructs the engine, starts the browser, and only
    then reports a navigation failure. *)
Lemma empty_coupon_code_starts_browser :
  InputHandler.validate_inputs simple_urlparse "" "https://shop.example/" = Ok false
  /\ InputHandler.process_inputs_check simple_urlparse "" "https://shop.example/"
     = Raise "Invalid inputs"
  /\ events (snd (validate_coupon "" "https://shop.example/" true "./output" 60000 healthy))
     = [ Constructed; StartCalled; CloseCalled;
         Released BrowserEngine.RPage 4%nat; Released BrowserEngine.RContext 3%nat;
         Released BrowserEngine.RBrowser 2%nat; Released BrowserEngine.RDriver 1%nat ]
  /\ (exists result,
        fst (validate_coupon "" "https://shop.example/" true "./output" 60000 healthy)
        = Ok result
        /\ result !! "status" = Some (ResultReporter.VStr "Navigation failed")).
Proof.
  split; [reflexivity|]. split; [reflexivity|]. split; [vm_compute; reflexivity|].
  eexists. split; [vm_compute; reflexivity|]. vm_compute. reflexivity.
Qed.

(** The same for an oversized code and for a URL without scheme. *)
Example oversized_code_and_bare_host_start_browser :
  InputHandler.validate_inputs simple_urlparse
    "THIS-COUPON-CODE-IS-LONGER-THAN-FIFTY-CHARACTERS-IN-TOTAL"
    "https://shop.example/" = Ok false
  /\ In StartCalled
       (events (snd (validate_coupon
                       "THIS-COUPON-CODE-IS-LONGER-THAN-FIFTY-CHARACTERS-IN-TOTAL"
                       "https://shop.example/" true "./output" 60000 healthy)))
  /\ InputHandler.validate_inputs simple_urlparse "SAVE10" "shop.example" = Ok false
  /\ In StartCalled
       (events (snd (validate_coupon "SAVE10" "shop.example" true "./output" 60000
                       healthy))).
Proof.
  split; [reflexivity|]. split; [vm_compute; tauto|].
  split; [reflexivity|]. vm_compute. tauto.
Qed.

(** C8, as stated, fails: when closing the page raises, the one call of
    [close()] releases nothing, and the engine still holds its page,
    context, browser and driver when [validate_coupon] returns. *)
Lemma close_can_leave_session_open :
  events (snd (validate_coupon "SAVE10" "https://shop.example/" true "./output" 60000
                 stuck_page))
  = [Constructed; StartCalled; CloseCalled]
  /\ browser_engine (snd (validate_coupon "SAVE10" "https://shop.example/" true
                            "./output" 60000 stuck_page))
     = Some {| BrowserEngine.headless := true; BrowserEngine.timeout := 60000;
               BrowserEngine.browser := Some 2%nat; BrowserEngine.context := Some 3%nat;
               BrowserEngine.page := Some 4%nat; BrowserEngine.playwright := Some 1%nat;
               BrowserEngine.navigation_attempts := 0;
               BrowserEngine.max_navigation_attempts := 3 |}
  /\ ~ session_released_once
         (events (snd (validate_coupon "SAVE10" "https://shop.example/" true "./output"
                         60000 stuck_page))).
Proof.
  split; [vm_compute; reflexivity|]. split; [vm_compute; reflexivity|].
  intros [_ Hall]. specialize (Hall BrowserEngine.RContext).
  vm_compute in Hall. discriminate.
Qed.

(** The amended statement on a run in the healthy world. *)
Lemma close_called_once_at_exit_witness :
  (exists valid,
      InputHandler.validate_inputs simple_urlparse "SAVE10" "https://shop.example/"
      = Ok valid)
  /\ exists before released,
       events (snd (validate_coupon "SAVE10" "https://shop.example/" true "./output"
                      60000 healthy))
       = before ++ CloseCalled :: released
       /\ Forall setup_event before
       /\ Forall is_release released
       /\ length (List.filter is_close_call
                    (events (snd (validate_coupon "SAVE10" "https://shop.example/" true
                                    "./output" 60000 healthy)))) = 1%nat.
Proof.
  assert (Hvalid : exists valid,
             InputHandler.validate_inputs simple_urlparse "SAVE10"
               "https://shop.example/" = Ok valid)
    by (exists true; reflexivity).
  split; [exact Hvalid|].
  destruct (close_called_once_at_exit (PW := shop_site) (C := sim_collaborators)
              BrowserEngine.module_globals
              "SAVE10" "https://shop.example/" true "./output" 60000 healthy
              (fst (validate_coupon "SAVE10" "https://shop.example/" true "./output"
                      60000 healthy))
              (snd (validate_coupon "SAVE10" "https://shop.example/" true "./output"
                      60000 healthy))
              Hvalid (surjective_pairing _))
    as (before & released & _ & _ & _ & Hev & _ & Fb & Fr & Hlen & _).
  exists before, released.
  split; [exact Hev|]. split; [exact Fb|]. split; [exact Fr|exact Hlen].
Defined.

End PipelineFacts.

(** ** coupon_applicator.py and main.py: where AI suggestions go *)
Module LadderFacts.

Import WebsitePatternRecognizer CouponApplicator LadderStatements.

Section WithEngine.

Context {S : Type} {E : Engine S}.

(** Two stage computations that agree on everything but their log. *)
Definition same_but_log (m1 m2 : M S (bool * list LogLine)) : Prop :=
  forall s, without_log (m1 s) = without_log (m2 s).

Lemma same_but_log_ret (found : bool) (log1 log2 : list LogLine) :
  same_but_log (ret (found, log1)) (ret (found, log2)).
Proof. intros s. reflexivity. Qed.

Lemma same_but_log_bind {A : Type} (m : M S A) (k1 k2 : A -> M S (bool * list LogLine)) :
  (forall a, same_but_log (k1 a) (k2 a)) ->
  same_but_log (bind m k1) (bind m k2).
Proof.
  intros Hk s. unfold bind. destruct (m s) as [[a|e] s1]; [apply Hk | reflexivity].
Qed.

Lemma same_but_log_bind_stage (m1 m2 : M S (bool * list LogLine))
    (k1 k2 : bool * list LogLine -> M S (bool * list LogLine)) :
  same_but_log m1 m2 ->
  (forall found log1 log2, same_but_log (k1 (found, log1)) (k2 (found, log2))) ->
  same_but_log (bind m1 k1) (bind m2 k2).
Proof.
  intros Hm Hk s. unfold bind. specialize (Hm s).
  destruct (m1 s) as [[[b1 l1]|e1] s1], (m2 s) as [[[b2 l2]|e2] s2];
    simpl in Hm; try discriminate.
  - injection Hm as <- <-. apply Hk.
  - injection Hm as <- <-. reflexivity.
Qed.

Lemma same_but_log_try_except (m1 m2 : M S (bool * list LogLine))
    (h1 h2 : string -> M S (bool * list LogLine)) :
  same_but_log m1 m2 ->
  (forall e, same_but_log (h1 e) (h2 e)) ->
  same_but_log (try_except m1 h1) (try_except m2 h2).
Proof.
  intros Hm Hh s. unfold try_except. specialize (Hm s).
  destruct (m1 s) as [[[b1 l1]|e1] s1], (m2 s) as [[[b2 l2]|e2] s2];
    simpl in Hm; try discriminate.
  - injection Hm as <- <-. reflexivity.
  - injection Hm as <- <-. apply Hh.
Qed.

(** The confidence scores change the log of the coupon-field stage and
    nothing else. *)
Lemma fill_coupon_field_ignores_scores pi scores code (s : S) :
  without_log (fill_coupon_field (with_scores scores pi) code s)
  = without_log (fill_coupon_field pi code s).
Proof.
  revert s. change (same_but_log (fill_coupon_field (with_scores scores pi) code)
                                 (fill_coupon_field pi code)).
  unfold fill_coupon_field.
  change (known_platform (with_scores scores pi)) with (known_platform pi).
  change (role_ladder (with_scores scores pi)) with (role_ladder pi).
  generalize (exceeds_threshold (ai_confidence (with_scores scores pi) "coupon_field")).
  generalize (log_confidence "Using AI-detected coupon field with confidence: "
                (ai_confidence (with_scores scores pi) "coupon_field")).
  generalize (exceeds_threshold (ai_confidence pi "coupon_field")).
  generalize (log_confidence "Using AI-detected coupon field with confidence: "
                (ai_confidence pi "coupon_field")).
  intros log_a flag_a log_b flag_b.
  apply same_but_log_bind. intros [selector|].
  { apply same_but_log_bind. intros _. apply same_but_log_ret. }
  apply same_but_log_bind. intros toggle.
  apply same_but_log_bind. intros log1.
  apply same_but_log_bind. intros [selector|].
  { apply same_but_log_bind. intros _. apply same_but_log_ret. }
  apply same_but_log_try_except.
  - apply same_but_log_bind. intros found. apply same_but_log_ret.
  - intros e. apply same_but_log_ret.
Qed.

Lemma click_apply_button_ignores_scores pi scores (s : S) :
  without_log (click_apply_button (with_scores scores pi) s)
  = without_log (click_apply_button pi s).
Proof.
  revert s. change (same_but_log (click_apply_button (with_scores scores pi))
                                 (click_apply_button pi)).
  unfold click_apply_button.
  change (known_platform (with_scores scores pi)) with (known_platform pi).
  change (role_ladder (with_scores scores pi)) with (role_ladder pi).
  generalize (exceeds_threshold (ai_confidence (with_scores scores pi) "coupon_button")).
  generalize (log_confidence "Using AI-detected apply button with confidence: "
                (ai_confidence (with_scores scores pi) "coupon_button")).
  generalize (exceeds_threshold (ai_confidence pi "coupon_button")).
  generalize (log_confidence "Using AI-detected apply button with confidence: "
                (ai_confidence pi "coupon_button")).
  intros log_a flag_a log_b flag_b.
  apply same_but_log_bind. intros hit.
  apply same_but_log_bind_stage.
  - destruct hit as [selector|].
    { apply same_but_log_bind. intros _. apply same_but_log_ret. }
    apply same_but_log_bind. intros [selector|].
    { apply same_but_log_bind. intros _. apply same_but_log_ret. }
    apply same_but_log_try_except.
    + apply same_but_log_bind. intros found. apply same_but_log_ret.
    + intros e. apply same_but_log_ret.
  - intros found log1 log2. simpl fst. simpl snd.
    destruct found; [apply same_but_log_ret|].
    apply same_but_log_bind. intros [selector|]; [|apply same_but_log_ret].
    apply same_but_log_bind. intros _. apply same_but_log_ret.
Qed.

(** For a known platform the descriptor's ladder is tried first: its
    first visible selector is the one that is filled. *)
Lemma fill_coupon_field_platform_first pi code (s s1 : S) selector :
  known_platform pi = true ->
  first_visible (role_ladder pi "coupon_field") s = (Ok (Some selector), s1) ->
  without_log (fill_coupon_field pi code s)
  = match fill selector code s1 with
    | (Ok _, s2) => (Ok true, s2)
    | (Raise e, s2) => (Raise e, s2)
    end.
Proof.
  intros Hknown Hfirst. unfold fill_coupon_field, bind, ret.
  rewrite Hknown, Hfirst.
  destruct (fill selector code s1) as [[b|e] s2]; reflexivity.
Qed.

Lemma click_apply_button_platform_first pi (s s1 : S) selector :
  known_platform pi = true ->
  first_visible (role_ladder pi "coupon_button") s = (Ok (Some selector), s1) ->
  without_log (click_apply_button pi s)
  = match click selector s1 with
    | (Ok _, s2) => (Ok true, s2)
    | (Raise e, s2) => (Raise e, s2)
    end.
Proof.
  intros Hknown Hfirst. unfold click_apply_button, bind, ret.
  rewrite Hknown, Hfirst.
  destruct (click selector s1) as [[b|e] s2]; reflexivity.
Qed.

End WithEngine.

Import Main.
Import BrowserEngine (Playwright).

Section WithWorld.

Context {W : Type} {PW : Playwright W} {C : Collaborators W}.

(** The merge leaves the platform tag and every ladder that is not
    present-and-empty as they are. *)
Definition keeps_ladders (pi pi' : PlatformInfo) : Prop :=
  platform pi' = platform pi
  /\ forall role, ladders pi !! role <> Some [] -> ladders pi' !! role = ladders pi !! role.

Lemma keeps_ladders_refl pi : keeps_ladders pi pi.
Proof. split; done. Qed.

Lemma keeps_ladders_trans a b c :
  keeps_ladders a b -> keeps_ladders b c -> keeps_ladders a c.
Proof.
  intros [P1 L1] [P2 L2]. split; [congruence|].
  intros role Hrole. rewrite L2; [by apply L1|]. by rewrite L1.
Qed.

Lemma merge_detected_keeps detected (s s' : PlatformInfo * Frame W) r :
  merge_detected detected s = (r, s') -> keeps_ladders (fst s) (fst s').
Proof.
  revert s. induction detected as [|element_type rest IH]; intros s; simpl.
  - intros [= _ <-]. apply keeps_ladders_refl.
  - unfold bind at 1, gets.
    destruct (ladders (fst s) !! element_type) as [[|x l]|] eqn:El; try apply IH.
    unfold bind at 1, on_frame.
    destruct (step (get_element_selectors element_type) (snd s)) as [[ai|e] f1];
      [|intros [= _ <-]; apply keeps_ladders_refl].
    destruct ai as [|a ai].
    + unfold bind, ret. intros H. apply IH in H. exact H.
    + unfold bind at 1, update_platform_info, modify. intros H. apply IH in H.
      simpl in H. eapply keeps_ladders_trans; [|exact H].
      split; [reflexivity|]. intros role Hrole. simpl.
      apply lookup_insert_ne. intros <-. by rewrite El in Hrole.
Qed.

Lemma enhance_with_ai_keeps pi (f f' : Frame W) pi' :
  enhance_with_ai pi f = (Ok pi', f') -> keeps_ladders pi pi'.
Proof.
  unfold enhance_with_ai, try_except, bind at 1, on_frame. simpl.
  destruct (step analyze_website_structure f) as [[ai_analysis|e] f1];
    [|intros [= <- _]; apply keeps_ladders_refl].
  destruct (detected_elements ai_analysis) as [|d ds] eqn:Ed;
    [intros [= <- _]; apply keeps_ladders_refl|].
  unfold bind.
  destruct (merge_detected (d :: ds) (pi, f1)) as [[[]|e] [pi1 f2]] eqn:Em;
    apply merge_detected_keeps in Em; simpl in Em.
  - destruct (ai_scores ai_analysis) as [scores|]; simpl; intros [= <- _]; exact Em.
  - intros [= <- _]. exact Em.
Qed.

(** How far the defect reaches: the merge of [validate_coupon] changes
    a ladder of the descriptor only where the role key is present with
    an empty ladder, whatever the confidence, and leaves the platform
    tag alone; in [apply_coupon] the coupon-field and apply-button
    stages give the same result in the same state for every choice of
    confidence scores, and for a known platform they act on the first
    visible selector of the descriptor's ladder. *)
Theorem ai_scores_do_not_reorder_ladders {S : Type} {E : Engine S}
    (pi pi' : PlatformInfo) (f f' : Frame W) (coupon_code : string) :
  enhance_with_ai pi f = (Ok pi', f') ->
  platform pi' = platform pi
  /\ (forall role,
         ladders pi !! role <> Some [] -> ladders pi' !! role = ladders pi !! role)
  /\ (forall scores (s : S),
         without_log (fill_coupon_field (with_scores scores pi') coupon_code s)
         = without_log (fill_coupon_field pi' coupon_code s))
  /\ (forall scores (s : S),
         without_log (click_apply_button (with_scores scores pi') s)
         = without_log (click_apply_button pi' s))
  /\ (forall (s s1 : S) selector,
         known_platform pi' = true ->
         first_visible (role_ladder pi' "coupon_field") s = (Ok (Some selector), s1) ->
         without_log (fill_coupon_field pi' coupon_code s)
         = match fill selector coupon_code s1 with
           | (Ok _, s2) => (Ok true, s2)
           | (Raise e, s2) => (Raise e, s2)
           end)
  /\ (forall (s s1 : S) selector,
         known_platform pi' = true ->
         first_visible (role_ladder pi' "coupon_button") s = (Ok (Some selector), s1) ->
         without_log (click_apply_button pi' s)
         = match click selector s1 with
           | (Ok _, s2) => (Ok true, s2)
           | (Raise e, s2) => (Raise e, s2)
           end).
Proof.
  intros Hmerge. apply enhance_with_ai_keeps in Hmerge as [Hplatform Hladders].
  split; [exact Hplatform|]. split; [exact Hladders|].
  split; [intros; apply fill_coupon_field_ignores_scores|].
  split; [intros; apply click_apply_button_ignores_scores|].
  split.
  - intros s s1 selector. apply fill_coupon_field_platform_first.
  - intros s s1 selector. apply click_apply_button_platform_first.
Qed.

End WithWorld.

Import ApplicatorExamples MainExamples.

(** The descriptor [validate_coupon] hands to [apply_coupon] on the
    WooCommerce shop, after the analyzer has reported 0.95 for the coupon
    field. *)
Example merged_woocommerce :
  enhance_with_ai woocommerce_info (bound_frame healthy)
  = (Ok (merged_info woocommerce_info (bound_frame healthy)), bound_frame healthy).
Proof. vm_compute. reflexivity. Qed.

(** C4: the code does not give the priority it announces.  The merge
    of [validate_coupon] is commented as adding the analyzer's selectors
    to the beginning of the list for priority, and [apply_coupon] logs
    that it uses the AI-detected coupon field when the confidence
    exceeds 0.8.  Here the analyzer reports 0.95 for the coupon field
    and suggests [#ai-coupon-input], yet the ladder of the merged
    descriptor does not start with the suggestion (the guard of the
    merge admits an empty ladder only), and on a page where both
    elements are visible [apply_coupon] fills the platform's
    [#coupon_code] and clicks the platform's button. *)
Lemma ai_suggestion_not_prepended :
  ai_confidence (merged_info woocommerce_info (bound_frame healthy)) "coupon_field"
  = Some (95 # 100)
  /\ exceeds_threshold (Some (95 # 100)) = true
  /\ suggested "coupon_field" = ["#ai-coupon-input"]
  /\ ~ suggestions_lead (merged_info woocommerce_info (bound_frame healthy))
         "coupon_field" (suggested "coupon_field")
  /\ actions (snd (CouponApplicator.apply_coupon
                     (merged_info woocommerce_info (bound_frame healthy))
                     "SAVE10" checkout_page))
     = ["fill #coupon_code"; "click .coupon .button"].
Proof.
  split; [vm_compute; reflexivity|].
  split; [vm_compute; reflexivity|].
  split; [reflexivity|].
  split; [|vm_compute; reflexivity].
  intros Hlead.
  destruct Hlead as [rest Hrest]; [vm_compute; reflexivity|].
  vm_compute in Hrest. discriminate.
Qed.

(** The same on that run: the ladder is the platform's, and the scores
    change nothing in what is filled. *)
Lemma ai_scores_do_not_reorder_ladders_witness :
  ladders (merged_info woocommerce_info (bound_frame healthy)) !! "coupon_field"
  = ladders woocommerce_info !! "coupon_field"
  /\ without_log
       (fill_coupon_field
          (with_scores None (merged_info woocommerce_info (bound_frame healthy)))
          "SAVE10" checkout_page)
     = without_log
         (fill_coupon_field (merged_info woocommerce_info (bound_frame healthy))
            "SAVE10" checkout_page).
Proof.
  assert (Hmerge : enhance_with_ai woocommerce_info (bound_frame healthy)
                   = (Ok (merged_info woocommerce_info (bound_frame healthy)),
                      bound_frame healthy))
    by (vm_compute; reflexivity).
  destruct (ai_scores_do_not_reorder_ladders (S := Session)
              woocommerce_info (merged_info woocommerce_info (bound_frame healthy))
              (bound_frame healthy) (bound_frame healthy) "SAVE10" Hmerge)
    as (_ & Hladders & Hfill & _).
  split.
  - apply Hladders. vm_compute. discriminate.
  - apply Hfill.
Defined.

End LadderFacts.

(** ** browser_engine.py: starting, interacting, closing *)
Module InteractionFacts.

Import BrowserEngine Statements Respects.

(** What a computation returns when it returns normally. *)
Definition yields {S A : Type} (P : A -> Prop) (m : M S A) : Prop :=
  forall s r s', m s = (Ok r, s') -> P r.

Lemma yields_ret {S A : Type} (P : A -> Prop) (a : A) : P a -> yields (S := S) P (ret a).
Proof. intros H s r s' [= <- _]. exact H. Qed.

Lemma yields_bind {S A B : Type} (P : B -> Prop) (m : M S A) (k : A -> M S B) :
  (forall a, yields P (k a)) -> yields P (bind m k).
Proof.
  intros Hk s r s'. unfold bind.
  destruct (m s) as [[a|e] s1]; [apply Hk | discriminate].
Qed.

(** A [try] block whose body can only return [a] and whose handler
    always returns [a]. *)
Lemma try_except_always {S A : Type} (R : S -> S -> Prop) {Ht : Transitive R}
    (a : A) (m : M S A) (h : string -> M S A) :
  yields (eq a) m -> respects R m ->
  (forall e s, exists s', h e s = (Ok a, s') /\ R s s') ->
  forall s, exists s', try_except m h s = (Ok a, s') /\ R s s'.
Proof.
  intros Hy Hr Hh s. unfold try_except.
  destruct (m s) as [[r|e] s1] eqn:Em.
  - rewrite <- (Hy _ _ _ Em). eauto.
  - destruct (Hh e s1) as (s' & -> & HR). exists s'. split; [done|].
    etransitivity; [eapply Hr, Em | exact HR].
Qed.

Section WithDriver.

Context {W : Type} {PW : Playwright W} {IW : Interaction W}.

(** The engine object and the event trace are as they were. *)
Definition same_engine (st st' : State W) : Prop :=
  self st' = self st /\ events st' = events st.

#[local] Instance same_engine_refl : Reflexive same_engine.
Proof. intros st. split; reflexivity. Qed.

#[local] Instance same_engine_trans : Transitive same_engine.
Proof. intros a b c [H1 H2] [H3 H4]. split; congruence. Qed.

Lemma same_engine_call {A : Type} (op : W -> res A * W) :
  respects same_engine (call op).
Proof.
  intros st r st'. unfold call. destruct (op (world st)) as [r1 w1].
  intros [= _ <-]. split; reflexivity.
Qed.

Lemma same_engine_execute_javascript {A : Type}
    (evaluate : Handle -> W -> res A * W) retry :
  respects same_engine (execute_javascript evaluate retry).
Proof.
  intros st r st'. unfold execute_javascript.
  destruct (page (self st)) as [h|]; [|intros [= _ <-]; reflexivity].
  revert st r st'.
  change (respects same_engine
            (try_except
               (let* result := call (evaluate h) in ret (Some result))
               (fun _ =>
                  if retry
                  then try_except
                         (let* result := call (evaluate h) in ret (Some result))
                         (fun _ => ret None)
                  else ret None))).
  destruct retry; repeat first [apply same_engine_call | respects_step].
Qed.

(** [execute_javascript] swallows every exception. *)
Lemma execute_javascript_returns {A : Type} (evaluate : Handle -> W -> res A * W)
    retry (st : State W) :
  exists r st', execute_javascript evaluate retry st = (Ok r, st').
Proof.
  unfold execute_javascript.
  destruct (page (self st)) as [h|]; [|eauto].
  unfold try_except, bind, ret.
  destruct (call (evaluate h) st) as [[a|e] st1]; [eauto|].
  destruct retry; [|eauto].
  destruct (call (evaluate h) st1) as [[a|e2] st2]; eauto.
Qed.

Ltac same_engine_tac :=
  repeat first
    [ apply same_engine_call
    | apply same_engine_execute_javascript
    | respects_step ].

(** A script evaluation followed by [return True] returns [True]. *)
Lemma script_then_true script (st : State W) :
  exists st',
    (execute_javascript (page_evaluate script) true >> ret true) st = (Ok true, st')
    /\ same_engine st st'.
Proof.
  unfold bind.
  destruct (execute_javascript_returns (page_evaluate script) true st)
    as (r & st' & E).
  rewrite E. exists st'. split; [reflexivity|].
  eapply same_engine_execute_javascript, E.
Qed.

(** X1: on a started engine, [click] with [retry] on (the default)
    returns [True] for every selector, whatever the page calls do: the
    last resort is a script evaluation, and [execute_javascript]
    swallows its failure.  The engine object and the event trace are
    left as they were. *)
Theorem click_with_retry_reports_success selector timeout force (st : State W) h :
  page (self st) = Some h ->
  exists st',
    click selector timeout force true st = (Ok true, st')
    /\ self st' = self st
    /\ events st' = events st.
Proof.
  intros Hpage. unfold click. rewrite Hpage. simpl negb. cbv iota.
  apply (try_except_always same_engine true).
  - repeat (apply yields_bind; intros). by apply yields_ret.
  - same_engine_tac.
  - intros _ s. apply (try_except_always same_engine true).
    + repeat (apply yields_bind; intros). by apply yields_ret.
    + same_engine_tac.
    + intros _ s1.
      destruct (script_then_true (ClickElement selector) s1) as (s2 & E & HR).
      exists s2. split; [|exact HR]. unfold try_except. by rewrite E.
Qed.

(** X2: on a started engine, [fill] with [retry] on (the default)
    returns [True] for every selector and value, whatever the page
    calls do, and leaves the engine object and the event trace as they
    were. *)
Theorem fill_with_retry_reports_success selector value timeout (st : State W) h :
  page (self st) = Some h ->
  exists st',
    fill selector value timeout true st = (Ok true, st')
    /\ self st' = self st
    /\ events st' = events st.
Proof.
  intros Hpage. unfold fill. rewrite Hpage. simpl negb. cbv iota.
  apply (try_except_always same_engine true).
  - repeat (apply yields_bind; intros). by apply yields_ret.
  - same_engine_tac.
  - intros _ s. apply (try_except_always same_engine true).
    + repeat (apply yields_bind; intros). by apply yields_ret.
    + same_engine_tac.
    + intros _ s1. cbv zeta.
      destruct (script_then_true (SetValue selector (escape_quotes value)) s1)
        as (s2 & E & HR).
      exists s2. split; [|exact HR]. unfold try_except. by rewrite E.
Qed.

(** A method that returns normally from every state and leaves the
    engine object and the event trace alone. *)
Definition contained {A : Type} (m : M (State W) A) : Prop :=
  forall st, exists r st', m st = (Ok r, st') /\ same_engine st st'.

Lemma contained_ret {A : Type} (a : A) : contained (ret a).
Proof. intros st. exists a, st. split; reflexivity. Qed.

Lemma contained_try_except {A : Type} (m : M (State W) A) (h : string -> M (State W) A) :
  respects same_engine m -> (forall e, contained (h e)) ->
  contained (try_except m h).
Proof.
  intros Hm Hh st. unfold try_except.
  destruct (m st) as [[a|e] st1] eqn:Em.
  - exists a, st1. split; [reflexivity | eapply Hm, Em].
  - destruct (Hh e st1) as (r & st' & -> & HR). exists r, st'.
    split; [reflexivity|]. etransitivity; [eapply Hm, Em | exact HR].
Qed.

Ltac contained_tac :=
  repeat first
    [ apply contained_ret
    | apply contained_try_except; [same_engine_tac | intros _] ].

(** X3: [click], [fill], [press_key], [get_text], [is_visible],
    [get_html_content] and [wait_for_navigation] return normally from
    every state and for every argument: each exception of a page call
    is caught.  None of them changes the engine object (the handles
    stay as they were) or the event trace. *)
Theorem interaction_methods_catch_everything
    (selector value key : string) (timeout : option Z) (visible_timeout : Z)
    (force retry : bool) :
  contained (click selector timeout force retry)
  /\ contained (fill selector value timeout retry)
  /\ contained (press_key selector key timeout)
  /\ contained (get_text selector timeout)
  /\ contained (is_visible selector visible_timeout)
  /\ contained get_html_content
  /\ contained (wait_for_navigation timeout).
Proof.
  repeat split; intros st;
    unfold click, fill, press_key, get_text, is_visible, get_html_content,
      wait_for_navigation;
    (destruct (page (self st)) as [h|];
     [|eexists _, st; split; reflexivity]);
    try generalize (effective_timeout timeout st); intros;
    refine (contained_try_except _ _ _ _ st);
    try (same_engine_tac; fail);
    intros _; destruct retry; simpl negb; cbv iota; contained_tac.
Qed.

(** X4: before [start] is called, every method of the engine returns
    its failure value ([False] or [None]) and touches neither the world
    nor the engine. *)
Theorem unstarted_engine_refuses (headless : bool) (default_timeout : Z) (w : W)
    (evs : list Event) (selector value key path url wait_until : string)
    (timeout : option Z) (visible_timeout : Z) (force retry : bool)
    (script : PageScript) :
  let st := {| self := init headless default_timeout; world := w; events := evs |} in
  click selector timeout force retry st = (Ok false, st)
  /\ fill selector value timeout retry st = (Ok false, st)
  /\ press_key selector key timeout st = (Ok false, st)
  /\ get_text selector timeout st = (Ok None, st)
  /\ is_visible selector visible_timeout st = (Ok false, st)
  /\ get_html_content st = (Ok None, st)
  /\ wait_for_navigation timeout st = (Ok false, st)
  /\ take_screenshot path st = (Ok false, st)
  /\ get_current_url st = (Ok None, st)
  /\ execute_javascript (page_evaluate script) retry st = (Ok None, st)
  /\ navigate url wait_until timeout st = (false, None, st).
Proof. repeat split. Qed.

(** *** [start] *)

Definition holds_everything (e : t) : Prop :=
  page e <> None /\ context e <> None /\ browser e <> None /\ playwright e <> None.

(** X5: [start] returns normally from every state, adds no event, and
    returns [True] only when the driver, the browser, the context and
    the page are all held. *)
Theorem start_true_means_ready (st : State W) :
  exists b st',
    start st = (Ok b, st')
    /\ events st' = events st
    /\ (b = true -> holds_everything (self st')).
Proof.
  unfold start, try_except, bind, call, modify, gets, ret. simpl.
  destruct (async_playwright_start (world st)) as [[pw|e] w1]; simpl;
    [|eexists _, _; split; [reflexivity|]; split; [reflexivity | discriminate]].
  destruct (chromium_launch pw (headless (self st)) w1) as [[b|e] w2]; simpl;
    [|eexists _, _; split; [reflexivity|]; split; [reflexivity | discriminate]].
  destruct (browser_new_context b w2) as [[c|e] w3]; simpl;
    [|eexists _, _; split; [reflexivity|]; split; [reflexivity | discriminate]].
  destruct (context_add_init_script c w3) as [[[]|e] w4]; simpl;
    [|eexists _, _; split; [reflexivity|]; split; [reflexivity | discriminate]].
  destruct (context_new_page c w4) as [[p|e] w5]; simpl;
    [|eexists _, _; split; [reflexivity|]; split; [reflexivity | discriminate]].
  destruct (page_set_default_timeout p (timeout (self st)) w5) as [[[]|e] w6]; simpl;
    [|eexists _, _; split; [reflexivity|]; split; [reflexivity | discriminate]].
  eexists _, _. split; [reflexivity|]. split; [reflexivity|].
  intros _. repeat split; discriminate.
Qed.

(** X6: [start] keeps what it acquired when it fails.  On an engine
    that holds nothing, when the driver starts and the browser launch
    raises, [start] returns [False] with the driver handle stored, and a
    following [close] stops exactly that driver and leaves the engine
    holding nothing. *)
Theorem failed_launch_is_cleaned_by_close (st : State W) pw w1 e w2 w3 :
  holds_nothing (self st) ->
  async_playwright_start (world st) = (Ok pw, w1) ->
  chromium_launch pw (headless (self st)) w1 = (Raise e, w2) ->
  playwright_stop pw w2 = (Ok tt, w3) ->
  exists st1 st2,
    start st = (Ok false, st1)
    /\ playwright (self st1) = Some pw
    /\ close st1 = (Ok tt, st2)
    /\ events st2 = events st ++ [Released RDriver pw]
    /\ world st2 = w3
    /\ holds_nothing (self st2).
Proof.
  intros (Hp & Hc & Hb & Hd) Hstart Hlaunch Hstop.
  eexists _, _. split.
  { unfold start, try_except, bind, call, modify, gets, ret. simpl.
    rewrite Hstart. simpl. rewrite Hlaunch. reflexivity. }
  split; [reflexivity|]. split.
  { unfold close, release, try_except, bind, call, modify, gets, ret. simpl.
    rewrite Hp. simpl. rewrite Hc. simpl. rewrite Hb. simpl.
    rewrite Hstop. reflexivity. }
  simpl. repeat split; assumption.
Qed.

(** *** [navigate] *)

(** X7: [navigate], as the module is written, returns [False] for
    every URL, wait policy and timeout and from every state, and leaves
    the engine, the world and the event trace exactly as they were: no
    page call is ever made, because each attempt stops at the unbound
    name [random]. *)
Theorem navigate_never_succeeds url wait_until timeout (st : State W) :
  exists metrics, navigate url wait_until timeout st = (false, metrics, st).
Proof.
  destruct (page (self st)) as [h|] eqn:Hpage.
  - eexists. apply (NavigationFacts.navigate_always_fails _ _ _ _ h Hpage).
  - exists None. unfold navigate, navigate_in. by rewrite Hpage.
Qed.

(** *** [close] *)

(** X8: [close] gives up at the first release that raises.  When the
    page is held and closing it raises, [close] still returns normally,
    but nothing is released: the four handles stay as they were and no
    release is recorded, whatever the other release calls would have
    done. *)
Theorem close_gives_up_at_first_failure (st : State W) h e w' :
  page (self st) = Some h ->
  page_close h (world st) = (Raise e, w') ->
  close st = (Ok tt, {| self := self st; world := w'; events := events st |}).
Proof.
  intros Hpage Hclose.
  unfold close, release, try_except, bind, call, gets, ret. simpl.
  rewrite Hpage. simpl. rewrite Hclose. reflexivity.
Qed.

(** X9: when no release call raises, [close] releases what the engine
    holds, each resource once, in the order page, context, browser,
    driver, and clears the four handles; a second [close] then does
    nothing at all. *)
Theorem close_twice_releases_once (st : State W) :
  releases_succeed ->
  exists st',
    close st = (Ok tt, st')
    /\ events st' = events st ++ held_releases (self st)
    /\ holds_nothing (self st')
    /\ close st' = (Ok tt, st').
Proof.
  intros Hok.
  destruct (CloseFacts.close_releases_all st Hok) as (st' & E & Hnone & Hev).
  exists st'. repeat split; try assumption; try apply Hnone.
  by apply CloseFacts.close_closed.
Qed.

End WithDriver.

Import MainExamples.

Lemma click_with_retry_reports_success_witness :
  page (self (started healthy)) = Some 4%nat
  /\ exists st',
       click (IW := unresponsive) "#apply-coupon" None false true (started healthy)
       = (Ok true, st')
       /\ self st' = self (started healthy)
       /\ events st' = events (started healthy).
Proof.
  split; [reflexivity|].
  apply (click_with_retry_reports_success (IW := unresponsive)
           "#apply-coupon" None false (started healthy) 4%nat).
  reflexivity.
Defined.

Lemma fill_with_retry_reports_success_witness :
  page (self (started healthy)) = Some 4%nat
  /\ exists st',
       fill (IW := unresponsive) "#coupon_code" "SAVE10" None true (started healthy)
       = (Ok true, st')
       /\ self st' = self (started healthy)
       /\ events st' = events (started healthy).
Proof.
  split; [reflexivity|].
  apply (fill_with_retry_reports_success (IW := unresponsive)
           "#coupon_code" "SAVE10" None (started healthy) 4%nat).
  reflexivity.
Defined.

Lemma failed_launch_is_cleaned_by_close_witness :
  holds_nothing (self (fresh healthy))
  /\ exists st1 st2,
       start (PW := no_browser) (fresh healthy) = (Ok false, st1)
       /\ playwright (self st1) = Some 1%nat
       /\ close (PW := no_browser) st1 = (Ok tt, st2)
       /\ events st2 = events (fresh healthy) ++ [Released RDriver 1%nat]
       /\ world st2 = healthy
       /\ holds_nothing (self st2).
Proof.
  assert (Hnone : holds_nothing (self (fresh healthy))) by (repeat split).
  split; [exact Hnone|].
  apply (failed_launch_is_cleaned_by_close (PW := no_browser) (fresh healthy)
           1%nat healthy "Executable doesn't exist" healthy healthy Hnone);
    reflexivity.
Defined.

Lemma close_gives_up_at_first_failure_witness :
  page (self (started stuck_page)) = Some 4%nat
  /\ close (started stuck_page)
     = (Ok tt, {| self := self (started stuck_page); world := stuck_page;
                  events := events (started stuck_page) |}).
Proof.
  split; [reflexivity|].
  apply (close_gives_up_at_first_failure (started stuck_page) 4%nat
           "Target page, context or browser has been closed" stuck_page);
    reflexivity.
Defined.

Lemma close_twice_releases_once_witness :
  releases_succeed (PW := reliable)
  /\ exists st',
       close (PW := reliable) (started healthy) = (Ok tt, st')
       /\ events st' = events (started healthy) ++ held_releases (self (started healthy))
       /\ holds_nothing (self st')
       /\ close (PW := reliable) st' = (Ok tt, st').
Proof.
  assert (Hok : releases_succeed (PW := reliable))
    by (repeat split; intros h w; exists w; reflexivity).
  split; [exact Hok|].
  apply (close_twice_releases_once (PW := reliable) (started healthy) Hok).
Defined.

End InteractionFacts.

(** ** main.py: how a run ends *)
Module PipelineOutcomes.

Import WebsitePatternRecognizer BrowserEngine Main Statements.

Section WithWorld.

Context {W : Type} {PW : Playwright W} {C : Collaborators W}.

(** One call of [navigate] from the pipeline: [False], and nothing has
    changed. *)
Lemma navigate_fails url wait_until timeout (f : Frame W) e :
  browser_engine f = Some e ->
  Main.navigate module_globals url wait_until timeout f = (Ok false, f).
Proof.
  intros He. unfold Main.navigate, on_browser. rewrite He.
  match goal with
  | |- context [navigate_in module_globals url wait_until (Some timeout) ?st] =>
      destruct (InteractionFacts.navigate_never_succeeds url wait_until (Some timeout) st)
        as [m Hnav];
      unfold BrowserEngine.navigate in Hnav; rewrite Hnav
  end.
  simpl. destruct f; simpl in *. by subst.
Qed.

Definition navigation_errors : list string :=
  [ "Navigation failed with strategy: networkidle";
    "Navigation failed with strategy: domcontentloaded";
    "Navigation failed with strategy: load" ].

Lemma try_policies_accumulate url timeout policies errs (f : Frame W) e :
  browser_engine f = Some e ->
  try_policies module_globals url timeout policies false errs f
  = (Ok (false,
         errs ++ map (fun policy => "Navigation failed with strategy: " +:+ policy)
                   policies), f).
Proof.
  intros He. revert errs. induction policies as [|policy rest IH]; intros errs.
  - simpl. by rewrite app_nil_r.
  - simpl. unfold try_except, bind at 1 2.
    rewrite (navigate_fails _ _ _ _ _ He). simpl.
    rewrite IH. by rewrite <- app_assoc.
Qed.

Lemma try_policies_fail url timeout (f : Frame W) e :
  browser_engine f = Some e ->
  try_policies module_globals url timeout wait_policies false [] f
  = (Ok (false, navigation_errors), f).
Proof. intros He. by rewrite (try_policies_accumulate _ _ _ _ _ _ He). Qed.

(** [start], called from the pipeline, returns, and the engine stays
    bound. *)
Lemma on_browser_start (f : Frame W) e :
  browser_engine f = Some e ->
  exists b f' e', on_browser start f = (Ok b, f') /\ browser_engine f' = Some e'.
Proof.
  intros He. unfold on_browser. rewrite He.
  match goal with
  | |- context [start ?st] =>
      destruct (InteractionFacts.start_true_means_ready st) as (b & st' & -> & _)
  end.
  eauto.
Qed.

(** The [finally] clause returns when the engine is bound. *)
Lemma finally_clause_returns (f : Frame W) e :
  browser_engine f = Some e -> exists f', finally_clause f = (Ok tt, f').
Proof.
  intros He. unfold finally_clause, bind, gets, record_event, modify, on_browser.
  rewrite He. simpl. rewrite He.
  match goal with
  | |- context [close ?st] => destruct (CloseFacts.close_returns st) as [st' ->]
  end.
  eauto.
Qed.

(** X10: [validate_coupon], with the engine module as it is written,
    never gets past navigation.  Whenever the input check returns
    (whatever it returns) and the analyzer and the reporter can be
    constructed, the call returns the result [is_valid = False] with
    status [Navigation failed] and the three per-policy messages as
    error message, without discount and without screenshot. *)
Theorem validate_coupon_stops_at_navigation cc wu hl out timeout (w w1 w2 : W) valid :
  InputHandler.validate_inputs urlparse cc wu = Ok valid ->
  ai_analyzer_init w = (Ok tt, w1) ->
  result_reporter_init out w1 = (Ok tt, w2) ->
  exists timestamp f',
    validate_coupon cc wu hl out timeout w
    = (Ok (ResultReporter.format_result timestamp cc wu false "Navigation failed"
             (Some ("Failed to navigate to the website after multiple attempts: "
                    +:+ "Navigation failed with strategy: networkidle; "
                    +:+ "Navigation failed with strategy: domcontentloaded; "
                    +:+ "Navigation failed with strategy: load"))
             None None), f').
Proof.
  intros Hvalid Hai Hrr. unfold validate_coupon, validate_coupon_in.
  rewrite (PipelineFacts.try_block_binds_engine _ _ _ _ _ _ _ _ Hvalid).
  unfold pipeline.
  set (policies := try_policies module_globals wu timeout wait_policies false []).
  unfold try_except, bind.
  unfold record_event, in_world, bind_result_reporter, bind_screenshot_path, modify.
  simpl. rewrite Hai. simpl. rewrite Hrr. simpl.
  match goal with
  | |- context [on_browser start ?f0] =>
      destruct (on_browser_start f0 (init hl 60000) eq_refl) as (b & f1 & e1 & -> & He1)
  end.
  subst policies. rewrite (try_policies_fail _ _ _ _ He1). simpl.
  unfold format_result, bind, gets, ret. simpl.
  destruct (finally_clause_returns f1 e1 He1) as [f2 ->].
  eauto.
Qed.

(** X11: when the analyzer cannot be constructed, the browser is
    never started: the [except] clause builds the reporter itself and
    returns the result [is_valid = False] with status
    [Validation error], the exception text as error message and no
    screenshot path; the [finally] clause then calls [close()] on the
    unstarted engine, which releases nothing. *)
Theorem failed_construction_is_reported cc wu hl out timeout (w w1 w2 : W) valid e :
  InputHandler.validate_inputs urlparse cc wu = Ok valid ->
  ai_analyzer_init w = (Raise e, w1) ->
  result_reporter_init out w1 = (Ok tt, w2) ->
  let result :=
    ResultReporter.format_result (now_timestamp w2) cc wu false "Validation error"
      (Some e) None None in
  exists f',
    validate_coupon cc wu hl out timeout w = (Ok result, f')
    /\ events f' = [Constructed; CloseCalled]
    /\ browser_engine f' = Some (init hl 60000)
    /\ world f' = save_and_report result w2.
Proof.
  intros Hvalid Hai Hrr. unfold validate_coupon, validate_coupon_in.
  rewrite (PipelineFacts.try_block_binds_engine _ _ _ _ _ _ _ _ Hvalid).
  unfold pipeline, try_except, bind at 1 2.
  unfold record_event, in_world, modify. simpl. rewrite Hai. simpl.
  unfold except_clause, bind, gets, in_world, bind_result_reporter, modify,
    format_result, save, ret.
  simpl. rewrite Hrr. simpl.
  eexists. split; [reflexivity|]. repeat split.
Qed.

End WithWorld.

Import MainExamples.

Lemma validate_coupon_stops_at_navigation_witness :
  InputHandler.validate_inputs simple_urlparse "SAVE10" "https://shop.example/" = Ok true
  /\ exists timestamp f',
       validate_coupon "SAVE10" "https://shop.example/" true "./output" 60000 healthy
       = (Ok (ResultReporter.format_result timestamp "SAVE10" "https://shop.example/"
                false "Navigation failed"
                (Some ("Failed to navigate to the website after multiple attempts: "
                       +:+ "Navigation failed with strategy: networkidle; "
                       +:+ "Navigation failed with strategy: domcontentloaded; "
                       +:+ "Navigation failed with strategy: load"))
                None None), f').
Proof.
  split; [reflexivity|].
  apply (validate_coupon_stops_at_navigation (PW := shop_site) (C := sim_collaborators)
           "SAVE10" "https://shop.example/" true "./output" 60000
           healthy healthy healthy true);
    reflexivity.
Defined.

Lemma failed_construction_is_reported_witness :
  InputHandler.validate_inputs simple_urlparse "SAVE10" "https://shop.example/" = Ok true
  /\ exists f',
       validate_coupon (C := readonly_collaborators)
         "SAVE10" "https://shop.example/" true "./output" 60000 healthy
       = (Ok (ResultReporter.format_result "2024-01-01 00:00:00" "SAVE10"
                "https://shop.example/" false "Validation error"
                (Some "[Errno 30] Read-only file system: 'models'") None None), f')
       /\ events f' = [Constructed; CloseCalled]
       /\ browser_engine f' = Some (init true 60000)
       /\ world f' = healthy.
Proof.
  split; [reflexivity|].
  apply (failed_construction_is_reported (PW := shop_site) (C := readonly_collaborators)
           "SAVE10" "https://shop.example/" true "./output" 60000
           healthy healthy healthy true "[Errno 30] Read-only file system: 'models'");
    reflexivity.
Defined.

Lemma raising_input_check_ends_in_unbound_local_witness :
  InputHandler.validate_inputs bracket_urlparse "SAVE10" "http://[" = Raise "Invalid IPv6 URL"
  /\ exists f',
       validate_coupon_in (C := bracket_collaborators) module_globals
         "SAVE10" "http://[" true "./output" 60000 healthy
       = (Raise (unbound_local "browser_engine"), f')
       /\ events f' = []
       /\ browser_engine f' = None.
Proof.
  split; [reflexivity|].
  apply (PipelineFacts.raising_input_check_ends_in_unbound_local
           (PW := shop_site) (C := bracket_collaborators) module_globals
           "SAVE10" "http://[" true "./output" 60000 healthy "Invalid IPv6 URL").
  reflexivity.
Defined.

End PipelineOutcomes.

(** ** input_handler.py: [process_inputs] *)
Module InputFacts.

Import InputHandler.

(** The first, and the last, character of [s] is whitespace. *)
Definition starts_with_space (s : string) : bool :=
  match s with
  | EmptyString => false
  | String c _ => Str.isspace c
  end.

Fixpoint ends_with_space (s : string) : bool :=
  match s with
  | EmptyString => false
  | String c EmptyString => Str.isspace c
  | String _ rest => ends_with_space rest
  end.

Lemma append_nil_r (s : string) : s +:+ "" = s.
Proof.
  induction s as [|c s IH]; [reflexivity|].
  by rewrite WebsitePatternRecognizerFacts.append_cons, IH.
Qed.

Lemma lstrip_spec (s : string) :
  exists pre,
    s = pre +:+ Str.lstrip s
    /\ Str.all_space pre = true
    /\ starts_with_space (Str.lstrip s) = false.
Proof.
  induction s as [|c s (pre & Hs & Hpre & Hstart)].
  - by exists "".
  - simpl. destruct (Str.isspace c) eqn:Ec.
    + exists (String c pre).
      rewrite WebsitePatternRecognizerFacts.append_cons, <- Hs.
      simpl. by rewrite Ec, Hpre.
    + exists "". simpl. by rewrite Ec.
Qed.

Lemma rstrip_spec (s : string) :
  exists post,
    s = Str.rstrip s +:+ post
    /\ Str.all_space post = true
    /\ ends_with_space (Str.rstrip s) = false.
Proof.
  induction s as [|c s (post & Hs & Hpost & Hend)].
  - by exists "".
  - simpl. destruct (Str.rstrip s) as [|d kept] eqn:Er.
    + change ("" +:+ post) with post in Hs. subst post.
      destruct (Str.isspace c) eqn:Ec.
      * exists (String c s). simpl. by rewrite Ec, Hpost.
      * exists s. simpl. by rewrite Ec.
    + exists post.
      rewrite WebsitePatternRecognizerFacts.append_cons, <- Hs. done.
Qed.

(** [strip] cuts a whitespace prefix and a whitespace suffix, and what
    is left neither starts nor ends with whitespace. *)
Lemma strip_spec (s : string) :
  exists pre post,
    s = pre +:+ Str.strip s +:+ post
    /\ Str.all_space pre = true
    /\ Str.all_space post = true
    /\ starts_with_space (Str.strip s) = false
    /\ ends_with_space (Str.strip s) = false.
Proof.
  unfold Str.strip.
  destruct (lstrip_spec s) as (pre & Hs & Hpre & Hstart).
  destruct (rstrip_spec (Str.lstrip s)) as (post & Ht & Hpost & Hend).
  exists pre, post. rewrite <- Ht. repeat split; try done.
  destruct (Str.rstrip (Str.lstrip s)) as [|d kept]; [done|].
  rewrite Ht in Hstart. exact Hstart.
Qed.

Lemma strip_all_space (s : string) : Str.all_space s = true -> Str.strip s = "".
Proof.
  unfold Str.strip. induction s as [|c s IH]; [done|].
  simpl. intros [-> Hs]%andb_true_iff. by apply IH.
Qed.

Section WithUrlparse.

Variable urlparse : string -> res ParseResult.

Lemma process_inputs_Ok coupon_code website_url p :
  process_inputs urlparse coupon_code website_url = Ok p ->
  validate_inputs urlparse coupon_code website_url = Ok true
  /\ processed_coupon_code p = Str.strip coupon_code
  /\ processed_website_url p
     = if negb (String.prefix "http://" website_url)
          && negb (String.prefix "https://" website_url)
       then "https://" +:+ website_url
       else website_url.
Proof.
  unfold process_inputs.
  destruct (validate_inputs urlparse coupon_code website_url) as [[|]|e];
    [|discriminate..].
  intros [= <-]. done.
Qed.

(** X12: the URL that [process_inputs] returns always starts with
    [http://] or [https://].  It is the given URL when that one
    already does; any other accepted URL (one with another scheme, for
    instance) is returned with [https://] put in front of it.
    [process_inputs] returns only for inputs that [validate_inputs]
    accepts. *)
Theorem process_inputs_url_has_web_scheme coupon_code website_url p :
  process_inputs urlparse coupon_code website_url = Ok p ->
  validate_inputs urlparse coupon_code website_url = Ok true
  /\ (String.prefix "http://" (processed_website_url p) = true
      \/ String.prefix "https://" (processed_website_url p) = true)
  /\ (processed_website_url p = website_url
      \/ (String.prefix "http://" website_url = false
          /\ String.prefix "https://" website_url = false
          /\ processed_website_url p = "https://" +:+ website_url)).
Proof.
  intros (Hvalid & _ & ->)%process_inputs_Ok. split; [exact Hvalid|].
  destruct (String.prefix "http://" website_url) eqn:Ehttp; simpl.
  { split; [by left | by left]. }
  destruct (String.prefix "https://" website_url) eqn:Ehttps; simpl.
  { split; [by right | by left]. }
  split; [right | right; done].
  change (String.prefix "" website_url = true). by destruct website_url.
Qed.

(** X13: the coupon code that [process_inputs] returns is the given
    code without its leading and trailing whitespace: the given code
    is a run of whitespace, the returned code, and a run of
    whitespace, and the returned code neither starts nor ends with
    whitespace. *)
Theorem process_inputs_trims_coupon_code coupon_code website_url p :
  process_inputs urlparse coupon_code website_url = Ok p ->
  exists pre post,
    coupon_code = pre +:+ processed_coupon_code p +:+ post
    /\ Str.all_space pre = true
    /\ Str.all_space post = true
    /\ starts_with_space (processed_coupon_code p) = false
    /\ ends_with_space (processed_coupon_code p) = false.
Proof.
  intros (_ & -> & _)%process_inputs_Ok. apply strip_spec.
Qed.

(** X14: validation looks at the code before it is trimmed.  A code
    of 2 to 50 whitespace characters is accepted by [validate_inputs],
    and [process_inputs] returns the empty coupon code for it. *)
Theorem blank_coupon_code_is_accepted coupon_code website_url parsed :
  (2 <= String.length coupon_code <= 50)%nat ->
  Str.all_space coupon_code = true ->
  str_truthy website_url = true ->
  urlparse website_url = Ok parsed ->
  str_truthy (scheme parsed) = true ->
  str_truthy (netloc parsed) = true ->
  validate_inputs urlparse coupon_code website_url = Ok true
  /\ exists p,
       process_inputs urlparse coupon_code website_url = Ok p
       /\ processed_coupon_code p = "".
Proof.
  intros [Hlo Hhi] Hblank Hurl Hparse Hscheme Hnetloc.
  assert (Hvalid : validate_inputs urlparse coupon_code website_url = Ok true).
  { unfold validate_inputs.
    assert (str_truthy coupon_code = true) as ->
      by (destruct coupon_code; [simpl in Hlo; lia | done]).
    rewrite Hurl. simpl.
    assert ((Z.of_nat (String.length coupon_code) <? 2) = false) as -> by lia.
    assert ((50 <? Z.of_nat (String.length coupon_code)) = false) as -> by lia.
    simpl. rewrite Hparse, Hscheme, Hnetloc. reflexivity. }
  split; [exact Hvalid|].
  unfold process_inputs. rewrite Hvalid. eexists. split; [reflexivity|].
  simpl. by apply strip_all_space.
Qed.

End WithUrlparse.

Import InputExamples.

Lemma process_inputs_url_has_web_scheme_witness :
  process_inputs scheme_urlparse "SAVE10" "ftp://files.example/sale"
  = Ok {| processed_coupon_code := "SAVE10";
          processed_website_url := "https://ftp://files.example/sale" |}
  /\ validate_inputs scheme_urlparse "SAVE10" "ftp://files.example/sale" = Ok true
  /\ (String.prefix "http://" "https://ftp://files.example/sale" = true
      \/ String.prefix "https://" "https://ftp://files.example/sale" = true)
  /\ ("https://ftp://files.example/sale" = "ftp://files.example/sale"
      \/ (String.prefix "http://" "ftp://files.example/sale" = false
          /\ String.prefix "https://" "ftp://files.example/sale" = false
          /\ "https://ftp://files.example/sale"
             = "https://" +:+ "ftp://files.example/sale")).
Proof.
  split; [reflexivity|].
  apply (process_inputs_url_has_web_scheme scheme_urlparse "SAVE10"
           "ftp://files.example/sale"
           {| processed_coupon_code := "SAVE10";
              processed_website_url := "https://ftp://files.example/sale" |}).
  reflexivity.
Defined.

Lemma process_inputs_trims_coupon_code_witness :
  process_inputs scheme_urlparse "  SAVE10 " "https://shop.example/"
  = Ok {| processed_coupon_code := "SAVE10";
          processed_website_url := "https://shop.example/" |}
  /\ exists pre post,
       "  SAVE10 " = pre +:+ "SAVE10" +:+ post
       /\ Str.all_space pre = true
       /\ Str.all_space post = true
       /\ starts_with_space "SAVE10" = false
       /\ ends_with_space "SAVE10" = false.
Proof.
  split; [reflexivity|].
  apply (process_inputs_trims_coupon_code scheme_urlparse "  SAVE10 "
           "https://shop.example/"
           {| processed_coupon_code := "SAVE10";
              processed_website_url := "https://shop.example/" |}).
  reflexivity.
Defined.

Lemma blank_coupon_code_is_accepted_witness :
  (2 <= String.length "   " <= 50)%nat
  /\ Str.all_space "   " = true
  /\ validate_inputs scheme_urlparse "   " "https://shop.example/" = Ok true
  /\ exists p,
       process_inputs scheme_urlparse "   " "https://shop.example/" = Ok p
       /\ processed_coupon_code p = "".
Proof.
  assert (Hlen : (2 <= String.length "   " <= 50)%nat) by (simpl; lia).
  split; [exact Hlen|]. split; [reflexivity|].
  apply (blank_coupon_code_is_accepted scheme_urlparse "   " "https://shop.example/"
           {| scheme := "https"; netloc := "shop.example" |} Hlen);
    reflexivity.
Defined.

End InputFacts.

(** ** coupon_applicator.py: what decides the verdict *)
Module VerdictFacts.

Import WebsitePatternRecognizer CouponApplicator ClassifierFacts.

(** A field of the verdict is [None] or a non-empty string. *)
Definition nonblank (o : option string) : Prop :=
  forall s, o = Some s -> str_truthy s = true.

Definition nonblank_fields (r : Verdict) : Prop :=
  nonblank (success_message r) /\ nonblank (error_message r)
  /\ nonblank (discount_amount r).

(** Before the discount is looked at, the messages decide. *)
Definition messages_decide (r : Verdict) : Prop :=
  nonblank_fields r
  /\ discount_amount r = None
  /\ (is_valid r = true <-> error_message r = None /\ success_message r <> None).

(** In the end: no error message, and a success message or a discount. *)
Definition evidence_decides (r : Verdict) : Prop :=
  nonblank_fields r
  /\ (is_valid r = true
      <-> error_message r = None
          /\ (success_message r <> None \/ discount_amount r <> None)).

Lemma messages_decide_evidence r : messages_decide r -> evidence_decides r.
Proof.
  intros (Hn & Hd & Hv). split; [exact Hn|]. rewrite Hv, Hd. intuition congruence.
Qed.

Section WithEngine.

Context {S : Type} {E : Engine S}.

(** A message ladder records non-empty messages only. *)
Lemma trans_scan_nonblank (P : Verdict -> Prop)
    (record : string -> Verdict -> Verdict) (ladder : list string) :
  (forall m r, str_truthy m = true -> P r -> P (record m r)) ->
  trans P P (scan_message record ladder).
Proof.
  intros Hrec. induction ladder as [|selector rest IH]; simpl.
  - apply trans_ret.
  - eapply trans_bind; [apply trans_on_engine | auto |].
    intros [|]; [|exact IH].
    eapply trans_bind; [apply trans_on_engine | auto |].
    intros [text|]; [|exact IH].
    destruct (str_truthy text) eqn:Etext; [|exact IH].
    apply trans_modify. auto.
Qed.

Definition undisputed (r : Verdict) : Prop :=
  messages_decide r /\ error_message r = None.

Lemma scan_success_undisputed ladder :
  trans undisputed undisputed (scan_message record_success ladder).
Proof.
  apply trans_scan_nonblank.
  intros m r Hm [((Hs & He & Hd) & Hnone & Hv) Herr].
  repeat split; simpl; try done.
  intros s [= <-]. exact Hm.
Qed.

Lemma scan_error_decides ladder :
  trans messages_decide messages_decide (scan_message record_error ladder).
Proof.
  apply trans_scan_nonblank.
  intros m r Hm ((Hs & He & Hd) & Hnone & Hv).
  repeat split; simpl; try done.
  - intros s [= <-]. exact Hm.
  - intros [? _]. done.
Qed.

Lemma scan_both ladder1 ladder2 :
  trans undisputed messages_decide
    (scan_message record_success ladder1 >> scan_message record_error ladder2).
Proof.
  apply (trans_bind undisputed undisputed messages_decide).
  - apply scan_success_undisputed.
  - by intros r [H _].
  - intros _. eapply trans_weaken; [| | apply scan_error_decides].
    + by intros r [H _].
    + by intros r H.
Qed.

Lemma gather_messages_decides platform_info :
  trans undisputed messages_decide (gather_messages platform_info).
Proof.
  unfold gather_messages.
  apply (trans_bind undisputed messages_decide messages_decide).
  - destruct (known_platform platform_info); [apply scan_both|].
    eapply trans_weaken; [| | apply trans_ret]; [by intros r H | by intros r [H _]].
  - by intros r H.
  - intros _. apply trans_guarded.
    + eapply trans_weaken; [| | apply scan_both].
      * intros r [H Hg]. split; [exact H|]. by apply no_message_no_error.
      * by intros r H.
    + eapply trans_weaken; [| | apply trans_ret]; [by intros r [H _] | by intros r H].
Qed.

Lemma weigh_discount_decides platform_info :
  trans messages_decide evidence_decides (weigh_discount platform_info).
Proof.
  intros cs r cs' Hcs. unfold weigh_discount, bind at 1, on_engine.
  destruct (_extract_discount_amount platform_info (engine cs)) as [[d|e] s1];
    [|intros [= _ <-]; by apply messages_decide_evidence].
  destruct cs as [[v da sm em] s0].
  destruct Hcs as ((Hs & He & Hd) & Hnone & Hv). simpl in *. subst da.
  unfold bind, modify, gets, ret, update_result, no_message,
    record_discount, record_valid. simpl.
  destruct (opt_truthy d) eqn:Ed; simpl.
  - destruct d as [d|]; [|discriminate]. simpl in Ed.
    assert (Hdisc : nonblank (Some d)) by (intros s [= <-]; exact Ed).
    destruct Hv as [Hv1 Hv2].
    destruct sm as [sm|], em as [em|], v; simpl; intros [= _ <-]; simpl;
      (split; [by repeat split|]);
      (split;
       [ intros Ht;
         first [ discriminate Ht
               | by destruct (Hv1 eq_refl)
               | split; [done | first [by left | by right]] ]
       | intros [Hem _]; first [done | discriminate Hem] ]).
  - rewrite andb_false_r. intros [= _ <-]. simpl.
    split; [by repeat split|]. rewrite Hv. intuition congruence.
Qed.

(** X15: the verdict of [_check_validation_result] is decided by the
    evidence it carries.  [is_valid] is [True] exactly when no error
    message was recorded and a success message or a discount amount
    was; and every message or amount recorded is a non-empty string.
    This holds also when the scan was cut short by an exception. *)
Theorem verdict_is_decided_by_evidence (platform_info : PlatformInfo) (s s' : S)
    (v : Verdict) :
  _check_validation_result platform_info s = (Ok v, s') ->
  (is_valid v = true
   <-> error_message v = None
       /\ (success_message v <> None \/ discount_amount v <> None))
  /\ nonblank (success_message v)
  /\ nonblank (error_message v)
  /\ nonblank (discount_amount v).
Proof.
  unfold _check_validation_result.
  destruct ((gather_messages platform_info >> weigh_discount platform_info)
              {| result := initial_result; engine := s |}) as [r cs] eqn:Erun.
  intros [= <- _].
  assert (Htrans : trans undisputed evidence_decides
                     (gather_messages platform_info >> weigh_discount platform_info)).
  { apply (trans_bind undisputed messages_decide evidence_decides).
    - apply gather_messages_decides.
    - apply messages_decide_evidence.
    - intros _. apply weigh_discount_decides. }
  assert (Hinit : undisputed initial_result)
    by (repeat split; simpl; try done; intros []; done).
  destruct (Htrans {| result := initial_result; engine := s |} r cs Hinit Erun)
    as ((Hs & He & Hd) & Hv).
  done.
Qed.

(** X25: the platform's [discount_amount] selectors are used only on
    the analyzer's word.  Unless the AI confidence for
    [discount_amount] exceeds 0.8, [_extract_discount_amount] does not
    depend on the descriptor at all: platform, ladders and the other
    scores make no difference to what it does and returns. *)
Theorem discount_ladder_needs_ai_confidence (pi pi' : PlatformInfo) (s : S) :
  exceeds_threshold (ai_confidence pi "discount_amount") = false ->
  exceeds_threshold (ai_confidence pi' "discount_amount") = false ->
  _extract_discount_amount pi s = _extract_discount_amount pi' s.
Proof.
  intros H H'. unfold _extract_discount_amount. by rewrite H, H'.
Qed.

End WithEngine.

Import ApplicatorExamples.

Lemma discount_ladder_needs_ai_confidence_witness :
  exceeds_threshold (ai_confidence woocommerce_info "discount_amount") = false
  /\ _extract_discount_amount woocommerce_info discounted_page
     = _extract_discount_amount
         {| platform := "unknown"; confidence_scores := None; error := None;
            ladders := ∅; ai_confidence_scores := None |}
         discounted_page.
Proof.
  split; [reflexivity|].
  apply (discount_ladder_needs_ai_confidence woocommerce_info
           {| platform := "unknown"; confidence_scores := None; error := None;
              ladders := ∅; ai_confidence_scores := None |}
           discounted_page);
    reflexivity.
Defined.

Lemma verdict_is_decided_by_evidence_witness :
  _check_validation_result woocommerce_info rejected_page
  = (Ok {| is_valid := false; discount_amount := Some "$0.00";
           success_message := None;
           error_message := Some "Coupon code is invalid" |}, rejected_page)
  /\ (false = true
      <-> Some "Coupon code is invalid" = None
          /\ (@None string <> None \/ Some "$0.00" <> None))
  /\ nonblank None
  /\ nonblank (Some "Coupon code is invalid")
  /\ nonblank (Some "$0.00").
Proof.
  assert (Hrun : _check_validation_result woocommerce_info rejected_page
                 = (Ok {| is_valid := false; discount_amount := Some "$0.00";
                          success_message := None;
                          error_message := Some "Coupon code is invalid" |},
                    rejected_page))
    by (vm_compute; reflexivity).
  split; [exact Hrun|].
  apply (verdict_is_decided_by_evidence woocommerce_info rejected_page rejected_page
           _ Hrun).
Defined.

End VerdictFacts.

(** ** result_reporter.py: the report files *)
Module ReportFacts.

Import ResultReporter ResultReporterFacts.

(** The line of the report for an optional argument of [format_result]. *)
Definition optional_line (label : string) (argument : option string) : list string :=
  match argument with
  | Some s => if str_truthy s then [label +:+ s] else []
  | None => []
  end.

(** The lines of the report for the arguments of [format_result]. *)
Definition expected_lines (timestamp coupon_code website_url : string) (is_valid : bool)
    (status_message : string) (error_message discount_amount screenshot_path : option string)
    : list string :=
  [ "Coupon Validation Report";
    "=======================";
    "";
    "Coupon Code: " +:+ coupon_code;
    "Website: " +:+ website_url;
    "Timestamp: " +:+ timestamp;
    "Valid: " +:+ (if is_valid then "Yes" else "No");
    "Status: " +:+ status_message ]
  ++ optional_line "Error: " error_message
  ++ optional_line "Discount Amount: " discount_amount
  ++ optional_line "Screenshot: " screenshot_path.

Lemma formatted_lookups timestamp coupon_code website_url is_valid status_message
    error_message discount_amount screenshot_path :
  let result :=
    format_result timestamp coupon_code website_url is_valid status_message
      error_message discount_amount screenshot_path in
  result !! "coupon_code" = Some (VStr coupon_code)
  /\ result !! "website_url" = Some (VStr website_url)
  /\ result !! "timestamp" = Some (VStr timestamp)
  /\ result !! "is_valid" = Some (VBool is_valid)
  /\ result !! "status" = Some (VStr status_message)
  /\ result !! "error_message"
     = (if opt_truthy error_message then VStr <$> error_message else None)
  /\ result !! "discount_amount"
     = (if opt_truthy discount_amount then VStr <$> discount_amount else None)
  /\ result !! "screenshot_path"
     = (if opt_truthy screenshot_path then VStr <$> screenshot_path else None).
Proof.
  intros result. unfold result, format_result.
  repeat split;
    repeat first
      [ rewrite set_if_truthy_lookup_ne by discriminate
      | rewrite set_if_truthy_lookup;
        match goal with
        | |- context [opt_truthy ?o] => destruct (opt_truthy o); [done|]
        end ];
    done.
Qed.

Lemma report_content_of_formatted now timestamp coupon_code website_url is_valid
    status_message error_message discount_amount screenshot_path :
  report_content now
    (format_result timestamp coupon_code website_url is_valid status_message
       error_message discount_amount screenshot_path)
  = expected_lines timestamp coupon_code website_url is_valid status_message
      error_message discount_amount screenshot_path.
Proof.
  destruct (formatted_lookups timestamp coupon_code website_url is_valid status_message
              error_message discount_amount screenshot_path)
    as (Hc & Hu & Ht & Hv & Hs & He & Hd & Hp).
  unfold report_content, expected_lines, optional_line.
  rewrite Hc, Hu, Ht, Hv, Hs, He, Hd, Hp. clear. simpl.
  destruct error_message as [e|]; [destruct (str_truthy e) eqn:Ee|];
    destruct discount_amount as [d|]; try destruct (str_truthy d) eqn:Ed;
    destruct screenshot_path as [p|]; try destruct (str_truthy p) eqn:Ep;
    cbn; rewrite ?Ee, ?Ed, ?Ep; cbn; rewrite ?Ee, ?Ed, ?Ep; reflexivity.
Qed.

Section WithFiles.

Context {W : Type} {FW : Files W}.

(** X16: [generate_report] on a result built by [format_result]
    writes, when the write succeeds, the eight fixed lines followed by
    one line for each of error message, discount amount and
    screenshot path that was given and non-empty, in this order and
    joined by newlines, to the file named after the clock reading and
    the coupon code with its spaces replaced by underscores, and
    returns the path of that file. *)
Theorem formatted_result_is_reported
    (output_dir timestamp coupon_code website_url : string) (is_valid : bool)
    (status_message : string)
    (error_message discount_amount screenshot_path : option string) (w w' : W) :
  let result :=
    format_result timestamp coupon_code website_url is_valid status_message
      error_message discount_amount screenshot_path in
  let file_path :=
    path_join output_dir
      (now_strftime "%Y%m%d_%H%M%S" w +:+ "_"
       +:+ Str.replace " "%char "_" coupon_code +:+ "_report.txt") in
  write_text file_path
    (Str.join newline
       (expected_lines timestamp coupon_code website_url is_valid status_message
          error_message discount_amount screenshot_path)) w
  = (Ok tt, w') ->
  generate_report output_dir result w = (Ok file_path, w').
Proof.
  intros result file_path Hwrite.
  destruct (formatted_lookups timestamp coupon_code website_url is_valid
              status_message error_message discount_amount screenshot_path)
    as (Hc & _).
  unfold generate_report, try_except, bind, gets, lift_res, ret.
  unfold result. rewrite report_content_of_formatted, Hc.
  change (replace_spaces (default (VStr "unknown") (Some (VStr coupon_code))))
    with (Ok (A := string) (Str.replace " "%char "_" coupon_code)).
  cbv beta iota. fold file_path. rewrite Hwrite. reflexivity.
Qed.

(** X17: [save_result] and [generate_report] return normally for every
    result dictionary and every file system: a failed write comes back
    as a returned string, not as an exception.  When the value under
    [coupon_code] is not a string, both return the empty string and
    write nothing. *)
Theorem report_writers_never_raise (output_dir : string)
    (result : gmap string value) (w : W) :
  (exists path w', save_result output_dir result w = (Ok path, w'))
  /\ (exists path w', generate_report output_dir result w = (Ok path, w'))
  /\ (forall b, result !! "coupon_code" = Some (VBool b) ->
        save_result output_dir result w = (Ok "", w)
        /\ generate_report output_dir result w = (Ok "", w)).
Proof.
  split; [|split].
  - unfold save_result, try_except.
    match goal with
    | |- context [match ?m w with _ => _ end] => destruct (m w) as [[path|e] w']
    end; eauto.
  - unfold generate_report, try_except.
    match goal with
    | |- context [match ?m w with _ => _ end] => destruct (m w) as [[path|e] w']
    end; eauto.
  - intros b Hb.
    unfold save_result, generate_report, try_except, bind, gets, lift_res, ret.
    rewrite Hb. done.
Qed.

End WithFiles.

Import ReporterExamples.

Lemma formatted_result_is_reported_witness :
  generate_report "./output"
    (format_result "2024-01-01 00:00:00" "SAVE 10" "https://shop.example/" false
       "Coupon validation complete" (Some "Coupon code is invalid") (Some "") None)
    empty_disk
  = (Ok "./output/20240101_000000_SAVE_10_report.txt",
     {| files :=
          [ ("./output/20240101_000000_SAVE_10_report.txt",
             Str.join newline
               [ "Coupon Validation Report";
                 "=======================";
                 "";
                 "Coupon Code: SAVE 10";
                 "Website: https://shop.example/";
                 "Timestamp: 2024-01-01 00:00:00";
                 "Valid: No";
                 "Status: Coupon validation complete";
                 "Error: Coupon code is invalid" ]) ];
        writable := true |}).
Proof.
  exact (formatted_result_is_reported "./output" "2024-01-01 00:00:00" "SAVE 10"
           "https://shop.example/" false "Coupon validation complete"
           (Some "Coupon code is invalid") (Some "") None empty_disk
           {| files :=
                [ ("./output/20240101_000000_SAVE_10_report.txt",
                   Str.join newline
                     [ "Coupon Validation Report";
                       "=======================";
                       "";
                       "Coupon Code: SAVE 10";
                       "Website: https://shop.example/";
                       "Timestamp: 2024-01-01 00:00:00";
                       "Valid: No";
                       "Status: Coupon validation complete";
                       "Error: Coupon code is invalid" ]) ];
              writable := true |}
           eq_refl).
Defined.

End ReportFacts.

(** ** ai_website_analyzer.py: detection and selector generation *)
Module AnalyzerFacts.

Import AIWebsiteAnalyzer.

Section WithModel.

Variable similarity : string -> string -> Q.

(** The similarity of an element to an element type. *)
Definition score (element_type : string) (element : Element) : Q :=
  similarity (element_desc element) element_type.

(** The inner loop keeps the running maximum, and the element that
    first reached it. *)
Lemma best_of_spec element_type elements best_match best_score :
  let '(found, top) := best_of similarity element_type elements best_match best_score in
  (best_score <= top)%Q
  /\ (forall element, In element elements -> (score element_type element <= top)%Q)
  /\ ((found = best_match /\ top = best_score)
      \/ exists element,
           In element elements /\ found = Some element
           /\ top = score element_type element).
Proof.
  revert best_match best_score.
  induction elements as [|element rest IH]; intros best_match best_score; simpl.
  - split; [apply Qle_refl|]. split; [intros ? []|]. by left.
  - fold (score element_type element).
    destruct (Qle_bool (score element_type element) best_score) eqn:Ele; simpl.
    + apply Qle_bool_iff in Ele.
      specialize (IH best_match best_score).
      destruct (best_of similarity element_type rest best_match best_score)
        as [found top].
      destruct IH as (Hle & Hall & Hfound).
      split; [exact Hle|]. split.
      * intros e [<-|He]; [by eapply Qle_trans | by apply Hall].
      * destruct Hfound as [H|(e & He & H)]; [by left|].
        right. exists e. split; [by right | exact H].
    + assert (Hlt : (best_score < score element_type element)%Q).
      { apply Qnot_le_lt. intros H. apply Qle_bool_iff in H. congruence. }
      specialize (IH (Some element) (score element_type element)).
      destruct (best_of similarity element_type rest (Some element)
                  (score element_type element)) as [found top].
      destruct IH as (Hle & Hall & Hfound).
      split; [eapply Qle_trans; [apply Qlt_le_weak, Hlt | exact Hle]|]. split.
      * intros e [<-|He]; [exact Hle | by apply Hall].
      * right. destruct Hfound as [[-> ->]|(e & He & H)].
        -- exists element. split; [by left | done].
        -- exists e. split; [by right | exact H].
Qed.

(** What one pass of the outer loop decides for an element type. *)
Definition detects (elements : list Element) (element_type : string)
    (element : Element) (confidence : Q) : Prop :=
  In element elements
  /\ confidence = score element_type element
  /\ (threshold < confidence)%Q
  /\ forall other, In other elements -> (score element_type other <= confidence)%Q.

Lemma analyze_types_spec types elements :
  let results := analyze_types similarity types elements in
  map fst (detected_elements results) = map fst (confidence_scores results)
  /\ (forall element_type element,
         In (element_type, element) (detected_elements results) ->
         In element_type types
         /\ exists confidence,
              In (element_type, confidence) (confidence_scores results)
              /\ detects elements element_type element confidence)
  /\ (forall element_type confidence,
         In (element_type, confidence) (confidence_scores results) ->
         (threshold < confidence)%Q
         /\ exists element, In (element_type, element) (detected_elements results))
  /\ (forall element_type element,
         In element_type types -> In element elements ->
         (threshold < score element_type element)%Q ->
         exists found, In (element_type, found) (detected_elements results)).
Proof.
  induction types as [|element_type rest (Hkeys & Hsound & Hscores & Hcomplete)];
    simpl.
  { repeat split; try done; intros ? ? []. }
  pose proof (best_of_spec element_type elements None 0) as Hbest.
  destruct (best_of similarity element_type elements None 0) as [[best|] top].
  - destruct Hbest as (Hzero & Hall & Hfound).
    destruct Hfound as [[? _]|(e & He & [= <-] & ->)]; [done|].
    destruct (Qle_bool (score element_type best) threshold) eqn:Ele; simpl.
    + apply Qle_bool_iff in Ele.
      split; [exact Hkeys|]. split.
      { intros t e Hin. destruct (Hsound t e Hin) as [Ht Hc]. split; [by right | exact Hc]. }
      split; [exact Hscores|].
      intros t e [<-|Ht] He' Hlt; [|by eapply Hcomplete].
      exfalso. apply (Qlt_irrefl threshold).
      eapply Qlt_le_trans; [exact Hlt|]. eapply Qle_trans; [by apply Hall | exact Ele].
    + assert (Hlt : (threshold < score element_type best)%Q).
      { apply Qnot_le_lt. intros H. apply Qle_bool_iff in H. congruence. }
      split; [by rewrite Hkeys|]. split.
      { intros t e [[= <- <-]|Hin].
        - split; [by left|]. exists (score element_type best).
          split; [by left|]. by repeat split.
        - destruct (Hsound t e Hin) as [Ht (c & Hc & Hd)].
          split; [by right|]. exists c. split; [by right | exact Hd]. }
      split.
      { intros t c [[= <- <-]|Hin].
        - split; [exact Hlt|]. exists best. by left.
        - destruct (Hscores t c Hin) as [Hc (e & He')].
          split; [exact Hc|]. exists e. by right. }
      intros t e [<-|Ht] He' Hlt'.
      * exists best. by left.
      * destruct (Hcomplete t e Ht He' Hlt') as [found Hf]. exists found. by right.
  - destruct Hbest as (Hzero & Hall & Hfound).
    destruct Hfound as [[_ ->]|(e & He & [=] & _)].
    split; [exact Hkeys|]. split.
    { intros t e Hin. destruct (Hsound t e Hin) as [Ht Hc]. split; [by right | exact Hc]. }
    split; [exact Hscores|].
    intros t e [<-|Ht] He' Hlt; [|by eapply Hcomplete].
    exfalso. apply (Qlt_irrefl threshold).
    eapply Qlt_le_trans; [exact Hlt|].
    eapply Qle_trans; [by apply Hall | done].
Qed.

(** X18: what [_analyze_elements] reports.  The two dictionaries have
    the same keys in the same order.  An element type is reported with
    an element exactly when some element's similarity to it exceeds
    0.7; the element reported is one of the given elements, its
    similarity is the reported confidence, and no given element is more
    similar to that type.  Every reported confidence exceeds 0.7. *)
Theorem analysis_reports_best_matches (elements : list Element) :
  let results := _analyze_elements similarity elements in
  map fst (detected_elements results) = map fst (confidence_scores results)
  /\ (forall element_type element,
         In (element_type, element) (detected_elements results) ->
         In element_type element_types
         /\ exists confidence,
              In (element_type, confidence) (confidence_scores results)
              /\ In element elements
              /\ confidence = similarity (element_desc element) element_type
              /\ (7 # 10 < confidence)%Q
              /\ forall other,
                   In other elements ->
                   (similarity (element_desc other) element_type <= confidence)%Q)
  /\ (forall element_type confidence,
         In (element_type, confidence) (confidence_scores results) ->
         (7 # 10 < confidence)%Q
         /\ exists element, In (element_type, element) (detected_elements results))
  /\ (forall element_type element,
         In element_type element_types -> In element elements ->
         (7 # 10 < similarity (element_desc element) element_type)%Q ->
         exists found, In (element_type, found) (detected_elements results)).
Proof. apply analyze_types_spec. Qed.

End WithModel.

(** *** Selector generation *)

Lemma split_from_nil word s :
  Str.split_from word s = [] <-> word = "" /\ Str.all_space s = true.
Proof.
  revert word. induction s as [|c s IH]; intros word; simpl.
  - destruct word; simpl; split; try done. by intros [? _].
  - destruct (Str.isspace c) eqn:Ec; simpl.
    + destruct word as [|d word]; simpl.
      * rewrite IH. tauto.
      * split; [done | by intros [? _]].
    + rewrite IH. split; [|by intros [_ ?]].
      intros [H _]. by destruct word.
Qed.

Lemma split_nil s : Str.split s = [] <-> Str.all_space s = true.
Proof. unfold Str.split. rewrite split_from_nil. tauto. Qed.

Lemma all_space_app a b :
  Str.all_space (a +:+ b) = Str.all_space a && Str.all_space b.
Proof.
  induction a as [|c a IH]; [done|].
  rewrite WebsitePatternRecognizerFacts.append_cons. simpl.
  by rewrite IH, andb_assoc.
Qed.

Lemma strip_nil s : Str.strip s = "" <-> Str.all_space s = true.
Proof.
  split; [|apply InputFacts.strip_all_space].
  intros Hs. destruct (InputFacts.strip_spec s) as (pre & post & E & Hpre & Hpost & _).
  rewrite Hs in E. rewrite E, !all_space_app, Hpre, Hpost. done.
Qed.

(** An attribute that is missing, empty or made of whitespace. *)
Definition blank (attribute : option string) : bool :=
  match attribute with
  | Some v => Str.all_space v
  | None => true
  end.

(** A text of 50 characters or more. *)
Definition long_text (attribute : option string) : bool :=
  match attribute with
  | Some v => (50 <=? String.length v)%nat
  | None => false
  end.

Lemma when_truthy_nil attribute selectors :
  when_truthy attribute selectors = []
  <-> opt_truthy attribute = false
      \/ exists v, attribute = Some v /\ selectors v = [].
Proof.
  unfold when_truthy. destruct attribute as [v|]; simpl.
  - destruct (str_truthy v); split; try tauto.
    + eauto.
    + intros [?|(v' & [= <-] & H)]; done.
  - tauto.
Qed.

Lemma blank_falsy attribute : opt_truthy attribute = false -> blank attribute = true.
Proof. destruct attribute as [[|c v]|]; done. Qed.

(** X19: when [get_element_selectors] has nothing to offer.  The
    selectors generated for an element are the empty list exactly when
    its [id], [name] and [placeholder] are missing or empty, its [class]
    is missing or holds whitespace only, and its [text] is missing, holds
    whitespace only, or has 50 characters or more. *)
Theorem no_selectors_iff_nothing_to_name (element : Element) :
  element_selectors element = []
  <-> opt_truthy (element_id element) = false
      /\ blank (element_class element) = true
      /\ opt_truthy (element_name element) = false
      /\ opt_truthy (element_placeholder element) = false
      /\ (blank (element_text element) = true \/ long_text (element_text element) = true).
Proof.
  unfold element_selectors.
  rewrite !app_nil, !when_truthy_nil.
  assert (Hclass : forall class, class_selectors class = [] <-> Str.all_space class = true).
  { intros class. rewrite <- split_nil. unfold class_selectors.
    destruct (Str.split class) as [|c0 [|c1 more]]; done. }
  assert (Htext : forall text,
             text_selectors (element_type element) text = []
             <-> Str.all_space text = true \/ (50 <=? String.length text)%nat = true).
  { intros text. unfold text_selectors.
    destruct (String.length text <? 50)%nat eqn:Elen.
    - apply Nat.ltb_lt in Elen.
      assert ((50 <=? String.length text)%nat = false) as -> by (apply Nat.leb_gt; lia).
      rewrite <- strip_nil.
      destruct (Str.strip text); simpl; split; try done; try tauto.
      intros [?|?]; done.
    - apply Nat.ltb_ge in Elen.
      assert ((50 <=? String.length text)%nat = true) as -> by (by apply Nat.leb_le).
      tauto. }
  split.
  - intros (Hid & Hc & Hn & Hp & Ht).
    split; [by destruct Hid as [?|(? & _ & ?)]|].
    split.
    { destruct Hc as [Hc|(v & -> & Hv)]; [by apply blank_falsy|]. by apply Hclass. }
    split; [by destruct Hn as [?|(? & _ & ?)]|].
    split; [by destruct Hp as [?|(? & _ & ?)]|].
    destruct Ht as [Ht|(v & -> & Hv)]; [left; by apply blank_falsy|].
    apply Htext in Hv. exact Hv.
  - intros (Hid & Hc & Hn & Hp & Ht).
    split; [by left|]. split.
    { destruct (element_class element) as [v|]; [|by left].
      right. exists v. split; [done|]. by apply Hclass. }
    split; [by left|]. split; [by left|].
    destruct (element_text element) as [v|]; [|by left].
    right. exists v. split; [done|]. by apply Htext.
Qed.

Import AnalyzerExamples.

(** The selectors of an input with id, two classes and a name, and of a
    link whose only usable attribute is its text. *)
Example coupon_input_selectors :
  element_selectors coupon_input
  = [ "#coupon_code"; ".input-text"; ".input-text.promo"; "input[name='coupon']" ].
Proof. reflexivity. Qed.

Example apply_link_selectors :
  element_selectors apply_link = [ "link:contains('Apply')" ].
Proof. reflexivity. Qed.

Example coupon_input_is_detected :
  _analyze_elements coupon_similarity [apply_link; coupon_input]
  = {| detected_elements := [("coupon_field", coupon_input)];
       confidence_scores := [("coupon_field", 92 # 100)] |}.
Proof. reflexivity. Qed.

End AnalyzerFacts.

(** ** website_pattern_recognizer.py and main.py: the descriptor *)
Module DescriptorFacts.

Import WebsitePatternRecognizer WebsitePatternRecognizerFacts.
Import Main.
Import BrowserEngine (Playwright, State).

(** No role of the descriptor has the empty ladder. *)
Definition no_empty_ladder (pi : PlatformInfo) : Prop :=
  forall role, ladders pi !! role <> Some [].

(** The descriptor of the [except] clause of [identify_platform]. *)
Definition unknown_because (e : string) : PlatformInfo :=
  {| platform := "unknown"; confidence_scores := None; error := Some e;
     ladders := ∅; ai_confidence_scores := None |}.

Lemma detect_known (scores : list (string * Z)) :
  detect scores = "unknown" \/ In (detect scores) (map fst scores).
Proof.
  unfold detect. destruct scores as [|entry rest]; [by left|].
  destruct (0 <? max_score (entry :: rest)); [|by left].
  destruct (first_with_score (entry :: rest) (max_score (entry :: rest)))
    as [platform|] eqn:Efirst; [|by left].
  right. by eapply first_with_score_key.
Qed.

Lemma confidence_scores_keys table html url :
  map fst (confidence_scores_of table html url) = map fst table.
Proof. unfold confidence_scores_of. rewrite map_map. reflexivity. Qed.

Lemma dict_get_In {A : Type} key (d : list (string * A)) v :
  dict_get key d = Some v -> In (key, v) d.
Proof.
  induction d as [|[k a] rest IH]; simpl; [done|].
  destruct (String.eqb k key) eqn:Ek.
  - apply String.eqb_eq in Ek as ->. intros [= ->]. by left.
  - intros H. right. by apply IH.
Qed.

(** Every ladder of the selector table has a selector. *)
Definition ladders_filled (roles : list (string * list string)) : bool :=
  forallb (fun entry => negb (Nat.eqb (length (snd entry)) 0)) roles.

Lemma platform_selectors_filled :
  forallb (fun entry => ladders_filled (snd entry)) platform_selectors = true.
Proof. vm_compute. reflexivity. Qed.

Lemma identify_no_empty_ladder html url : no_empty_ladder (identify html url).
Proof.
  intros role. unfold identify. cbn [ladders].
  match goal with
  | |- context [dict_get ?p platform_selectors] =>
      destruct (dict_get p platform_selectors) as [roles|] eqn:Eget
  end; [|by rewrite lookup_empty].
  apply dict_get_In in Eget.
  pose proof platform_selectors_filled as Hfilled.
  rewrite forallb_forall in Hfilled. specialize (Hfilled _ Eget). simpl in Hfilled.
  unfold ladders_filled in Hfilled. rewrite forallb_forall in Hfilled.
  intros Hrole. apply elem_of_list_to_map_2 in Hrole.
  apply list_elem_of_In in Hrole. specialize (Hfilled _ Hrole). done.
Qed.

Section WithWorld.

Context {W : Type} {PW : Playwright W} {C : Collaborators W}.

(** [identify_platform] returns what [identify] computes from the
    page, or the descriptor of its [except] clause. *)
Lemma identify_platform_cases (st : State W) :
  exists pi st',
    identify_platform st = (Ok pi, st')
    /\ ((exists html url, pi = identify html url)
        \/ exists e, pi = unknown_because e).
Proof.
  unfold identify_platform, try_except.
  match goal with
  | |- context [match ?m st with _ => _ end] =>
      destruct (m st) as [[pi|e] st'] eqn:Ebody
  end.
  - exists pi, st'. split; [reflexivity|]. left.
    apply NavigationFacts.bind_Ok in Ebody as (h & st1 & _ & Ebody).
    apply NavigationFacts.bind_Ok in Ebody as (html & st2 & _ & Ebody).
    apply NavigationFacts.bind_Ok in Ebody as (url & st3 & _ & Ebody).
    apply NavigationFacts.bind_Ok in Ebody as (shot & st4 & _ & Ebody).
    destruct url as [url|]; [|discriminate].
    injection Ebody as <- _. eauto.
  - eexists _, _. split; [reflexivity|]. right. by exists e.
Qed.

Lemma identify_platform_shape (st st' : State W) (pi : PlatformInfo) :
  identify_platform st = (Ok pi, st') ->
  (platform pi = "unknown" \/ In (platform pi) (map fst platform_patterns))
  /\ (platform pi = "unknown" -> ladders pi = ∅)
  /\ no_empty_ladder pi.
Proof.
  intros Erun.
  destruct (identify_platform_cases st) as (pi0 & st0 & Erun0 & Hpi).
  rewrite Erun in Erun0. injection Erun0 as <- <-.
  destruct Hpi as [(html & url & ->)|(e & ->)].
  - split; [|split].
    + unfold identify. cbn [platform].
      rewrite <- (confidence_scores_keys platform_patterns html url).
      apply detect_known.
    + unfold identify. cbn [platform ladders]. by intros ->.
    + apply identify_no_empty_ladder.
  - split; [by left|]. split; [done|].
    intros role. simpl. by rewrite lookup_empty.
Qed.

(** X20: [identify_platform] always answers: it returns normally from
    every state, and the platform it names is [unknown] or one of the
    platforms of the signature table.  On an engine without a page the
    answer is [unknown] with the error text and without selectors, and
    nothing has been touched.  In every answer, each role that is
    present has at least one selector, and [unknown] comes without any
    role. *)
Theorem identify_platform_always_answers (st : State W) :
  exists pi st',
    identify_platform st = (Ok pi, st')
    /\ (platform pi = "unknown" \/ In (platform pi) (map fst platform_patterns))
    /\ (platform pi = "unknown" -> ladders pi = ∅)
    /\ (forall role, ladders pi !! role <> Some [])
    /\ (BrowserEngine.page (BrowserEngine.self st) = None ->
        pi = unknown_because "'NoneType' object has no attribute 'content'"
        /\ st' = st).
Proof.
  destruct (identify_platform_cases st) as (pi & st' & Erun & _).
  exists pi, st'. split; [exact Erun|].
  destruct (identify_platform_shape _ _ _ Erun) as (H1 & H2 & H3).
  split; [exact H1|]. split; [exact H2|]. split; [exact H3|].
  intros Hpage. revert Erun.
  unfold identify_platform, try_except, bind, BrowserEngine.get_page, ret.
  rewrite Hpage. by intros [= <- <-].
Qed.

(** X21: the analyzer's selectors never reach a descriptor that
    [identify_platform] produced.  Whatever the analyzer detects and
    suggests, the AI merge of [validate_coupon] returns the platform
    and every ladder as [identify_platform] set them: the merge only
    fills roles whose ladder is empty, and there is none. *)
Theorem ai_merge_keeps_identified_ladders
    (st st' : State W) (pi pi' : PlatformInfo) (f f' : Frame W) :
  identify_platform st = (Ok pi, st') ->
  enhance_with_ai pi f = (Ok pi', f') ->
  platform pi' = platform pi /\ ladders pi' = ladders pi.
Proof.
  intros Hidentify Hmerge.
  destruct (identify_platform_shape _ _ _ Hidentify) as (_ & _ & Hfilled).
  destruct (LadderFacts.enhance_with_ai_keeps _ _ _ _ Hmerge) as [Hplatform Hkeep].
  split; [exact Hplatform|].
  apply map_eq. intros role. apply Hkeep, Hfilled.
Qed.

(** X24: a failing analyzer degrades silently.  When the analysis
    raises, or returns without detected elements (as its own [except]
    clause does), the AI merge returns the descriptor it was given,
    unchanged in every field, and adds no event. *)
Theorem failed_analysis_changes_nothing
    (pi : PlatformInfo) (f : Frame W) (e0 e1 : BrowserEngine.t) (w1 : W)
    (r : res AIAnalysis) :
  browser_engine f = Some e0 ->
  analyze_website_structure e0 (world f) = (r, (e1, w1)) ->
  (forall analysis, r = Ok analysis -> detected_elements analysis = []) ->
  enhance_with_ai pi f
  = (Ok pi,
     {| browser_engine := Some e1;
        result_reporter_bound := result_reporter_bound f;
        screenshot_path := screenshot_path f;
        world := w1;
        events := events f |}).
Proof.
  intros He Hrun Hnone.
  unfold enhance_with_ai, try_except, bind, on_frame, step, on_browser.
  simpl. rewrite He. simpl. rewrite Hrun. simpl.
  destruct r as [analysis|e]; [|reflexivity].
  rewrite (Hnone analysis eq_refl). reflexivity.
Qed.

End WithWorld.

Import ApplicatorExamples MainExamples.

Lemma failed_analysis_changes_nothing_witness :
  browser_engine (bound_frame healthy) = Some (BrowserEngine.self (started healthy))
  /\ enhance_with_ai (C := offline_collaborators) woocommerce_info (bound_frame healthy)
     = (Ok woocommerce_info, bound_frame healthy).
Proof.
  split; [reflexivity|].
  exact (failed_analysis_changes_nothing (C := offline_collaborators)
           woocommerce_info (bound_frame healthy)
           (BrowserEngine.self (started healthy)) (BrowserEngine.self (started healthy))
           healthy (Ok {| detected_elements := []; ai_scores := None |})
           eq_refl eq_refl
           (fun analysis H =>
              match H in (_ = r) return
                match r with Ok a => detected_elements a = [] | Raise _ => True end
              with eq_refl => eq_refl end)).
Defined.

Lemma ai_merge_keeps_identified_ladders_witness :
  identify_platform (started healthy) = (Ok woocommerce_info, started healthy)
  /\ platform (merged_info woocommerce_info (bound_frame healthy))
     = platform woocommerce_info
  /\ ladders (merged_info woocommerce_info (bound_frame healthy))
     = ladders woocommerce_info.
Proof.
  assert (Hidentify : identify_platform (started healthy)
                      = (Ok woocommerce_info, started healthy))
    by (vm_compute; reflexivity).
  assert (Hmerge : enhance_with_ai woocommerce_info (bound_frame healthy)
                   = (Ok (merged_info woocommerce_info (bound_frame healthy)),
                      snd (enhance_with_ai woocommerce_info (bound_frame healthy))))
    by (vm_compute; reflexivity).
  split; [exact Hidentify|].
  exact (ai_merge_keeps_identified_ladders (PW := shop_site) (C := sim_collaborators)
           (started healthy) (started healthy) woocommerce_info
           (merged_info woocommerce_info (bound_frame healthy))
           (bound_frame healthy)
           (snd (enhance_with_ai woocommerce_info (bound_frame healthy)))
           Hidentify Hmerge).
Defined.

End DescriptorFacts.

(** ** coupon_applicator.py driven by browser_engine.py *)
Module BindingFacts.

Import WebsitePatternRecognizer BrowserEngine EngineBinding.

Lemma bind_step {S A B : Type} (m : M S A) (k : A -> M S B) (s s1 : S) (a : A) :
  m s = (Ok a, s1) -> bind m k s = k a s1.
Proof. intros H. unfold bind. by rewrite H. Qed.

Section WithDriver.

Context {W : Type} {PW : Playwright W} {IW : Interaction W}.

Variable magento_handler : M (State W) bool.
Variable skullcandy_handler : M (State W) bool.
Variable re_search : CouponApplicator.Pattern -> string -> option string.

Definition engine : CouponApplicator.Engine (State W) :=
  as_applicator_engine magento_handler skullcandy_handler re_search.

(** No element ever becomes visible: every wait for a selector raises
    (it times out). *)
Definition nothing_visible : Prop :=
  forall h selector timeout w,
    exists e w', page_wait_for_selector h selector timeout w = (Raise e, w').

(** The platform handlers catch their own exceptions. *)
Definition handlers_return : Prop :=
  (forall st, exists found st', magento_handler st = (Ok found, st'))
  /\ (forall st, exists found st', skullcandy_handler st = (Ok found, st')).

Lemma is_visible_never (selector : string) (st : State W) :
  nothing_visible ->
  exists st', is_visible selector 5000 st = (Ok false, st').
Proof.
  intros Hnone. unfold is_visible.
  destruct (page (self st)) as [h|]; [|eauto].
  unfold try_except, bind, call, ret.
  destruct (Hnone h selector 5000 (world st)) as (e & w' & ->). eauto.
Qed.

Lemma first_visible_never (ladder : list string) (st : State W) :
  nothing_visible ->
  exists st', CouponApplicator.first_visible (E := engine) ladder st = (Ok None, st').
Proof.
  intros Hnone. revert st. induction ladder as [|selector rest IH]; intros st; simpl.
  - eauto.
  - destruct (is_visible_never selector st Hnone) as [st1 Evisible].
    rewrite (bind_step _ _ _ _ _ Evisible). apply IH.
Qed.

Lemma take_screenshot_returns path (st : State W) :
  exists taken st', take_screenshot path st = (Ok taken, st').
Proof.
  unfold take_screenshot. destruct (page (self st)) as [h|]; [|eauto].
  unfold try_except, bind, call, ret.
  destruct (page_screenshot h path (world st)) as [[[]|e] w']; eauto.
Qed.

(** The search for the coupon field ends without a field. *)
Lemma fill_coupon_field_finds_nothing platform_info coupon_code (st : State W) :
  nothing_visible ->
  exists log st',
    CouponApplicator.fill_coupon_field (E := engine) platform_info coupon_code st
    = (Ok (false, log), st').
Proof.
  intros Hnone. unfold CouponApplicator.fill_coupon_field.
  assert (Hplatform : exists st1,
             (if CouponApplicator.known_platform platform_info
              then CouponApplicator.first_visible (E := engine)
                     (CouponApplicator.role_ladder platform_info "coupon_field")
              else ret None) st = (Ok None, st1)).
  { destruct (CouponApplicator.known_platform platform_info);
      [by apply first_visible_never | eauto]. }
  destruct Hplatform as [st1 Hplatform].
  rewrite (bind_step _ _ _ _ _ Hplatform).
  destruct (first_visible_never CouponApplicator.coupon_toggle_selectors st1 Hnone)
    as [st2 Htoggle].
  rewrite (bind_step _ _ _ _ _ Htoggle).
  unfold bind at 1, ret at 1.
  destruct (first_visible_never CouponApplicator.coupon_field_selectors st2 Hnone)
    as [st3 Hgeneric].
  rewrite (bind_step _ _ _ _ _ Hgeneric).
  unfold try_except, bind. simpl. unfold raise, ret. eauto.
Qed.

(** X22: [apply_coupon] driven by [BrowserEngine], when no element
    ever becomes visible.  For every descriptor and coupon code the
    answer is the failure [Could not find coupon input field]: the
    script fallback of the field search calls
    [browser_engine.evaluate], a method [BrowserEngine] does not
    have, and the resulting exception counts as not found. *)
Theorem apply_coupon_without_visible_field
    (platform_info : PlatformInfo) (coupon_code : string) (st : State W) :
  nothing_visible ->
  handlers_return ->
  exists st',
    CouponApplicator.apply_coupon (E := engine) platform_info coupon_code st
    = (Ok (CouponApplicator.NotApplied "Could not find coupon input field"), st').
Proof.
  intros Hnone [Hmagento Hskullcandy].
  unfold CouponApplicator.apply_coupon, try_except.
  destruct (take_screenshot_returns "/tmp/before_coupon_application.png" st)
    as (taken & st1 & Hshot).
  change (CouponApplicator.take_screenshot "/tmp/before_coupon_application.png")
    with (take_screenshot (W := W) "/tmp/before_coupon_application.png").
  rewrite (bind_step _ _ _ _ _ Hshot).
  assert (Hm : exists st2,
             (if String.eqb (platform platform_info) "magento"
              then CouponApplicator.magento_find_and_expand_coupon_section
                     (Engine := engine) >> ret tt
              else ret tt) st1 = (Ok tt, st2)).
  { destruct (String.eqb (platform platform_info) "magento"); [|eauto].
    destruct (Hmagento st1) as (found & st2 & Hfound).
    exists st2. unfold bind. simpl. by rewrite Hfound. }
  destruct Hm as [st2 Hm]. rewrite (bind_step _ _ _ _ _ Hm).
  assert (Hs : exists st3,
             (if String.eqb (platform platform_info) "skullcandy"
              then CouponApplicator.skullcandy_find_and_expand_coupon_section
                     (Engine := engine) >> ret tt
              else ret tt) st2 = (Ok tt, st3)).
  { destruct (String.eqb (platform platform_info) "skullcandy"); [|eauto].
    destruct (Hskullcandy st2) as (found & st3 & Hfound).
    exists st3. unfold bind. simpl. by rewrite Hfound. }
  destruct Hs as [st3 Hs]. rewrite (bind_step _ _ _ _ _ Hs).
  destruct (fill_coupon_field_finds_nothing platform_info coupon_code st3 Hnone)
    as (log & st4 & Hfield).
  rewrite (bind_step _ _ _ _ _ Hfield). simpl. eauto.
Qed.

End WithDriver.

Import ApplicatorExamples MainExamples.

Lemma apply_coupon_without_visible_field_witness :
  nothing_visible (IW := unresponsive)
  /\ handlers_return (W := Sim) (ret true) (ret true)
  /\ exists st',
       CouponApplicator.apply_coupon
         (E := engine (PW := shop_site) (IW := unresponsive) (ret true) (ret true)
                 (fun _ _ => None))
         woocommerce_info "SAVE10" (started healthy)
       = (Ok (CouponApplicator.NotApplied "Could not find coupon input field"), st').
Proof.
  assert (Hnone : nothing_visible (IW := unresponsive))
    by (intros h selector timeout w; eexists _, _; reflexivity).
  assert (Hreturn : handlers_return (W := Sim) (ret true) (ret true))
    by (split; intros st; eexists _, _; reflexivity).
  split; [exact Hnone|]. split; [exact Hreturn|].
  exact (apply_coupon_without_visible_field (PW := shop_site) (IW := unresponsive)
           (ret true) (ret true) (fun _ _ => None)
           woocommerce_info "SAVE10" (started healthy) Hnone Hreturn).
Defined.

End BindingFacts.
